(** * anicreator: job polling and client-side story reconciliation

  A shallow embedding of the client orchestration code of the story maker:
  the job poller of the API client ([api.pollJobUntilComplete]), the story
  context ([StoryProvider]), the scene editor ([SceneGeneration]) and the
  final-video page ([FinalVideoPage]), with the properties the
  specification states about them, and further properties of the same
  code: the functions of the client that start a job, the handlers of the
  editor for single scenes and for the batch of videos, the watchers of
  the provider, and the loading and saving of a project. *)

From Stdlib Require Import ZArith QArith Ascii String Lia.
From stdpp Require Import base option list strings pretty.

Local Open Scope string_scope.
Local Open Scope list_scope.

(** ** JavaScript values and arrays

  The per-scene arrays of the client ([sceneImages], [videos], the partial
  payloads of a job) are typed [string[]], but the code reads them out of
  range, tests their entries for truthiness and assigns beyond their length.
  A slot therefore holds [undefined], [null] or a string, and an array may
  have holes. *)
Module Js.

Inductive value : Type :=
| undefined
| null
| str (s : string).

(** Truthiness of a value: the empty string, [null] and [undefined] are
    falsy. *)
Definition truthy (v : value) : bool :=
  match v with
  | str s => negb (String.eqb s "")
  | _ => false
  end.

(** [a || b]. *)
Definition or_ (a b : value) : value := if truthy a then a else b.

(** [String(v)], as [new Error(v)] computes its message. *)
Definition to_string (v : value) : string :=
  match v with
  | undefined => "undefined"
  | null => "null"
  | str s => s
  end.

(** [a === b]. *)
Definition strict_eq (a b : value) : bool :=
  match a, b with
  | undefined, undefined => true
  | null, null => true
  | str s, str t => String.eqb s t
  | _, _ => false
  end.

(** [n || d] for an optional number: [undefined] and [0] are falsy. *)
Definition num_or (n : option Q) (d : Q) : Q :=
  match n with
  | Some q => if Qeq_bool q 0 then d else q
  | None => d
  end.

Definition dquote : ascii := ascii_of_nat 34.
Definition backslash : ascii := ascii_of_nat 92.

Definition hex_digit (n : nat) : ascii :=
  match n with
  | 0 => "0" | 1 => "1" | 2 => "2" | 3 => "3" | 4 => "4" | 5 => "5"
  | 6 => "6" | 7 => "7" | 8 => "8" | 9 => "9" | 10 => "a" | 11 => "b"
  | 12 => "c" | 13 => "d" | 14 => "e" | _ => "f"
  end%char.

(** How [JSON.stringify] writes one character of a string. *)
Definition escape_char (c : ascii) : string :=
  let n := nat_of_ascii c in
  if Nat.eqb n 34 then String backslash (String dquote EmptyString)
  else if Nat.eqb n 92 then String backslash (String backslash EmptyString)
  else if Nat.eqb n 8 then String backslash "b"
  else if Nat.eqb n 12 then String backslash "f"
  else if Nat.eqb n 10 then String backslash "n"
  else if Nat.eqb n 13 then String backslash "r"
  else if Nat.eqb n 9 then String backslash "t"
  else if Nat.ltb n 32 then
    String backslash
      ("u00" +:+ String (hex_digit (n / 16))
                   (String (hex_digit (n mod 16)) EmptyString))
  else String c EmptyString.

Fixpoint escape (s : string) : string :=
  match s with
  | EmptyString => EmptyString
  | String c rest => escape_char c +:+ escape rest
  end.

(** [JSON.stringify(s)] for a string. *)
Definition quote (s : string) : string :=
  String dquote (escape s +:+ String dquote EmptyString).

(** [JSON.stringify(l)] for an array of strings. *)
Definition quote_list (l : list string) : string :=
  "[" +:+ String.concat "," (map quote l) +:+ "]".

(** An array: [None] is a hole. *)
Abbreviation array := (list (option value)).

(** [a[i]]: a hole and an index out of range read as [undefined]. *)
Definition get (a : array) (i : nat) : value :=
  match a !! i with
  | Some (Some v) => v
  | _ => undefined
  end.

(** [a[i] = v]: in range the slot is replaced; out of range the array grows
    to length [i + 1] and the slots in between are holes. *)
Definition set (a : array) (i : nat) (v : value) : array :=
  if decide (i < length a) then <[i := Some v]> a
  else a ++ replicate (i - length a) None ++ [Some v].

(** [[...a]]: a copy in which holes have become [undefined]. *)
Definition spread (a : array) : array :=
  map (fun slot => Some (default undefined slot)) a.

(** [Array(n).fill('').map((_, idx) => f(idx))]. *)
Definition fill_map (n : nat) (f : nat -> value) : array :=
  map (fun idx => Some (f idx)) (seq 0 n).

(** [a.every(p)]: holes are skipped. *)
Definition every (p : value -> bool) (a : array) : bool :=
  forallb (fun slot => match slot with Some v => p v | None => true end) a.

(** [a.some(p)]: holes are skipped. *)
Definition some (p : value -> bool) (a : array) : bool :=
  existsb (fun slot => match slot with Some v => p v | None => false end) a.

(** [a.some((v, idx) => p(v, idx))]: holes are skipped. *)
Definition some_indexed (p : value -> nat -> bool) (a : array) : bool :=
  existsb (fun b : bool => b)
    (imap (fun idx slot =>
             match slot with Some v => p v idx | None => false end) a).

(** [a.forEach((v, idx) => ...)] as a left fold over the slots that are not
    holes, [idx] counting from [from]. *)
Fixpoint forEach_from {S : Type} (body : value -> nat -> S -> S)
    (from : nat) (a : array) (s : S) : S :=
  match a with
  | [] => s
  | None :: rest => forEach_from body (1 + from) rest s
  | Some v :: rest => forEach_from body (1 + from) rest (body v from s)
  end.

Definition forEach {S : Type} (body : value -> nat -> S -> S)
    (a : array) (s : S) : S :=
  forEach_from body 0 a s.

(** An array of strings without holes. *)
Definition of_strings (l : list string) : array :=
  map (fun s => Some (str s)) l.

End Js.

(** ** The API client: job status and the poller *)
Module Api.

(** A thrown value, by its message. *)
Inductive JsError : Type :=
| Error_ (message : string).

Record Progress : Type := { current : Z; total : Z }.

(** [partial_results?: any]: the two arrays the batch handlers read from
    it. *)
Record PartialResults : Type :=
  { scene_images : option Js.array;
    videos : option Js.array }.

(** [JobStatusResponse]. [state] is the string of the payload, so that a
    value outside the five documented ones can be received. *)
Record JobStatusResponse (T : Type) : Type :=
  { job_id : string;
    state : string;
    status : string;
    progress : option Progress;
    partial_results : option PartialResults;
    result : option T;
    error : Js.value }.
Arguments job_id {T}.
Arguments state {T}.
Arguments status {T}.
Arguments progress {T}.
Arguments partial_results {T}.
Arguments result {T}.
Arguments error {T}.

(** The argument of the progress callback. *)
Record ProgressInfo : Type :=
  { info_current : Z;
    info_total : Z;
    info_status : string;
    partialResults : option PartialResults }.

(** A progress callback either returns or throws. *)
Definition Callback : Type := ProgressInfo -> option JsError.

(** What the network does with one status request: [fetch] rejects, or it
    yields a response whose [json()] parses or throws. *)
Inductive FetchResult (T : Type) : Type :=
| FetchRejects (e : JsError)
| FetchResponse (ok : bool) (statusText : string)
    (json : JsError + JobStatusResponse T).
Arguments FetchRejects {T}.
Arguments FetchResponse {T}.

(** [getJobStatus]: the status record, or the thrown error. *)
Definition getJobStatus {T} (resp : FetchResult T)
    : JsError + JobStatusResponse T :=
  match resp with
  | FetchRejects e => inl e
  | FetchResponse ok statusText json =>
      if negb ok
      then inl (Error_ (String.append "Failed to get job status: " statusText))
      else json
  end.

(** What one run of the poller's [poll] closure does, in order. *)
Inductive Event : Type :=
| Request (jobId : string)
| OnProgress (p : ProgressInfo)
| SetTimeout (ms : Z).

(** How the promise of the poller is settled. *)
Inductive Settlement (T : Type) : Type :=
| Resolve (r : option T)
| Reject (e : JsError).
Arguments Resolve {T}.
Arguments Reject {T}.

(** The body of [poll] from the answer of [getJobStatus] on: the events it
    produces and, when it settles the promise, the settlement. [None] means
    that the next run is scheduled (the [SetTimeout] event) and the promise
    is still pending. *)
Definition handle {T} (onProgress : option Callback) (pollInterval : Z)
    (answer : JsError + JobStatusResponse T)
    : list Event * option (Settlement T) :=
  match answer with
  | inl error => ([], Some (Reject error))
  | inr status =>
      if String.eqb (state status) "PROGRESS"
         || String.eqb (state status) "STARTED"
      then
        match onProgress, progress status with
        | Some callback, Some p =>
            let info :=
              {| info_current := current p;
                 info_total := total p;
                 info_status := Api.status status;
                 partialResults := partial_results status |} in
            match callback info with
            | Some error => ([OnProgress info], Some (Reject error))
            | None => ([OnProgress info; SetTimeout pollInterval], None)
            end
        | _, _ => ([SetTimeout pollInterval], None)
        end
      else if String.eqb (state status) "SUCCESS"
      then ([], Some (Resolve (result status)))
      else if String.eqb (state status) "FAILURE"
      then
        ([],
         Some (Reject (Error_
           (Js.to_string (Js.or_ (error status) (Js.str "Job failed"))))))
      else ([SetTimeout pollInterval], None)
  end.

(** One run of [poll]: the status request, then the body on its answer. *)
Definition poll {T} (jobId : string) (onProgress : option Callback)
    (pollInterval : Z) (resp : FetchResult T)
    : list Event * option (Settlement T) :=
  let '(events, outcome) :=
    handle onProgress pollInterval (getJobStatus resp) in
  (Request jobId :: events, outcome).

(** The runs of [poll] against the successive answers of the network: the
    first run is immediate, each later one is the timer of the run before.
    Answers after the settling one are never asked for. The trace is that
    of the runs whose answer is in [net]: a request is recorded together
    with its answer, so the request that is in flight when the answers run
    out is not in it. [started] below is the poller with its requests
    recorded when they are sent. *)
Fixpoint poll_loop {T} (jobId : string) (onProgress : option Callback)
    (pollInterval : Z) (net : list (FetchResult T))
    : list Event * option (Settlement T) :=
  match net with
  | [] => ([], None)
  | resp :: later =>
      match poll jobId onProgress pollInterval resp with
      | (events, Some settlement) => (events, Some settlement)
      | (events, None) =>
          let '(events', outcome) :=
            poll_loop jobId onProgress pollInterval later in
          (events ++ events', outcome)
      end
  end.

(** [pollJobUntilComplete(jobId, onProgress, pollInterval = 2000)]. *)
Definition pollJobUntilComplete {T} (jobId : string)
    (onProgress : option Callback) (pollInterval : option Z)
    (net : list (FetchResult T)) : list Event * option (Settlement T) :=
  poll_loop jobId onProgress (default 2000%Z pollInterval) net.

(** The poller on the event loop of the client. A pending poller either
    has a status request in flight or a timer set for its next run; a
    settled one has neither. The loop delivers answers and timers, and
    between any two of them the component that started the poller may
    unmount. [pollJobUntilComplete] returns a promise only: it keeps no
    timer id and takes no signal, and the component registers no cleanup,
    so an unmount reaches none of the poller's state. *)
Inductive Phase : Type :=
| InFlight
| Scheduled
| Settled.

Inductive LoopEvent (T : Type) : Type :=
| Answer (resp : FetchResult T)
| TimerFires
| CallerAbandons.
Arguments Answer {T}.
Arguments TimerFires {T}.
Arguments CallerAbandons {T}.

Inductive Observed : Type :=
| Abandoned
| Did (e : Event).

(** What is observed over a sequence of loop events, and the settlement
    reached. An answer counts while a request is in flight and a timer
    while one is set. *)
Fixpoint event_loop {T} (jobId : string) (onProgress : option Callback)
    (pollInterval : Z) (phase : Phase) (evs : list (LoopEvent T))
    : list Observed * option (Settlement T) :=
  match evs with
  | [] => ([], None)
  | CallerAbandons :: later =>
      let '(obs, outcome) :=
        event_loop jobId onProgress pollInterval phase later in
      (Abandoned :: obs, outcome)
  | TimerFires :: later =>
      match phase with
      | Scheduled =>
          let '(obs, outcome) :=
            event_loop jobId onProgress pollInterval InFlight later in
          (Did (Request jobId) :: obs, outcome)
      | _ => event_loop jobId onProgress pollInterval phase later
      end
  | Answer resp :: later =>
      match phase with
      | InFlight =>
          match handle onProgress pollInterval (getJobStatus resp) with
          | (events, Some settlement) =>
              let '(obs, _) :=
                event_loop jobId onProgress pollInterval Settled later in
              (map Did events ++ obs, Some settlement)
          | (events, None) =>
              let '(obs, outcome) :=
                event_loop jobId onProgress pollInterval Scheduled later in
              (map Did events ++ obs, outcome)
          end
      | _ => event_loop jobId onProgress pollInterval phase later
      end
  end.

(** The poller from its start: the first request is sent at once. *)
Definition started {T} (jobId : string) (onProgress : option Callback)
    (pollInterval : Z) (evs : list (LoopEvent T))
    : list Observed * option (Settlement T) :=
  let '(obs, outcome) :=
    event_loop jobId onProgress pollInterval InFlight evs in
  (Did (Request jobId) :: obs, outcome).

(** The loop events without the abandonments. *)
Definition without_abandonment {T} (evs : list (LoopEvent T))
    : list (LoopEvent T) :=
  List.filter
    (fun ev => match ev with CallerAbandons => false | _ => true end) evs.

(** The loop events in which the network answers with [resp], then with
    the answers of [later], each after the timer of the run before. *)
Definition schedule {T} (resp : FetchResult T) (later : list (FetchResult T))
    : list (LoopEvent T) :=
  Answer resp :: flat_map (fun r => [TimerFires; Answer r]) later.

(** The poller's own events among the observed ones. *)
Definition poller_events (obs : list Observed) : list Event :=
  omap (fun o => match o with Did e => Some e | Abandoned => None end) obs.

Definition is_callback (o : Observed) : bool :=
  match o with Did (OnProgress _) => true | _ => false end.

(** The callback invocations observed after the first abandonment. *)
Fixpoint callbacks_after_abandon (obs : list Observed) : list Observed :=
  match obs with
  | [] => []
  | Abandoned :: later => List.filter is_callback later
  | Did _ :: later => callbacks_after_abandon later
  end.

Definition is_request (e : Event) : bool :=
  match e with Request _ => true | _ => false end.

(** The number of status requests in a trace. *)
Definition requests (events : list Event) : nat :=
  length (List.filter is_request events).

(** *** The functions that start a background job

    Thirteen functions of the client have one shape: a POST that starts the
    job, an error when the response is not ok, and the poller on the job id
    of the answer, called without an interval. *)
Inductive JobFunction : Type :=
| generateCharacter
| generateCharacterVariationsFromUpload
| generateStoryScript
| generateImagePrompts
| generateVideoPrompts
| generateSingleSceneImage
| generateSceneImages
| generateSideCharacterImages
| generateSingleVideo
| generateVideos
| generateBatchNarrations
| generateSingleNarration
| generateFinalVideo.

(** What each of them says it failed to start. *)
Definition job_name (f : JobFunction) : string :=
  match f with
  | generateCharacter => "character generation"
  | generateCharacterVariationsFromUpload => "character variation generation"
  | generateStoryScript => "story script generation"
  | generateImagePrompts => "image prompt generation"
  | generateVideoPrompts => "video prompt generation"
  | generateSingleSceneImage => "single scene image generation"
  | generateSceneImages => "scene image generation"
  | generateSideCharacterImages => "side character image generation"
  | generateSingleVideo => "single video generation"
  | generateVideos => "video generation"
  | generateBatchNarrations => "narration generation"
  | generateSingleNarration => "single narration generation"
  | generateFinalVideo => "final video generation"
  end.

(** [JobResponse]. *)
Record JobResponse : Type :=
  { started_job_id : string;
    started_status : string;
    started_message : string }.

(** What the network does with the POST: [fetch] rejects, or it yields a
    response whose [json()] parses or throws. *)
Inductive PostResult : Type :=
| PostRejects (e : JsError)
| PostResponse (ok : bool) (statusText : string)
    (json : JsError + JobResponse).

(** The job a POST has started, if it has. *)
Definition started_job (post : PostResult) : option JobResponse :=
  match post with
  | PostResponse true _ (inr jobResponse) => Some jobResponse
  | _ => None
  end.

(** The body of each of the thirteen functions, from the answer to its POST
    on; [net] are the answers to the status requests of the poller. *)
Definition start_and_poll {T} (f : JobFunction) (post : PostResult)
    (onProgress : option Callback) (net : list (FetchResult T))
    : list Event * option (Settlement T) :=
  match post with
  | PostRejects e => ([], Some (Reject e))
  | PostResponse ok statusText json =>
      if negb ok
      then
        ([],
         Some (Reject (Error_
           (String.append "Failed to start "
              (String.append (job_name f)
                 (String.append ": " statusText))))))
      else
        match json with
        | inl e => ([], Some (Reject e))
        | inr jobResponse =>
            pollJobUntilComplete (started_job_id jobResponse) onProgress None
              net
        end
  end.

(** *** Counting the events of a trace *)

Definition is_timer (e : Event) : bool :=
  match e with SetTimeout _ => true | _ => false end.

Definition is_report (e : Event) : bool :=
  match e with OnProgress _ => true | _ => false end.

(** The number of timers set in a trace. *)
Definition timers (events : list Event) : nat :=
  length (List.filter is_timer events).

(** The number of calls of the progress callback in a trace. *)
Definition reports (events : list Event) : nat :=
  length (List.filter is_report events).

Definition is_settled {T} (outcome : option (Settlement T)) : bool :=
  match outcome with Some _ => true | None => false end.

(** An event of the poller of job [jobId] with interval [pollInterval]. *)
Definition event_of (jobId : string) (pollInterval : Z) (e : Event) : Prop :=
  match e with
  | Request id => id = jobId
  | SetTimeout ms => ms = pollInterval
  | OnProgress _ => True
  end.

(** An answer that tells of a job neither running nor finished: the
    request succeeded and the state is none of the four that [poll]
    tests for. *)
Definition is_waiting {T} (resp : FetchResult T) : bool :=
  match getJobStatus resp with
  | inl _ => false
  | inr status =>
      negb (String.eqb (state status) "PROGRESS"
            || String.eqb (state status) "STARTED"
            || String.eqb (state status) "SUCCESS"
            || String.eqb (state status) "FAILURE")
  end.

(** *** Counting on the event loop *)

Definition is_answer {T} (ev : LoopEvent T) : bool :=
  match ev with Answer _ => true | _ => false end.

(** The number of answers that the loop delivers. *)
Definition answers {T} (evs : list (LoopEvent T)) : nat :=
  length (List.filter is_answer evs).

(** How the requests, timers and callback invocations of a trace compare
    when the trace is that of a loop entered in [phase]. With a request in
    flight the next thing the poller does is to handle an answer; with a
    timer set it is to send a request; a settled poller does nothing. *)
Definition counted {T} (phase : Phase) (trace : list Event)
    (outcome : option (Settlement T)) : Prop :=
  match phase with
  | InFlight =>
      requests trace <= timers trace <= requests trace + 1
      /\ (is_settled outcome = true -> timers trace = requests trace)
      /\ reports trace <= requests trace + 1
  | Scheduled =>
      timers trace <= requests trace <= timers trace + 1
      /\ (is_settled outcome = true -> requests trace = timers trace + 1)
      /\ reports trace <= requests trace
  | Settled => trace = [] /\ outcome = None
  end.

End Api.

(** ** The story context ([StoryProvider]) *)
Module StoryContext.

(** Data of the backend that the client stores and passes on unread
    (phoneme timings, the visual blueprint), by its serialization. *)
Inductive Json : Type :=
| json (text : string).

Record SceneLine : Type :=
  { scene_number : Z;
    scene_type : string;
    script_text : string;
    narration_url : Js.value;
    narration_duration : option Q;
    phonemes : option Json }.

Record ImagePrompt : Type :=
  { ip_scene_number : Z;
    ip_prompt : string;
    ip_scene_type : string;
    characters_in_scene : option (list string) }.

Record VideoPrompt : Type :=
  { vp_scene_number : Z;
    vp_prompt : string }.

Record SideCharacterImage : Type :=
  { sc_name : string;
    sc_type : string;
    sc_image_url : string }.

(** The upstream inputs of the user that the story signature is taken
    from. *)
Record StoryInputs : Type :=
  { characterName : string;
    characterType : string;
    personality : string;
    characterDescription : string;
    characterPrompt : string;
    characterImageUrl : string;
    selectedStyle : string;
    selectedThemes : list string;
    customTheme : string;
    sceneCount : nat }.

(** The state of the provider that the modelled code reads or writes: the
    inputs and everything generated from them. *)
Record Story : Type :=
  { inputs : StoryInputs;
    storyTitle : string;
    scenes : list SceneLine;
    imagePrompts : list ImagePrompt;
    videoPrompts : list VideoPrompt;
    visualBlueprint : option Json;
    sceneImages : Js.array;
    videos : Js.array;
    sideCharacterImages : list SideCharacterImage;
    storySignature : string;
    finalVideoUrl : string }.

Definition setSceneCount (n : nat) (s : Story) : Story :=
  {| inputs :=
       {| characterName := characterName (inputs s);
          characterType := characterType (inputs s);
          personality := personality (inputs s);
          characterDescription := characterDescription (inputs s);
          characterPrompt := characterPrompt (inputs s);
          characterImageUrl := characterImageUrl (inputs s);
          selectedStyle := selectedStyle (inputs s);
          selectedThemes := selectedThemes (inputs s);
          customTheme := customTheme (inputs s);
          sceneCount := n |};
     storyTitle := storyTitle s;
     scenes := scenes s;
     imagePrompts := imagePrompts s;
     videoPrompts := videoPrompts s;
     visualBlueprint := visualBlueprint s;
     sceneImages := sceneImages s;
     videos := videos s;
     sideCharacterImages := sideCharacterImages s;
     storySignature := storySignature s;
     finalVideoUrl := finalVideoUrl s |}.

Definition setStoryTitle (title : string) (s : Story) : Story :=
  {| inputs := inputs s;
     storyTitle := title;
     scenes := scenes s;
     imagePrompts := imagePrompts s;
     videoPrompts := videoPrompts s;
     visualBlueprint := visualBlueprint s;
     sceneImages := sceneImages s;
     videos := videos s;
     sideCharacterImages := sideCharacterImages s;
     storySignature := storySignature s;
     finalVideoUrl := finalVideoUrl s |}.

Definition setScenes (l : list SceneLine) (s : Story) : Story :=
  {| inputs := inputs s;
     storyTitle := storyTitle s;
     scenes := l;
     imagePrompts := imagePrompts s;
     videoPrompts := videoPrompts s;
     visualBlueprint := visualBlueprint s;
     sceneImages := sceneImages s;
     videos := videos s;
     sideCharacterImages := sideCharacterImages s;
     storySignature := storySignature s;
     finalVideoUrl := finalVideoUrl s |}.

(** [setSceneImages] and [setVideos] take a new array or a function of the
    latest one; both forms are the application of an updater. *)
Definition setSceneImages (f : Js.array -> Js.array) (s : Story) : Story :=
  {| inputs := inputs s;
     storyTitle := storyTitle s;
     scenes := scenes s;
     imagePrompts := imagePrompts s;
     videoPrompts := videoPrompts s;
     visualBlueprint := visualBlueprint s;
     sceneImages := f (sceneImages s);
     videos := videos s;
     sideCharacterImages := sideCharacterImages s;
     storySignature := storySignature s;
     finalVideoUrl := finalVideoUrl s |}.

Definition setVideos (f : Js.array -> Js.array) (s : Story) : Story :=
  {| inputs := inputs s;
     storyTitle := storyTitle s;
     scenes := scenes s;
     imagePrompts := imagePrompts s;
     videoPrompts := videoPrompts s;
     visualBlueprint := visualBlueprint s;
     sceneImages := sceneImages s;
     videos := f (videos s);
     sideCharacterImages := sideCharacterImages s;
     storySignature := storySignature s;
     finalVideoUrl := finalVideoUrl s |}.

Definition setStorySignature (signature : string) (s : Story) : Story :=
  {| inputs := inputs s;
     storyTitle := storyTitle s;
     scenes := scenes s;
     imagePrompts := imagePrompts s;
     videoPrompts := videoPrompts s;
     visualBlueprint := visualBlueprint s;
     sceneImages := sceneImages s;
     videos := videos s;
     sideCharacterImages := sideCharacterImages s;
     storySignature := signature;
     finalVideoUrl := finalVideoUrl s |}.

Definition setFinalVideoUrl (url : string) (s : Story) : Story :=
  {| inputs := inputs s;
     storyTitle := storyTitle s;
     scenes := scenes s;
     imagePrompts := imagePrompts s;
     videoPrompts := videoPrompts s;
     visualBlueprint := visualBlueprint s;
     sceneImages := sceneImages s;
     videos := videos s;
     sideCharacterImages := sideCharacterImages s;
     storySignature := storySignature s;
     finalVideoUrl := url |}.

(** [clearGeneratedContent]: every generated field back to its empty
    value; the inputs stay. *)
Definition clearGeneratedContent (s : Story) : Story :=
  {| inputs := inputs s;
     storyTitle := "";
     scenes := [];
     imagePrompts := [];
     videoPrompts := [];
     visualBlueprint := None;
     sceneImages := [];
     videos := [];
     sideCharacterImages := [];
     storySignature := "";
     finalVideoUrl := "" |}.

(** The refs and flags of the provider that guard its watchers. *)
Record Watch : Type :=
  { isHydrated : bool;
    isLoadingProjectRef : bool;
    prevSceneCountRef : nat }.

(** The effect on [sceneCount]: outside hydration and project loading, a
    scene count that differs from the remembered, non-zero one clears the
    generated content; the new count is remembered. *)
Definition sceneCountWatcher (w : Watch) (s : Story) : Watch * Story :=
  if negb (isHydrated w) || isLoadingProjectRef w then (w, s)
  else
    let s' :=
      if negb (Nat.eqb (prevSceneCountRef w) 0)
         && negb (Nat.eqb (prevSceneCountRef w) (sceneCount (inputs s)))
      then clearGeneratedContent s
      else s in
    ({| isHydrated := isHydrated w;
        isLoadingProjectRef := isLoadingProjectRef w;
        prevSceneCountRef := sceneCount (inputs s) |}, s').

(** The user picks another scene count: the state is set and the watcher
    runs on the next render. *)
Definition changeSceneCount (n : nat) (w : Watch) (s : Story) : Watch * Story :=
  sceneCountWatcher w (setSceneCount n s).

End StoryContext.

(** ** The scene editor ([SceneGeneration]) *)
Module SceneGeneration.

Inductive Status : Type :=
| idle
| generating
| ready
| error.

Definition is_idle (s : Status) : bool :=
  match s with idle => true | _ => false end.

Definition is_generating (s : Status) : bool :=
  match s with generating => true | _ => false end.

Definition is_ready (s : Status) : bool :=
  match s with ready => true | _ => false end.

(** The editor's own record of a scene. The URL fields are typed
    [string | null]; they are assigned from arrays of the context and of job
    results, so they hold whatever those slots hold. *)
Record Scene : Type :=
  { id : string;
    sceneNumber : Z;
    sceneType : string;
    text : string;
    imagePrompt : string;
    videoPrompt : string;
    narrationUrl : Js.value;
    narrationStatus : Status;
    narrationDuration : Q;
    narrationCurrentTime : Q;
    imageUrl : Js.value;
    imageStatus : Status;
    videoUrl : Js.value;
    videoStatus : Status;
    isPlayingNarration : bool;
    charactersInScene : list string }.

(** [{ ...s, imageUrl, imageStatus, videoUrl, videoStatus }]. *)
Definition with_media (iu : Js.value) (ist : Status) (vu : Js.value)
    (vst : Status) (s : Scene) : Scene :=
  {| id := id s;
     sceneNumber := sceneNumber s;
     sceneType := sceneType s;
     text := text s;
     imagePrompt := imagePrompt s;
     videoPrompt := videoPrompt s;
     narrationUrl := narrationUrl s;
     narrationStatus := narrationStatus s;
     narrationDuration := narrationDuration s;
     narrationCurrentTime := narrationCurrentTime s;
     imageUrl := iu;
     imageStatus := ist;
     videoUrl := vu;
     videoStatus := vst;
     isPlayingNarration := isPlayingNarration s;
     charactersInScene := charactersInScene s |}.

(** [{ ...s, imageUrl, imageStatus }]. *)
Definition with_image (iu : Js.value) (ist : Status) (s : Scene) : Scene :=
  with_media iu ist (videoUrl s) (videoStatus s) s.

(** [{ ...s, videoUrl, videoStatus }]. *)
Definition with_video (vu : Js.value) (vst : Status) (s : Scene) : Scene :=
  with_media (imageUrl s) (imageStatus s) vu vst s.

(** The state and refs of the component that the modelled code touches. *)
Record Local : Type :=
  { scenes : list Scene;
    completedImagesCount : nat;
    completedNarrationsCount : nat;
    isGeneratingScript : bool;
    scriptGenerated : bool;
    narrationsGenerated : bool;
    isGeneratingImages : bool;
    areVideoPromptsReady : bool;
    imageGenerationProgress : option Api.ProgressInfo;
    videoGenerationProgress : option Api.ProgressInfo;
    hasGeneratedRef : bool;
    narrationsGeneratedRef : bool;
    imagesGeneratedRef : bool;
    sideCharacterImagesRef : list StoryContext.SideCharacterImage }.

(** The component as first rendered. *)
Definition initial : Local :=
  {| scenes := [];
     completedImagesCount := 0;
     completedNarrationsCount := 0;
     isGeneratingScript := true;
     scriptGenerated := false;
     narrationsGenerated := false;
     isGeneratingImages := false;
     areVideoPromptsReady := false;
     imageGenerationProgress := None;
     videoGenerationProgress := None;
     hasGeneratedRef := false;
     narrationsGeneratedRef := false;
     imagesGeneratedRef := false;
     sideCharacterImagesRef := [] |}.

(** [setScenes(prev => f(prev))]. *)
Definition setScenes (f : list Scene -> list Scene) (l : Local) : Local :=
  {| scenes := f (scenes l);
     completedImagesCount := completedImagesCount l;
     completedNarrationsCount := completedNarrationsCount l;
     isGeneratingScript := isGeneratingScript l;
     scriptGenerated := scriptGenerated l;
     narrationsGenerated := narrationsGenerated l;
     isGeneratingImages := isGeneratingImages l;
     areVideoPromptsReady := areVideoPromptsReady l;
     imageGenerationProgress := imageGenerationProgress l;
     videoGenerationProgress := videoGenerationProgress l;
     hasGeneratedRef := hasGeneratedRef l;
     narrationsGeneratedRef := narrationsGeneratedRef l;
     imagesGeneratedRef := imagesGeneratedRef l;
     sideCharacterImagesRef := sideCharacterImagesRef l |}.

Definition setImageGenerationProgress (p : option Api.ProgressInfo)
    (l : Local) : Local :=
  {| scenes := scenes l;
     completedImagesCount := completedImagesCount l;
     completedNarrationsCount := completedNarrationsCount l;
     isGeneratingScript := isGeneratingScript l;
     scriptGenerated := scriptGenerated l;
     narrationsGenerated := narrationsGenerated l;
     isGeneratingImages := isGeneratingImages l;
     areVideoPromptsReady := areVideoPromptsReady l;
     imageGenerationProgress := p;
     videoGenerationProgress := videoGenerationProgress l;
     hasGeneratedRef := hasGeneratedRef l;
     narrationsGeneratedRef := narrationsGeneratedRef l;
     imagesGeneratedRef := imagesGeneratedRef l;
     sideCharacterImagesRef := sideCharacterImagesRef l |}.

Definition setVideoGenerationProgress (p : option Api.ProgressInfo)
    (l : Local) : Local :=
  {| scenes := scenes l;
     completedImagesCount := completedImagesCount l;
     completedNarrationsCount := completedNarrationsCount l;
     isGeneratingScript := isGeneratingScript l;
     scriptGenerated := scriptGenerated l;
     narrationsGenerated := narrationsGenerated l;
     isGeneratingImages := isGeneratingImages l;
     areVideoPromptsReady := areVideoPromptsReady l;
     imageGenerationProgress := imageGenerationProgress l;
     videoGenerationProgress := p;
     hasGeneratedRef := hasGeneratedRef l;
     narrationsGeneratedRef := narrationsGeneratedRef l;
     imagesGeneratedRef := imagesGeneratedRef l;
     sideCharacterImagesRef := sideCharacterImagesRef l |}.

(** The context and the component together. A handler created in one render
    keeps the [story] and [scenes] of that render: such a captured value is
    an explicit argument of the handler, next to the latest state that the
    setters act on. *)
Record Client : Type :=
  { story : StoryContext.Story;
    local : Local }.

Definition on_story (f : StoryContext.Story -> StoryContext.Story)
    (c : Client) : Client :=
  {| story := f (story c); local := local c |}.

Definition on_local (f : Local -> Local) (c : Client) : Client :=
  {| story := story c; local := f (local c) |}.

(** [l.findIndex(p)]: [None] stands for [-1]. *)
Fixpoint findIndex {A : Type} (p : A -> bool) (l : list A) : option nat :=
  match l with
  | [] => None
  | x :: rest => if p x then Some 0 else S <$> findIndex p rest
  end.

(** [l.find(p)] succeeds exactly when [findIndex] does. *)
Definition found {A : Type} (p : A -> bool) (l : list A) : bool :=
  match findIndex p l with Some _ => true | None => false end.

Definition has_id (sceneId : string) (s : Scene) : bool :=
  String.eqb (id s) sceneId.

(** *** The signature effect *)

(** [JSON.stringify] of the object of the ten inputs, in the order the
    effect lists them. *)
Definition currentSignature (i : StoryContext.StoryInputs) : string :=
  let member (key value : string) := Js.quote key +:+ ":" +:+ value in
  "{"
  +:+ String.concat ","
        [ member "characterName" (Js.quote (StoryContext.characterName i));
          member "characterType" (Js.quote (StoryContext.characterType i));
          member "personality" (Js.quote (StoryContext.personality i));
          member "characterDescription"
            (Js.quote (StoryContext.characterDescription i));
          member "characterPrompt" (Js.quote (StoryContext.characterPrompt i));
          member "characterImageUrl"
            (Js.quote (StoryContext.characterImageUrl i));
          member "selectedStyle" (Js.quote (StoryContext.selectedStyle i));
          member "selectedThemes"
            (Js.quote_list (StoryContext.selectedThemes i));
          member "customTheme" (Js.quote (StoryContext.customTheme i));
          member "sceneCount" (pretty (StoryContext.sceneCount i)) ]
  +:+ "}".

(** The local state after an invalidation. *)
Definition reset_local (l : Local) : Local :=
  {| scenes := [];
     completedImagesCount := 0;
     completedNarrationsCount := completedNarrationsCount l;
     isGeneratingScript := true;
     scriptGenerated := false;
     narrationsGenerated := narrationsGenerated l;
     isGeneratingImages := false;
     areVideoPromptsReady := areVideoPromptsReady l;
     imageGenerationProgress := imageGenerationProgress l;
     videoGenerationProgress := videoGenerationProgress l;
     hasGeneratedRef := false;
     narrationsGeneratedRef := narrationsGeneratedRef l;
     imagesGeneratedRef := false;
     sideCharacterImagesRef := sideCharacterImagesRef l |}.

(** The effect that compares the recorded signature with the one of the
    current inputs. The boolean tells whether the generated content was
    cleared. *)
Definition signatureEffect (c : Client) : Client * bool :=
  let current := currentSignature (StoryContext.inputs (story c)) in
  let recorded := StoryContext.storySignature (story c) in
  if negb (String.eqb recorded "") && negb (String.eqb recorded current)
  then
    ({| story :=
          StoryContext.setStorySignature current
            (StoryContext.clearGeneratedContent (story c));
        local := reset_local (local c) |}, true)
  else if String.eqb recorded ""
  then (on_story (StoryContext.setStorySignature current) c, false)
  else (c, false).


(** *** Loading the scenes on mount, and the script *)

(** [Array(n).fill('').map((_, idx) => a[idx] || '')]. *)
Definition resized (n : nat) (a : Js.array) : Js.array :=
  Js.fill_map n (fun idx => Js.or_ (Js.get a idx) (Js.str "")).

(** What bringing a sibling array to the length [n] of the scenes means:
    [after] has length [n], holds every string that [before] held at an
    index below [n], holds the empty string at every index below [n] that
    [before] did not have, and is [before] itself when that had length [n]
    already. *)
Definition aligned (n : nat) (before after : Js.array) : Prop :=
  length after = n
  /\ (forall i s, i < n -> before !! i = Some (Some (Js.str s)) ->
                  after !! i = Some (Some (Js.str s)))
  /\ (forall i, length before <= i < n -> after !! i = Some (Some (Js.str "")))
  /\ (length before = n -> after = before).

(** The editor's scene for the stored scene at [idx]. *)
Definition mappedScene (s : StoryContext.Story) (idx : nat)
    (scene : StoryContext.SceneLine) : Scene :=
  {| id := pretty (idx + 1);
     sceneNumber := StoryContext.scene_number scene;
     sceneType := StoryContext.scene_type scene;
     text := StoryContext.script_text scene;
     imagePrompt :=
       from_option StoryContext.ip_prompt ""
         (StoryContext.imagePrompts s !! idx);
     videoPrompt :=
       from_option StoryContext.vp_prompt ""
         (StoryContext.videoPrompts s !! idx);
     narrationUrl := Js.or_ (StoryContext.narration_url scene) Js.null;
     narrationStatus :=
       if Js.truthy (StoryContext.narration_url scene) then ready else idle;
     narrationDuration := Js.num_or (StoryContext.narration_duration scene) 0;
     narrationCurrentTime := 0;
     imageUrl := Js.or_ (Js.get (StoryContext.sceneImages s) idx) Js.null;
     imageStatus :=
       if Js.truthy (Js.get (StoryContext.sceneImages s) idx)
       then ready else idle;
     videoUrl := Js.or_ (Js.get (StoryContext.videos s) idx) Js.null;
     videoStatus :=
       if Js.truthy (Js.get (StoryContext.videos s) idx) then ready else idle;
     isPlayingNarration := false;
     charactersInScene :=
       default []
         (StoryContext.imagePrompts s !! idx
            ≫= StoryContext.characters_in_scene) |}.

Definition has_narration (scene : StoryContext.SceneLine) : bool :=
  Js.truthy (StoryContext.narration_url scene).

(** The effect keyed on [story.scenes.length]. With stored scenes and
    nothing generated yet in this mount, the scenes are loaded and the two
    sibling arrays are brought to the length of the scenes; otherwise the
    script is generated when a character prompt exists. The boolean tells
    whether [generateScript] was started.

    The writes are applied to the state [c] that the effect reads. That is
    the effect run on its own, as in a render in which only the number of
    scenes has changed, and in the commit of the mount whenever the
    signature effect, which runs before it there, writes nothing that
    this effect reads or writes; [mountCommit] below is the commit of the
    mount in general. *)
Definition mountEffect (c : Client) : Client * bool :=
  let s := story c in
  let l := local c in
  let n := length (StoryContext.scenes s) in
  if negb (Nat.eqb n 0) && negb (hasGeneratedRef l)
  then
    let someNarration := existsb has_narration (StoryContext.scenes s) in
    let fixVideos (a : Js.array) :=
      if negb (Nat.eqb (length (StoryContext.videos s)) n)
      then resized n (StoryContext.videos s) else a in
    let fixImages (a : Js.array) :=
      if negb (Nat.eqb (length (StoryContext.sceneImages s)) n)
      then resized n (StoryContext.sceneImages s) else a in
    ({| story :=
          StoryContext.setSceneImages fixImages
            (StoryContext.setVideos fixVideos s);
        local :=
          {| scenes := imap (mappedScene s) (StoryContext.scenes s);
             completedImagesCount := completedImagesCount l;
             completedNarrationsCount :=
               if someNarration
               then length (List.filter has_narration (StoryContext.scenes s))
               else completedNarrationsCount l;
             isGeneratingScript := false;
             scriptGenerated := true;
             narrationsGenerated := someNarration || narrationsGenerated l;
             isGeneratingImages := isGeneratingImages l;
             areVideoPromptsReady :=
               (negb (Nat.eqb (length (StoryContext.videoPrompts s)) 0)
                && forallb
                     (fun vp => negb (String.eqb (StoryContext.vp_prompt vp) ""))
                     (StoryContext.videoPrompts s))
               || areVideoPromptsReady l;
             imageGenerationProgress := imageGenerationProgress l;
             videoGenerationProgress := videoGenerationProgress l;
             hasGeneratedRef := true;
             narrationsGeneratedRef := someNarration || narrationsGeneratedRef l;
             imagesGeneratedRef :=
               Js.some Js.truthy (StoryContext.sceneImages s)
               || imagesGeneratedRef l;
             sideCharacterImagesRef :=
               match StoryContext.sideCharacterImages s with
               | [] => sideCharacterImagesRef l
               | imgs => imgs
               end |} |}, false)
  else if negb (hasGeneratedRef l)
          && negb (String.eqb
                     (StoryContext.characterPrompt (StoryContext.inputs s)) "")
  then
    (on_local (fun l =>
       {| scenes := scenes l;
          completedImagesCount := completedImagesCount l;
          completedNarrationsCount := completedNarrationsCount l;
          isGeneratingScript := isGeneratingScript l;
          scriptGenerated := scriptGenerated l;
          narrationsGenerated := narrationsGenerated l;
          isGeneratingImages := isGeneratingImages l;
          areVideoPromptsReady := areVideoPromptsReady l;
          imageGenerationProgress := imageGenerationProgress l;
          videoGenerationProgress := videoGenerationProgress l;
          hasGeneratedRef := true;
          narrationsGeneratedRef := narrationsGeneratedRef l;
          imagesGeneratedRef := imagesGeneratedRef l;
          sideCharacterImagesRef := sideCharacterImagesRef l |}) c, true)
  else (c, false).

(** The same effect when an effect of the same commit has queued writes
    before it. [rendered] is the state of the render: the closure of the
    effect reads [story] from it. [latest] is that state with the writes
    queued so far: the refs are read from it, and the writes of this effect
    are applied to it in their turn, a value written by [setVideos],
    [setSceneImages] or [setScenes] replacing one queued before. *)
Definition mountEffect_after (rendered latest : Client) : Client * bool :=
  let s := story rendered in
  let l := local latest in
  let n := length (StoryContext.scenes s) in
  if negb (Nat.eqb n 0) && negb (hasGeneratedRef l)
  then
    let someNarration := existsb has_narration (StoryContext.scenes s) in
    let fixVideos (a : Js.array) :=
      if negb (Nat.eqb (length (StoryContext.videos s)) n)
      then resized n (StoryContext.videos s) else a in
    let fixImages (a : Js.array) :=
      if negb (Nat.eqb (length (StoryContext.sceneImages s)) n)
      then resized n (StoryContext.sceneImages s) else a in
    ({| story :=
          StoryContext.setSceneImages fixImages
            (StoryContext.setVideos fixVideos (story latest));
        local :=
          {| scenes := imap (mappedScene s) (StoryContext.scenes s);
             completedImagesCount := completedImagesCount l;
             completedNarrationsCount :=
               if someNarration
               then length (List.filter has_narration (StoryContext.scenes s))
               else completedNarrationsCount l;
             isGeneratingScript := false;
             scriptGenerated := true;
             narrationsGenerated := someNarration || narrationsGenerated l;
             isGeneratingImages := isGeneratingImages l;
             areVideoPromptsReady :=
               (negb (Nat.eqb (length (StoryContext.videoPrompts s)) 0)
                && forallb
                     (fun vp => negb (String.eqb (StoryContext.vp_prompt vp) ""))
                     (StoryContext.videoPrompts s))
               || areVideoPromptsReady l;
             imageGenerationProgress := imageGenerationProgress l;
             videoGenerationProgress := videoGenerationProgress l;
             hasGeneratedRef := true;
             narrationsGeneratedRef := someNarration || narrationsGeneratedRef l;
             imagesGeneratedRef :=
               Js.some Js.truthy (StoryContext.sceneImages s)
               || imagesGeneratedRef l;
             sideCharacterImagesRef :=
               match StoryContext.sideCharacterImages s with
               | [] => sideCharacterImagesRef l
               | imgs => imgs
               end |} |}, false)
  else if negb (hasGeneratedRef l)
          && negb (String.eqb
                     (StoryContext.characterPrompt (StoryContext.inputs s)) "")
  then
    (on_local (fun l =>
       {| scenes := scenes l;
          completedImagesCount := completedImagesCount l;
          completedNarrationsCount := completedNarrationsCount l;
          isGeneratingScript := isGeneratingScript l;
          scriptGenerated := scriptGenerated l;
          narrationsGenerated := narrationsGenerated l;
          isGeneratingImages := isGeneratingImages l;
          areVideoPromptsReady := areVideoPromptsReady l;
          imageGenerationProgress := imageGenerationProgress l;
          videoGenerationProgress := videoGenerationProgress l;
          hasGeneratedRef := true;
          narrationsGeneratedRef := narrationsGeneratedRef l;
          imagesGeneratedRef := imagesGeneratedRef l;
          sideCharacterImagesRef := sideCharacterImagesRef l |}) latest, true)
  else (latest, false).

(** The commit of the mount: the signature effect and then the effect keyed
    on the number of scenes, both reading the story of the first render, in
    the order in which the component declares them. *)
Definition mountCommit (c : Client) : Client * bool :=
  mountEffect_after c (fst (signatureEffect c)).

(** The recorded signature asks for no invalidation: none is recorded, or
    the recorded one is that of the current inputs. *)
Definition signature_settled (s : StoryContext.Story) : Prop :=
  StoryContext.storySignature s = ""
  \/ StoryContext.storySignature s
     = currentSignature (StoryContext.inputs s).

(** The answer of the script job, as far as the editor stores it here. *)
Record ScriptResponse : Type :=
  { story_title : string;
    response_scenes : list StoryContext.SceneLine }.

(** The editor's scene for a scene of a fresh script. *)
Definition initialScene (idx : nat) (scene : StoryContext.SceneLine) : Scene :=
  {| id := pretty (idx + 1);
     sceneNumber := StoryContext.scene_number scene;
     sceneType := StoryContext.scene_type scene;
     text := StoryContext.script_text scene;
     imagePrompt := "";
     videoPrompt := "";
     narrationUrl := Js.or_ (StoryContext.narration_url scene) Js.null;
     narrationStatus :=
       if Js.truthy (StoryContext.narration_url scene) then ready else idle;
     narrationDuration := Js.num_or (StoryContext.narration_duration scene) 0;
     narrationCurrentTime := 0;
     imageUrl := Js.null;
     imageStatus := idle;
     videoUrl := Js.null;
     videoStatus := idle;
     isPlayingNarration := false;
     charactersInScene := [] |}.

(** [generateScript], from the answer of the script job on: title and
    scenes are stored, and the two sibling arrays of the captured [story]
    are brought to the length of the new scenes when they differ from it. *)
Definition scriptReceived (captured : StoryContext.Story)
    (response : ScriptResponse) (c : Client) : Client :=
  let n := length (response_scenes response) in
  let adjustVideos (a : Js.array) :=
    if negb (Nat.eqb (length (StoryContext.videos captured)) n)
    then resized n (StoryContext.videos captured) else a in
  let adjustImages (a : Js.array) :=
    if negb (Nat.eqb (length (StoryContext.sceneImages captured)) n)
    then resized n (StoryContext.sceneImages captured) else a in
  {| story :=
       StoryContext.setSceneImages adjustImages
         (StoryContext.setVideos adjustVideos
            (StoryContext.setScenes (response_scenes response)
               (StoryContext.setStoryTitle (story_title response) (story c))));
     local :=
       {| scenes := imap initialScene (response_scenes response);
          completedImagesCount := completedImagesCount (local c);
          completedNarrationsCount := completedNarrationsCount (local c);
          isGeneratingScript := false;
          scriptGenerated := true;
          narrationsGenerated := narrationsGenerated (local c);
          isGeneratingImages := isGeneratingImages (local c);
          areVideoPromptsReady := areVideoPromptsReady (local c);
          imageGenerationProgress := imageGenerationProgress (local c);
          videoGenerationProgress := videoGenerationProgress (local c);
          hasGeneratedRef := hasGeneratedRef (local c);
          narrationsGeneratedRef := narrationsGeneratedRef (local c);
          imagesGeneratedRef := imagesGeneratedRef (local c);
          sideCharacterImagesRef := sideCharacterImagesRef (local c) |} |}.

(** *** Partial results of the batch jobs *)

(** The updater of the editor's scenes on a partial image payload. *)
Definition merge_partial_images (partialImages : Js.array)
    (prev : list Scene) : list Scene :=
  imap (fun idx scene =>
          if Js.truthy (Js.get partialImages idx)
          then with_image (Js.get partialImages idx) ready scene
          else scene) prev.

(** The array written to the context on a partial image payload: a copy of
    the captured [story.sceneImages] with the non-empty entries of the
    payload assigned. *)
Definition updatedImages (captured : StoryContext.Story)
    (partialImages : Js.array) : Js.array :=
  Js.forEach
    (fun imageUrl idx updated =>
       if Js.truthy imageUrl then Js.set updated idx imageUrl else updated)
    partialImages
    (Js.spread (StoryContext.sceneImages captured)).

(** The progress callback that [generateAllImages] passes to the job. *)
Definition generateAllImages_onProgress (captured : StoryContext.Story)
    (progress : Api.ProgressInfo) (c : Client) : Client :=
  let c1 := on_local (setImageGenerationProgress (Some progress)) c in
  match Api.partialResults progress ≫= Api.scene_images with
  | Some partialImages =>
      {| story :=
           StoryContext.setSceneImages
             (fun _ => updatedImages captured partialImages) (story c1);
         local := setScenes (merge_partial_images partialImages) (local c1) |}
  | None => c1
  end.

(** The scenes a batch of videos is submitted for. *)
Definition scenesWithImages (capturedScenes : list Scene) : list Scene :=
  List.filter
    (fun s => Js.truthy (imageUrl s) && is_idle (videoStatus s))
    capturedScenes.

(** [generateAllVideos] up to the submission of the batch: nothing happens
    without a scene to animate or when one of them has no video prompt;
    otherwise the scenes to animate are marked as generating. *)
Definition generateAllVideos_started (capturedScenes : list Scene)
    (c : Client) : Client :=
  let withImages := scenesWithImages capturedScenes in
  if Nat.eqb (length withImages) 0 then c
  else if negb (Nat.eqb
                  (length (List.filter
                             (fun s => String.eqb (videoPrompt s) "")
                             withImages)) 0)
  then c
  else
    on_local
      (setScenes
         (map (fun scene =>
                 if Js.truthy (imageUrl scene) && is_idle (videoStatus scene)
                 then with_video (videoUrl scene) generating scene
                 else scene))) c.

(** The entry of the partial video payload for a scene: the entry at the
    position of the scene among the submitted ones, when it is non-empty. *)
Definition partial_video_for (withImages : list Scene)
    (partialVideos : Js.array) (scene : Scene) : option Js.value :=
  match findIndex (has_id (id scene)) withImages with
  | Some i =>
      if Js.truthy (Js.get partialVideos i)
      then Some (Js.get partialVideos i) else None
  | None => None
  end.

(** The updater of the editor's scenes on a partial video payload. *)
Definition merge_partial_videos (withImages : list Scene)
    (partialVideos : Js.array) (prev : list Scene) : list Scene :=
  map (fun scene =>
         match partial_video_for withImages partialVideos scene with
         | Some v =>
             if negb (Js.strict_eq (videoUrl scene) v)
             then with_video v ready scene else scene
         | None => scene
         end) prev.

(** The array computed for the context on a partial video payload: per
    scene of the editor, the payload entry or else the captured
    [story.videos] entry at the position of the scene. *)
Definition updatedVideos (captured : StoryContext.Story)
    (withImages : list Scene) (partialVideos : Js.array)
    (currentScenes : list Scene) : Js.array :=
  imap (fun idx scene =>
          Some (match partial_video_for withImages partialVideos scene with
                | Some v => v
                | None =>
                    Js.or_ (Js.get (StoryContext.videos captured) idx)
                      (Js.str "")
                end)) currentScenes.

(** The progress callback that [generateAllVideos] passes to the job. *)
Definition generateAllVideos_onProgress (captured : StoryContext.Story)
    (capturedScenes : list Scene) (progress : Api.ProgressInfo)
    (c : Client) : Client :=
  let withImages := scenesWithImages capturedScenes in
  let c1 := on_local (setVideoGenerationProgress (Some progress)) c in
  match Api.partialResults progress ≫= Api.videos with
  | Some partialVideos =>
      let l2 := setScenes (merge_partial_videos withImages partialVideos)
                  (local c1) in
      let updated :=
        updatedVideos captured withImages partialVideos (scenes l2) in
      let hasChanges :=
        Js.some_indexed
          (fun url idx =>
             negb (Js.strict_eq url
                     (Js.get (StoryContext.videos captured) idx)))
          updated in
      {| story :=
           if hasChanges
           then StoryContext.setVideos (fun _ => updated) (story c1)
           else story c1;
         local := l2 |}
  | None => c1
  end.

(** *** Single scenes *)

(** [prev.map(s => s.id === sceneId ? f(s) : s)]. *)
Definition update_scene (sceneId : string) (f : Scene -> Scene)
    (prev : list Scene) : list Scene :=
  map (fun s => if has_id sceneId s then f s else s) prev.

(** The writes of [retryImage] and [generateSingleImage] once the image
    job has answered with [url]: the scene shows the image and loses its
    video, and the context arrays are updated from their latest values at
    the index of the scene among the captured scenes. *)
Definition image_regenerated (capturedScenes : list Scene)
    (sceneId url : string) (c : Client) : Client :=
  let c1 :=
    on_local (setScenes (update_scene sceneId
                (with_media (Js.str url) ready Js.null idle))) c in
  match findIndex (has_id sceneId) capturedScenes with
  | Some sceneIndex =>
      on_story
        (fun st =>
           StoryContext.setVideos
             (fun prevVideos =>
                Js.set (Js.spread prevVideos) sceneIndex (Js.str ""))
             (StoryContext.setSceneImages
                (fun prevImages =>
                   Js.set (Js.spread prevImages) sceneIndex (Js.str url))
                st)) c1
  | None => c1
  end.

(** The [catch] branch of both functions. *)
Definition image_failed (sceneId : string) (c : Client) : Client :=
  on_local (setScenes (update_scene sceneId
              (fun s => with_image (imageUrl s) error s))) c.

(** The scene as [retryImage] marks it before the job is submitted. *)
Definition retryImage_started (sceneId : string) (c : Client) : Client :=
  on_local (setScenes (update_scene sceneId
              (with_image Js.null generating))) c.

(** [retryImage(sceneId)]. [response] is the outcome of the image job and
    [between] whatever else updates the client while the job runs. *)
Definition retryImage (capturedScenes : list Scene) (sceneId : string)
    (response : Api.JsError + string) (between : Client -> Client)
    (c : Client) : Client :=
  if found (has_id sceneId) capturedScenes
  then
    let latest := between (retryImage_started sceneId c) in
    match response with
    | inr url => image_regenerated capturedScenes sceneId url latest
    | inl _ => image_failed sceneId latest
    end
  else c.

(** The scene as [generateSingleImage] marks it before the job is
    submitted. *)
Definition generateSingleImage_started (sceneId : string) (c : Client)
    : Client :=
  on_local (setScenes (update_scene sceneId
              (fun s => with_image (imageUrl s) generating s))) c.

(** [generateSingleImage(sceneId)]. *)
Definition generateSingleImage (capturedScenes : list Scene)
    (sceneId : string) (response : Api.JsError + string)
    (between : Client -> Client) (c : Client) : Client :=
  if found (has_id sceneId) capturedScenes
  then
    let latest := between (generateSingleImage_started sceneId c) in
    match response with
    | inr url => image_regenerated capturedScenes sceneId url latest
    | inl _ => image_failed sceneId latest
    end
  else c.

(** The scene as [animateScene] marks it before the job is submitted. *)
Definition animateScene_started (sceneId : string) (c : Client) : Client :=
  on_local (setScenes (update_scene sceneId
              (fun s => with_video (videoUrl s) generating s))) c.

(** [animateScene(sceneId)]: the video of one scene, stored from the latest
    [videos] array. *)
Definition animateScene (capturedScenes : list Scene) (sceneId : string)
    (response : Api.JsError + string) (between : Client -> Client)
    (c : Client) : Client :=
  match List.find (has_id sceneId) capturedScenes with
  | Some scene =>
      if negb (Js.truthy (imageUrl scene)) then c
      else if String.eqb (videoPrompt scene) "" then c
      else
        let latest := between (animateScene_started sceneId c) in
        match response with
        | inr url =>
            let c1 :=
              on_local (setScenes (update_scene sceneId
                          (with_video (Js.str url) ready))) latest in
            match findIndex (has_id sceneId) capturedScenes with
            | Some sceneIndex =>
                on_story
                  (fun st =>
                     StoryContext.setFinalVideoUrl ""
                       (StoryContext.setVideos
                          (fun prevVideos =>
                             Js.set (Js.spread prevVideos) sceneIndex
                               (Js.str url)) st)) c1
            | None => c1
            end
        | inl _ =>
            on_local (setScenes (update_scene sceneId
                        (fun s => with_video (videoUrl s) error s))) latest
        end
  | None => c
  end.

(** *** The gate of the final step *)

Definition allVideosReady (l : list Scene) : bool :=
  negb (Nat.eqb (length l) 0)
  && forallb (fun scene =>
                negb (Js.strict_eq (videoUrl scene) Js.null)
                && is_ready (videoStatus scene)) l.

Definition allNarrationsReady (l : list Scene) : bool :=
  negb (Nat.eqb (length l) 0)
  && forallb (fun scene =>
                negb (Js.strict_eq (narrationUrl scene) Js.null)
                && is_ready (narrationStatus scene)) l.

Definition canProceedToFinal (c : Client) : bool :=
  allVideosReady (scenes (local c))
  && allNarrationsReady (scenes (local c))
  && negb (Nat.eqb (length (StoryContext.videos (story c))) 0)
  && Js.every Js.truthy (StoryContext.videos (story c)).

(** The button that leads to the final page is rendered with
    [disabled={!canProceedToFinal}]. *)
Definition nextButton_disabled (c : Client) : bool :=
  negb (canProceedToFinal c).

(** A click on the button: a disabled button does not run its handler; an
    enabled one navigates to the final page, where the final video is
    generated. *)
Definition clickNext (c : Client) : option string :=
  if nextButton_disabled c then None else Some "/create/final".

(** *** A change of the scene count

    The user picks [n] scenes on the narration page, which the provider
    watches; the editor is mounted afterwards on the story the watcher left:
    its effects run, and the script it asks for is answered by
    [response]. *)
Definition after_scene_count_change (w : StoryContext.Watch)
    (s : StoryContext.Story) (n : nat) (response : ScriptResponse) : Client :=
  let '(_, changed) := StoryContext.changeSceneCount n w s in
  let rendered := {| story := changed; local := initial |} in
  let '(c1, _) := signatureEffect rendered in
  let '(c2, started) := mountEffect c1 in
  if started then scriptReceived changed response c2 else c2.

(** *** Animating a scene again *)

(** The writes of [animateScene] and [retryAnimation] once the video job
    has answered with [url]. *)
Definition video_generated (capturedScenes : list Scene)
    (sceneId url : string) (c : Client) : Client :=
  let c1 :=
    on_local (setScenes (update_scene sceneId
                (with_video (Js.str url) ready))) c in
  match findIndex (has_id sceneId) capturedScenes with
  | Some sceneIndex =>
      on_story
        (fun st =>
           StoryContext.setFinalVideoUrl ""
             (StoryContext.setVideos
                (fun prevVideos =>
                   Js.set (Js.spread prevVideos) sceneIndex (Js.str url))
                st)) c1
  | None => c1
  end.

(** The [catch] branch of both functions. *)
Definition video_failed (sceneId : string) (c : Client) : Client :=
  on_local (setScenes (update_scene sceneId
              (fun s => with_video (videoUrl s) error s))) c.

(** The scene as [retryAnimation] marks it before the job is submitted. *)
Definition retryAnimation_started (sceneId : string) (c : Client) : Client :=
  on_local (setScenes (update_scene sceneId
              (with_video Js.null generating))) c.

(** [retryAnimation(sceneId)]: as [animateScene], without the test of the
    video prompt, and with the video of the scene taken away first. *)
Definition retryAnimation (capturedScenes : list Scene) (sceneId : string)
    (response : Api.JsError + string) (between : Client -> Client)
    (c : Client) : Client :=
  match List.find (has_id sceneId) capturedScenes with
  | Some scene =>
      if negb (Js.truthy (imageUrl scene)) then c
      else
        let latest := between (retryAnimation_started sceneId c) in
        match response with
        | inr url => video_generated capturedScenes sceneId url latest
        | inl _ => video_failed sceneId latest
        end
  | None => c
  end.

(** [scenes.some(s => s.imageUrl && s.videoStatus === 'idle')]: the button
    of [generateAllVideos] is rendered only when this holds. *)
Definition hasVideosToGenerate (l : list Scene) : bool :=
  existsb (fun s => Js.truthy (imageUrl s) && is_idle (videoStatus s)) l.

(** What storing the video [url] of the scene at index [i] means for the
    context: the videos read [url] at [i] and as before elsewhere, the
    final video is cleared, and nothing else has changed. *)
Definition video_stored (i : nat) (url : string)
    (before after : StoryContext.Story) : Prop :=
  Js.get (StoryContext.videos after) i = Js.str url
  /\ (forall j, j <> i ->
        Js.get (StoryContext.videos after) j
        = Js.get (StoryContext.videos before) j)
  /\ StoryContext.finalVideoUrl after = ""
  /\ StoryContext.sceneImages after = StoryContext.sceneImages before
  /\ StoryContext.scenes after = StoryContext.scenes before
  /\ StoryContext.inputs after = StoryContext.inputs before
  /\ StoryContext.storySignature after = StoryContext.storySignature before.

(** *** The end of the batch of videos *)

(** The video that the answer of the batch holds for a scene: the entry at
    the position of the scene among the submitted ones. *)
Definition generated_video_for (withImages : list Scene)
    (responseVideos : Js.array) (scene : Scene) : option Js.value :=
  match findIndex (has_id (id scene)) withImages with
  | Some generatedIndex => Some (Js.get responseVideos generatedIndex)
  | None => None
  end.

(** [generateAllVideos] once the batch has answered with [responseVideos]:
    the submitted scenes show their videos, and the videos of the context
    are rebuilt from the captured scenes and the captured [story.videos]. *)
Definition generateAllVideos_finished (captured : StoryContext.Story)
    (capturedScenes : list Scene) (responseVideos : Js.array) (c : Client)
    : Client :=
  let withImages := scenesWithImages capturedScenes in
  let updatedVideos :=
    imap (fun idx scene =>
            Some (match generated_video_for withImages responseVideos scene with
                  | Some v => v
                  | None =>
                      Js.or_ (Js.get (StoryContext.videos captured) idx)
                        (Js.str "")
                  end)) capturedScenes in
  {| story :=
       StoryContext.setFinalVideoUrl ""
         (StoryContext.setVideos (fun _ => updatedVideos) (story c));
     local :=
       setScenes
         (map (fun scene =>
                 match generated_video_for withImages responseVideos scene with
                 | Some v => with_video v ready scene
                 | None => scene
                 end))
         (setVideoGenerationProgress None (local c)) |}.

(** The [catch] branch of [generateAllVideos]. *)
Definition generateAllVideos_failed (c : Client) : Client :=
  on_local
    (fun l =>
       setScenes
         (map (fun scene =>
                 if is_generating (videoStatus scene)
                 then with_video (videoUrl scene) error scene
                 else scene))
         (setVideoGenerationProgress None l)) c.

(** *** The narration of one scene *)

(** The answer of the narration endpoints, as far as the editor reads
    it. *)
Record NarrationResponse : Type :=
  { audio_url : string;
    duration_seconds : option Q;
    response_phonemes : option StoryContext.Json }.

(** [{ ...s, text, narrationUrl, narrationStatus, narrationDuration }]. *)
Definition with_narration (t : string) (nu : Js.value) (nst : Status)
    (duration : Q) (s : Scene) : Scene :=
  {| id := id s;
     sceneNumber := sceneNumber s;
     sceneType := sceneType s;
     text := t;
     imagePrompt := imagePrompt s;
     videoPrompt := videoPrompt s;
     narrationUrl := nu;
     narrationStatus := nst;
     narrationDuration := duration;
     narrationCurrentTime := narrationCurrentTime s;
     imageUrl := imageUrl s;
     imageStatus := imageStatus s;
     videoUrl := videoUrl s;
     videoStatus := videoStatus s;
     isPlayingNarration := isPlayingNarration s;
     charactersInScene := charactersInScene s |}.

(** [{ ...s, narrationStatus }]. *)
Definition with_narration_status (nst : Status) (s : Scene) : Scene :=
  with_narration (text s) (narrationUrl s) nst (narrationDuration s) s.

(** The editor's scene once the narration has answered. *)
Definition narration_ready (response : NarrationResponse) (s : Scene)
    : Scene :=
  with_narration (text s) (Js.str (audio_url response)) ready
    (Js.num_or (duration_seconds response) 0) s.

(** [{ ...line, script_text }]. *)
Definition with_script_text (t : string) (line : StoryContext.SceneLine)
    : StoryContext.SceneLine :=
  {| StoryContext.scene_number := StoryContext.scene_number line;
     StoryContext.scene_type := StoryContext.scene_type line;
     StoryContext.script_text := t;
     StoryContext.narration_url := StoryContext.narration_url line;
     StoryContext.narration_duration := StoryContext.narration_duration line;
     StoryContext.phonemes := StoryContext.phonemes line |}.

(** [{ ...line, narration_url, narration_duration, phonemes }] with the
    fields of the answer. *)
Definition narrated (response : NarrationResponse)
    (line : StoryContext.SceneLine) : StoryContext.SceneLine :=
  {| StoryContext.scene_number := StoryContext.scene_number line;
     StoryContext.scene_type := StoryContext.scene_type line;
     StoryContext.script_text := StoryContext.script_text line;
     StoryContext.narration_url := Js.str (audio_url response);
     StoryContext.narration_duration := duration_seconds response;
     StoryContext.phonemes := response_phonemes response |}.

(** [const updatedScenes = [...story.scenes]; updatedScenes[i] =
    { ...updatedScenes[i], ... }] on the captured story. When the captured
    story has no scene at [i], the source stores an object that has the
    assigned fields only, which is no scene line: that case is [None]
    here. *)
Definition updatedScenes (captured : StoryContext.Story) (sceneIndex : nat)
    (f : StoryContext.SceneLine -> StoryContext.SceneLine)
    : option (list StoryContext.SceneLine) :=
  match StoryContext.scenes captured !! sceneIndex with
  | Some line => Some (<[sceneIndex := f line]> (StoryContext.scenes captured))
  | None => None
  end.

(** The writes of [generateSingleNarration] and [retryNarration] once the
    narration job has answered: the editor's scene from the latest scenes,
    the scenes of the context from the captured story. *)
Definition narration_received (captured : StoryContext.Story)
    (capturedScenes : list Scene) (sceneId : string)
    (response : NarrationResponse) (c : Client) : option Client :=
  let c1 :=
    on_local (setScenes (update_scene sceneId (narration_ready response))) c in
  match findIndex (has_id sceneId) capturedScenes with
  | Some sceneIndex =>
      updated ← updatedScenes captured sceneIndex (narrated response);
      Some (on_story
              (fun st =>
                 StoryContext.setFinalVideoUrl ""
                   (StoryContext.setScenes updated st)) c1)
  | None => Some c1
  end.

(** The [catch] branch of the narration functions. *)
Definition narration_failed (sceneId : string) (c : Client) : Client :=
  on_local (setScenes (update_scene sceneId (with_narration_status error))) c.

(** [generateSingleNarration(sceneId)]. *)
Definition generateSingleNarration (captured : StoryContext.Story)
    (capturedScenes : list Scene) (sceneId : string)
    (response : Api.JsError + NarrationResponse)
    (between : Client -> Client) (c : Client) : option Client :=
  if found (has_id sceneId) capturedScenes
  then
    let latest :=
      between
        (on_local (setScenes (update_scene sceneId
                     (with_narration_status generating))) c) in
    match response with
    | inr r => narration_received captured capturedScenes sceneId r latest
    | inl _ => Some (narration_failed sceneId latest)
    end
  else Some c.

(** [retryNarration(sceneId)]: the narration of the scene is taken away
    first. *)
Definition retryNarration (captured : StoryContext.Story)
    (capturedScenes : list Scene) (sceneId : string)
    (response : Api.JsError + NarrationResponse)
    (between : Client -> Client) (c : Client) : option Client :=
  if found (has_id sceneId) capturedScenes
  then
    let latest :=
      between
        (on_local (setScenes (update_scene sceneId
                     (fun s => with_narration (text s) Js.null generating
                                 (narrationDuration s) s))) c) in
    match response with
    | inr r => narration_received captured capturedScenes sceneId r latest
    | inl _ => Some (narration_failed sceneId latest)
    end
  else Some c.

(** [handleSaveScript(sceneId)] with the text [editedText] of the editing
    field: the text is stored at once, in the editor and, from the captured
    story, in the context; the narration of the new text is stored when it
    arrives, again from the captured story. *)
Definition handleSaveScript (captured : StoryContext.Story)
    (capturedScenes : list Scene) (sceneId editedText : string)
    (response : Api.JsError + NarrationResponse)
    (between : Client -> Client) (c : Client) : option Client :=
  match findIndex (has_id sceneId) capturedScenes with
  | Some sceneIndex =>
      let c1 :=
        on_local (setScenes (update_scene sceneId
                    (fun s => with_narration editedText (narrationUrl s)
                                generating (narrationDuration s) s))) c in
      edited ← updatedScenes captured sceneIndex (with_script_text editedText);
      let latest := between (on_story (StoryContext.setScenes edited) c1) in
      match response with
      | inr r =>
          let c2 :=
            on_local (setScenes (update_scene sceneId (narration_ready r)))
              latest in
          updated ←
            updatedScenes captured sceneIndex
              (fun line => narrated r (with_script_text editedText line));
          Some (on_story
                  (fun st =>
                     StoryContext.setFinalVideoUrl ""
                       (StoryContext.setScenes updated st)) c2)
      | inl _ => Some (narration_failed sceneId latest)
      end
  | None => Some c
  end.

End SceneGeneration.

(** ** The provider, with its watchers and the project it is saved to
    ([StoryProvider])

    [StoryContext.Story] holds what the editor reads of the provider. Here
    is the rest of its state, the refs of its watchers, and the functions
    that load it from a project of the database and save it there. *)
Module Provider.

Inductive Method : Type :=
| upload
| generate.

Inductive Step : Type :=
| method
| form
| selection.

(** [CharacterOption]. *)
Record CharacterOption : Type :=
  { option_id : Z;
    option_url : string;
    option_prompt : string }.

Record State : Type :=
  { story : StoryContext.Story;
    characterCreationMethod : option Method;
    characterCreationStep : Step;
    isCharacterUploaded : bool;
    uploadedCharacterUrl : string;
    uploadedImagePreview : string;
    characterOptions : list CharacterOption;
    selectedCharacterId : option Z;
    narrationVoice : string;
    lastVisitedPage : string;
    currentStep : string;
    projectId : option string;
    isHydrated : bool;
    isLoadingProject : bool }.

(** The refs of the provider: the flag of a project load in progress and,
    per watched input, the value the watcher saw last. *)
Record Refs : Type :=
  { isLoadingProjectRef : bool;
    prevStyleRef : string;
    prevThemesRef : list string;
    prevCustomThemeRef : string;
    prevCharacterCreationMethodRef : option Method;
    prevCharacterNameRef : string;
    prevCharacterTypeRef : string;
    prevPersonalityRef : string;
    prevCharacterPromptRef : string;
    prevSceneCountRef : nat }.

(** The provider as first rendered, and its refs. *)
Definition initial : State :=
  {| story :=
       {| StoryContext.inputs :=
            {| StoryContext.characterName := "";
               StoryContext.characterType := "";
               StoryContext.personality := "";
               StoryContext.characterDescription := "";
               StoryContext.characterPrompt := "";
               StoryContext.characterImageUrl := "";
               StoryContext.selectedStyle := "";
               StoryContext.selectedThemes := [];
               StoryContext.customTheme := "";
               StoryContext.sceneCount := 6 |};
          StoryContext.storyTitle := "";
          StoryContext.scenes := [];
          StoryContext.imagePrompts := [];
          StoryContext.videoPrompts := [];
          StoryContext.visualBlueprint := None;
          StoryContext.sceneImages := [];
          StoryContext.videos := [];
          StoryContext.sideCharacterImages := [];
          StoryContext.storySignature := "";
          StoryContext.finalVideoUrl := "" |};
     characterCreationMethod := None;
     characterCreationStep := method;
     isCharacterUploaded := false;
     uploadedCharacterUrl := "";
     uploadedImagePreview := "";
     characterOptions := [];
     selectedCharacterId := None;
     narrationVoice := "auto";
     lastVisitedPage := "/create/start";
     currentStep := "style";
     projectId := None;
     isHydrated := false;
     isLoadingProject := false |}.

(** [useRef(x)] for each watched input [x] of the state [p]. *)
Definition refs_of (loading : bool) (p : State) : Refs :=
  {| isLoadingProjectRef := loading;
     prevStyleRef := StoryContext.selectedStyle (StoryContext.inputs (story p));
     prevThemesRef :=
       StoryContext.selectedThemes (StoryContext.inputs (story p));
     prevCustomThemeRef :=
       StoryContext.customTheme (StoryContext.inputs (story p));
     prevCharacterCreationMethodRef := characterCreationMethod p;
     prevCharacterNameRef :=
       StoryContext.characterName (StoryContext.inputs (story p));
     prevCharacterTypeRef :=
       StoryContext.characterType (StoryContext.inputs (story p));
     prevPersonalityRef :=
       StoryContext.personality (StoryContext.inputs (story p));
     prevCharacterPromptRef :=
       StoryContext.characterPrompt (StoryContext.inputs (story p));
     prevSceneCountRef :=
       StoryContext.sceneCount (StoryContext.inputs (story p)) |}.

(** *** Setters *)

Definition on_story (f : StoryContext.Story -> StoryContext.Story)
    (p : State) : State :=
  {| story := f (story p);
     characterCreationMethod := characterCreationMethod p;
     characterCreationStep := characterCreationStep p;
     isCharacterUploaded := isCharacterUploaded p;
     uploadedCharacterUrl := uploadedCharacterUrl p;
     uploadedImagePreview := uploadedImagePreview p;
     characterOptions := characterOptions p;
     selectedCharacterId := selectedCharacterId p;
     narrationVoice := narrationVoice p;
     lastVisitedPage := lastVisitedPage p;
     currentStep := currentStep p;
     projectId := projectId p;
     isHydrated := isHydrated p;
     isLoadingProject := isLoadingProject p |}.

Definition on_inputs
    (f : StoryContext.StoryInputs -> StoryContext.StoryInputs)
    (s : StoryContext.Story) : StoryContext.Story :=
  {| StoryContext.inputs := f (StoryContext.inputs s);
     StoryContext.storyTitle := StoryContext.storyTitle s;
     StoryContext.scenes := StoryContext.scenes s;
     StoryContext.imagePrompts := StoryContext.imagePrompts s;
     StoryContext.videoPrompts := StoryContext.videoPrompts s;
     StoryContext.visualBlueprint := StoryContext.visualBlueprint s;
     StoryContext.sceneImages := StoryContext.sceneImages s;
     StoryContext.videos := StoryContext.videos s;
     StoryContext.sideCharacterImages := StoryContext.sideCharacterImages s;
     StoryContext.storySignature := StoryContext.storySignature s;
     StoryContext.finalVideoUrl := StoryContext.finalVideoUrl s |}.

Definition setSelectedStyle (style : string) (p : State) : State :=
  on_story (on_inputs (fun i =>
    {| StoryContext.characterName := StoryContext.characterName i;
       StoryContext.characterType := StoryContext.characterType i;
       StoryContext.personality := StoryContext.personality i;
       StoryContext.characterDescription := StoryContext.characterDescription i;
       StoryContext.characterPrompt := StoryContext.characterPrompt i;
       StoryContext.characterImageUrl := StoryContext.characterImageUrl i;
       StoryContext.selectedStyle := style;
       StoryContext.selectedThemes := StoryContext.selectedThemes i;
       StoryContext.customTheme := StoryContext.customTheme i;
       StoryContext.sceneCount := StoryContext.sceneCount i |})) p.

Definition setSelectedThemes (themes : list string) (p : State) : State :=
  on_story (on_inputs (fun i =>
    {| StoryContext.characterName := StoryContext.characterName i;
       StoryContext.characterType := StoryContext.characterType i;
       StoryContext.personality := StoryContext.personality i;
       StoryContext.characterDescription := StoryContext.characterDescription i;
       StoryContext.characterPrompt := StoryContext.characterPrompt i;
       StoryContext.characterImageUrl := StoryContext.characterImageUrl i;
       StoryContext.selectedStyle := StoryContext.selectedStyle i;
       StoryContext.selectedThemes := themes;
       StoryContext.customTheme := StoryContext.customTheme i;
       StoryContext.sceneCount := StoryContext.sceneCount i |})) p.

Definition setCustomTheme (theme : string) (p : State) : State :=
  on_story (on_inputs (fun i =>
    {| StoryContext.characterName := StoryContext.characterName i;
       StoryContext.characterType := StoryContext.characterType i;
       StoryContext.personality := StoryContext.personality i;
       StoryContext.characterDescription := StoryContext.characterDescription i;
       StoryContext.characterPrompt := StoryContext.characterPrompt i;
       StoryContext.characterImageUrl := StoryContext.characterImageUrl i;
       StoryContext.selectedStyle := StoryContext.selectedStyle i;
       StoryContext.selectedThemes := StoryContext.selectedThemes i;
       StoryContext.customTheme := theme;
       StoryContext.sceneCount := StoryContext.sceneCount i |})) p.

Definition setCharacterName (name : string) (p : State) : State :=
  on_story (on_inputs (fun i =>
    {| StoryContext.characterName := name;
       StoryContext.characterType := StoryContext.characterType i;
       StoryContext.personality := StoryContext.personality i;
       StoryContext.characterDescription := StoryContext.characterDescription i;
       StoryContext.characterPrompt := StoryContext.characterPrompt i;
       StoryContext.characterImageUrl := StoryContext.characterImageUrl i;
       StoryContext.selectedStyle := StoryContext.selectedStyle i;
       StoryContext.selectedThemes := StoryContext.selectedThemes i;
       StoryContext.customTheme := StoryContext.customTheme i;
       StoryContext.sceneCount := StoryContext.sceneCount i |})) p.

Definition setCharacterType (type : string) (p : State) : State :=
  on_story (on_inputs (fun i =>
    {| StoryContext.characterName := StoryContext.characterName i;
       StoryContext.characterType := type;
       StoryContext.personality := StoryContext.personality i;
       StoryContext.characterDescription := StoryContext.characterDescription i;
       StoryContext.characterPrompt := StoryContext.characterPrompt i;
       StoryContext.characterImageUrl := StoryContext.characterImageUrl i;
       StoryContext.selectedStyle := StoryContext.selectedStyle i;
       StoryContext.selectedThemes := StoryContext.selectedThemes i;
       StoryContext.customTheme := StoryContext.customTheme i;
       StoryContext.sceneCount := StoryContext.sceneCount i |})) p.

Definition setPersonality (personality : string) (p : State) : State :=
  on_story (on_inputs (fun i =>
    {| StoryContext.characterName := StoryContext.characterName i;
       StoryContext.characterType := StoryContext.characterType i;
       StoryContext.personality := personality;
       StoryContext.characterDescription := StoryContext.characterDescription i;
       StoryContext.characterPrompt := StoryContext.characterPrompt i;
       StoryContext.characterImageUrl := StoryContext.characterImageUrl i;
       StoryContext.selectedStyle := StoryContext.selectedStyle i;
       StoryContext.selectedThemes := StoryContext.selectedThemes i;
       StoryContext.customTheme := StoryContext.customTheme i;
       StoryContext.sceneCount := StoryContext.sceneCount i |})) p.

Definition setCharacterDescription (desc : string) (p : State) : State :=
  on_story (on_inputs (fun i =>
    {| StoryContext.characterName := StoryContext.characterName i;
       StoryContext.characterType := StoryContext.characterType i;
       StoryContext.personality := StoryContext.personality i;
       StoryContext.characterDescription := desc;
       StoryContext.characterPrompt := StoryContext.characterPrompt i;
       StoryContext.characterImageUrl := StoryContext.characterImageUrl i;
       StoryContext.selectedStyle := StoryContext.selectedStyle i;
       StoryContext.selectedThemes := StoryContext.selectedThemes i;
       StoryContext.customTheme := StoryContext.customTheme i;
       StoryContext.sceneCount := StoryContext.sceneCount i |})) p.

Definition setCharacterPrompt (prompt : string) (p : State) : State :=
  on_story (on_inputs (fun i =>
    {| StoryContext.characterName := StoryContext.characterName i;
       StoryContext.characterType := StoryContext.characterType i;
       StoryContext.personality := StoryContext.personality i;
       StoryContext.characterDescription := StoryContext.characterDescription i;
       StoryContext.characterPrompt := prompt;
       StoryContext.characterImageUrl := StoryContext.characterImageUrl i;
       StoryContext.selectedStyle := StoryContext.selectedStyle i;
       StoryContext.selectedThemes := StoryContext.selectedThemes i;
       StoryContext.customTheme := StoryContext.customTheme i;
       StoryContext.sceneCount := StoryContext.sceneCount i |})) p.

Definition setCharacterImageUrl (url : string) (p : State) : State :=
  on_story (on_inputs (fun i =>
    {| StoryContext.characterName := StoryContext.characterName i;
       StoryContext.characterType := StoryContext.characterType i;
       StoryContext.personality := StoryContext.personality i;
       StoryContext.characterDescription := StoryContext.characterDescription i;
       StoryContext.characterPrompt := StoryContext.characterPrompt i;
       StoryContext.characterImageUrl := url;
       StoryContext.selectedStyle := StoryContext.selectedStyle i;
       StoryContext.selectedThemes := StoryContext.selectedThemes i;
       StoryContext.customTheme := StoryContext.customTheme i;
       StoryContext.sceneCount := StoryContext.sceneCount i |})) p.

Definition setSceneCount (n : nat) (p : State) : State :=
  on_story (StoryContext.setSceneCount n) p.

Definition setCharacterCreationMethod (m : option Method) (p : State)
    : State :=
  {| story := story p;
     characterCreationMethod := m;
     characterCreationStep := characterCreationStep p;
     isCharacterUploaded := isCharacterUploaded p;
     uploadedCharacterUrl := uploadedCharacterUrl p;
     uploadedImagePreview := uploadedImagePreview p;
     characterOptions := characterOptions p;
     selectedCharacterId := selectedCharacterId p;
     narrationVoice := narrationVoice p;
     lastVisitedPage := lastVisitedPage p;
     currentStep := currentStep p;
     projectId := projectId p;
     isHydrated := isHydrated p;
     isLoadingProject := isLoadingProject p |}.

Definition setCharacterCreationStep (st : Step) (p : State) : State :=
  {| story := story p;
     characterCreationMethod := characterCreationMethod p;
     characterCreationStep := st;
     isCharacterUploaded := isCharacterUploaded p;
     uploadedCharacterUrl := uploadedCharacterUrl p;
     uploadedImagePreview := uploadedImagePreview p;
     characterOptions := characterOptions p;
     selectedCharacterId := selectedCharacterId p;
     narrationVoice := narrationVoice p;
     lastVisitedPage := lastVisitedPage p;
     currentStep := currentStep p;
     projectId := projectId p;
     isHydrated := isHydrated p;
     isLoadingProject := isLoadingProject p |}.

(** [setCharacterOptions(options); setSelectedCharacterId(id)]. *)
Definition setCharacterChoice (options : list CharacterOption)
    (chosen : option Z) (p : State) : State :=
  {| story := story p;
     characterCreationMethod := characterCreationMethod p;
     characterCreationStep := characterCreationStep p;
     isCharacterUploaded := isCharacterUploaded p;
     uploadedCharacterUrl := uploadedCharacterUrl p;
     uploadedImagePreview := uploadedImagePreview p;
     characterOptions := options;
     selectedCharacterId := chosen;
     narrationVoice := narrationVoice p;
     lastVisitedPage := lastVisitedPage p;
     currentStep := currentStep p;
     projectId := projectId p;
     isHydrated := isHydrated p;
     isLoadingProject := isLoadingProject p |}.

(** [setUploadedCharacterUrl(url); setUploadedImagePreview(preview);
    setIsCharacterUploaded(uploaded)]. *)
Definition setUpload (url preview : string) (uploaded : bool) (p : State)
    : State :=
  {| story := story p;
     characterCreationMethod := characterCreationMethod p;
     characterCreationStep := characterCreationStep p;
     isCharacterUploaded := uploaded;
     uploadedCharacterUrl := url;
     uploadedImagePreview := preview;
     characterOptions := characterOptions p;
     selectedCharacterId := selectedCharacterId p;
     narrationVoice := narrationVoice p;
     lastVisitedPage := lastVisitedPage p;
     currentStep := currentStep p;
     projectId := projectId p;
     isHydrated := isHydrated p;
     isLoadingProject := isLoadingProject p |}.

Definition setProjectId (id : option string) (p : State) : State :=
  {| story := story p;
     characterCreationMethod := characterCreationMethod p;
     characterCreationStep := characterCreationStep p;
     isCharacterUploaded := isCharacterUploaded p;
     uploadedCharacterUrl := uploadedCharacterUrl p;
     uploadedImagePreview := uploadedImagePreview p;
     characterOptions := characterOptions p;
     selectedCharacterId := selectedCharacterId p;
     narrationVoice := narrationVoice p;
     lastVisitedPage := lastVisitedPage p;
     currentStep := currentStep p;
     projectId := id;
     isHydrated := isHydrated p;
     isLoadingProject := isLoadingProject p |}.

Definition setIsHydrated (b : bool) (p : State) : State :=
  {| story := story p;
     characterCreationMethod := characterCreationMethod p;
     characterCreationStep := characterCreationStep p;
     isCharacterUploaded := isCharacterUploaded p;
     uploadedCharacterUrl := uploadedCharacterUrl p;
     uploadedImagePreview := uploadedImagePreview p;
     characterOptions := characterOptions p;
     selectedCharacterId := selectedCharacterId p;
     narrationVoice := narrationVoice p;
     lastVisitedPage := lastVisitedPage p;
     currentStep := currentStep p;
     projectId := projectId p;
     isHydrated := b;
     isLoadingProject := isLoadingProject p |}.

Definition setIsLoadingProject (b : bool) (p : State) : State :=
  {| story := story p;
     characterCreationMethod := characterCreationMethod p;
     characterCreationStep := characterCreationStep p;
     isCharacterUploaded := isCharacterUploaded p;
     uploadedCharacterUrl := uploadedCharacterUrl p;
     uploadedImagePreview := uploadedImagePreview p;
     characterOptions := characterOptions p;
     selectedCharacterId := selectedCharacterId p;
     narrationVoice := narrationVoice p;
     lastVisitedPage := lastVisitedPage p;
     currentStep := currentStep p;
     projectId := projectId p;
     isHydrated := isHydrated p;
     isLoadingProject := b |}.

(** [setCharacterOptions([]); setCharacterImageUrl('');
    setCharacterPrompt(''); setSelectedCharacterId(null)]: the four calls
    with which every watcher but the last two takes the character away. *)
Definition clearCharacter (p : State) : State :=
  setCharacterChoice [] None
    (setCharacterPrompt "" (setCharacterImageUrl "" p)).

Definition clearGeneratedContent (p : State) : State :=
  on_story StoryContext.clearGeneratedContent p.

(** *** The watchers

    Each watcher is an effect: it reads the state of the render it was
    created in, here [p], and the refs as they are when it runs. It returns
    before touching its ref when the provider is not hydrated or a project
    is being loaded. *)

Definition suspended (r : Refs) (p : State) : bool :=
  negb (isHydrated p) || isLoadingProjectRef r.

(** The effect on [isHydrated]: once hydrated, every ref takes the value of
    its input. *)
Definition hydrationSync (r : Refs) (p : State) : Refs :=
  if isHydrated p then refs_of (isLoadingProjectRef r) p else r.

(** [prev && prev !== now]: the test of a watcher whose ref must have held
    something. *)
Definition changed (prev now : string) : bool :=
  negb (String.eqb prev "") && negb (String.eqb prev now).

(** The effect on [selectedStyle]. *)
Definition styleWatcher (r : Refs) (p : State) : Refs * State :=
  if suspended r p then (r, p)
  else
    let style := StoryContext.selectedStyle (StoryContext.inputs (story p)) in
    ({| isLoadingProjectRef := isLoadingProjectRef r;
        prevStyleRef := style;
        prevThemesRef := prevThemesRef r;
        prevCustomThemeRef := prevCustomThemeRef r;
        prevCharacterCreationMethodRef := prevCharacterCreationMethodRef r;
        prevCharacterNameRef := prevCharacterNameRef r;
        prevCharacterTypeRef := prevCharacterTypeRef r;
        prevPersonalityRef := prevPersonalityRef r;
        prevCharacterPromptRef := prevCharacterPromptRef r;
        prevSceneCountRef := prevSceneCountRef r |},
     if changed (prevStyleRef r) style
     then clearGeneratedContent (clearCharacter p)
     else p).

(** The effect on [selectedThemes] and [customTheme]. The two tests read the
    [characterImageUrl] of the render, also after the first has asked for
    it to be cleared. *)
Definition themesWatcher (r : Refs) (p : State) : Refs * State :=
  if suspended r p then (r, p)
  else
    let i := StoryContext.inputs (story p) in
    let themesChanged :=
      negb (String.eqb (Js.quote_list (prevThemesRef r))
              (Js.quote_list (StoryContext.selectedThemes i))) in
    let customThemeChanged :=
      negb (String.eqb (prevCustomThemeRef r) (StoryContext.customTheme i)) in
    let hasCharacter :=
      negb (String.eqb (StoryContext.characterImageUrl i) "") in
    let clear (q : State) :=
      clearGeneratedContent
        (setCharacterCreationStep method
           (setCharacterCreationMethod None (clearCharacter q))) in
    let p1 := if themesChanged && hasCharacter then clear p else p in
    let p2 := if customThemeChanged && hasCharacter then clear p1 else p1 in
    ({| isLoadingProjectRef := isLoadingProjectRef r;
        prevStyleRef := prevStyleRef r;
        prevThemesRef := StoryContext.selectedThemes i;
        prevCustomThemeRef := StoryContext.customTheme i;
        prevCharacterCreationMethodRef := prevCharacterCreationMethodRef r;
        prevCharacterNameRef := prevCharacterNameRef r;
        prevCharacterTypeRef := prevCharacterTypeRef r;
        prevPersonalityRef := prevPersonalityRef r;
        prevCharacterPromptRef := prevCharacterPromptRef r;
        prevSceneCountRef := prevSceneCountRef r |}, p2).

Definition method_eqb (a b : option Method) : bool :=
  match a, b with
  | None, None => true
  | Some upload, Some upload => true
  | Some generate, Some generate => true
  | _, _ => false
  end.

(** The effect on [characterCreationMethod]. *)
Definition methodWatcher (r : Refs) (p : State) : Refs * State :=
  if suspended r p then (r, p)
  else
    ({| isLoadingProjectRef := isLoadingProjectRef r;
        prevStyleRef := prevStyleRef r;
        prevThemesRef := prevThemesRef r;
        prevCustomThemeRef := prevCustomThemeRef r;
        prevCharacterCreationMethodRef := characterCreationMethod p;
        prevCharacterNameRef := prevCharacterNameRef r;
        prevCharacterTypeRef := prevCharacterTypeRef r;
        prevPersonalityRef := prevPersonalityRef r;
        prevCharacterPromptRef := prevCharacterPromptRef r;
        prevSceneCountRef := prevSceneCountRef r |},
     if negb (method_eqb (prevCharacterCreationMethodRef r) None)
        && negb (method_eqb (prevCharacterCreationMethodRef r)
                   (characterCreationMethod p))
     then
       setCharacterDescription ""
         (setUpload "" "" false (clearCharacter p))
     else p).

(** The effect on [characterName], [characterType] and [personality]. *)
Definition detailsWatcher (r : Refs) (p : State) : Refs * State :=
  if suspended r p then (r, p)
  else
    let i := StoryContext.inputs (story p) in
    let p1 :=
      if changed (prevCharacterNameRef r) (StoryContext.characterName i)
      then clearCharacter p else p in
    let p2 :=
      if changed (prevCharacterTypeRef r) (StoryContext.characterType i)
      then clearCharacter p1 else p1 in
    let p3 :=
      if changed (prevPersonalityRef r) (StoryContext.personality i)
      then clearCharacter p2 else p2 in
    ({| isLoadingProjectRef := isLoadingProjectRef r;
        prevStyleRef := prevStyleRef r;
        prevThemesRef := prevThemesRef r;
        prevCustomThemeRef := prevCustomThemeRef r;
        prevCharacterCreationMethodRef := prevCharacterCreationMethodRef r;
        prevCharacterNameRef := StoryContext.characterName i;
        prevCharacterTypeRef := StoryContext.characterType i;
        prevPersonalityRef := StoryContext.personality i;
        prevCharacterPromptRef := prevCharacterPromptRef r;
        prevSceneCountRef := prevSceneCountRef r |}, p3).

(** The effect on [characterPrompt]. *)
Definition promptWatcher (r : Refs) (p : State) : Refs * State :=
  if suspended r p then (r, p)
  else
    let prompt :=
      StoryContext.characterPrompt (StoryContext.inputs (story p)) in
    ({| isLoadingProjectRef := isLoadingProjectRef r;
        prevStyleRef := prevStyleRef r;
        prevThemesRef := prevThemesRef r;
        prevCustomThemeRef := prevCustomThemeRef r;
        prevCharacterCreationMethodRef := prevCharacterCreationMethodRef r;
        prevCharacterNameRef := prevCharacterNameRef r;
        prevCharacterTypeRef := prevCharacterTypeRef r;
        prevPersonalityRef := prevPersonalityRef r;
        prevCharacterPromptRef := prompt;
        prevSceneCountRef := prevSceneCountRef r |},
     if changed (prevCharacterPromptRef r) prompt
     then clearGeneratedContent p
     else p).

(** The effect on [sceneCount]: [StoryContext.sceneCountWatcher] on the
    refs and state of the whole provider. *)
Definition sceneCountWatcher (r : Refs) (p : State) : Refs * State :=
  let '(w, s) :=
    StoryContext.sceneCountWatcher
      {| StoryContext.isHydrated := isHydrated p;
         StoryContext.isLoadingProjectRef := isLoadingProjectRef r;
         StoryContext.prevSceneCountRef := prevSceneCountRef r |}
      (story p) in
  ({| isLoadingProjectRef := isLoadingProjectRef r;
      prevStyleRef := prevStyleRef r;
      prevThemesRef := prevThemesRef r;
      prevCustomThemeRef := prevCustomThemeRef r;
      prevCharacterCreationMethodRef := prevCharacterCreationMethodRef r;
      prevCharacterNameRef := prevCharacterNameRef r;
      prevCharacterTypeRef := prevCharacterTypeRef r;
      prevPersonalityRef := prevPersonalityRef r;
      prevCharacterPromptRef := prevCharacterPromptRef r;
      prevSceneCountRef := StoryContext.prevSceneCountRef w |},
   on_story (fun _ => s) p).

(** The six watchers, in the order of the source. *)
Definition watchers : list (Refs -> State -> Refs * State) :=
  [styleWatcher; themesWatcher; methodWatcher; detailsWatcher; promptWatcher;
   sceneCountWatcher].

(** *** Projects *)

(** [ProjectScene], as far as the provider reads and writes it. An absent
    field and [null] are [None]. *)
Record ProjectScene : Type :=
  { scene_number : Z;
    scene_type : option string;
    script_text : option string;
    image_prompt : option string;
    video_prompt : option string;
    image_url : option string;
    video_url : option string;
    narration_url : option string }.

(** [Project], with the fields that [loadFromProject] reads. *)
Record Project : Type :=
  { id : string;
    title : option string;
    style : option string;
    themes : option (list string);
    custom_theme : option string;
    character_name : option string;
    character_type : option string;
    personality : option string;
    character_description : option string;
    character_image_url : option string;
    character_creation_method : option Method;
    character_creation_step : option Step;
    character_options : option (list CharacterOption);
    character_prompt : option string;
    selected_character_id : option Z;
    is_character_uploaded : option bool;
    uploaded_character_url : option string;
    scene_count : option nat;
    narration_voice : option string;
    final_video_url : option string;
    current_step : option string;
    scenes : option (list ProjectScene) }.

(** [x || d] for an optional string: absent, [null] and the empty string
    give [d]. *)
Definition or_string (x : option string) (d : string) : string :=
  match x with
  | Some (String c rest) => String c rest
  | _ => d
  end.

(** Whether an optional string is truthy. *)
Definition present (x : option string) : bool :=
  match x with
  | Some (String _ _) => true
  | _ => false
  end.

(** [n || 6]. *)
Definition count_or_six (n : option nat) : nat :=
  match n with
  | Some (S m) => S m
  | _ => 6
  end.

(** [[...scenes].sort((a, b) => a.scene_number - b.scene_number)]: the sort
    is stable, so the result is the one of inserting each scene, from the
    last to the first, before the first scene whose number is not
    smaller. *)
Fixpoint insert_scene (s : ProjectScene) (sorted : list ProjectScene)
    : list ProjectScene :=
  match sorted with
  | [] => [s]
  | t :: rest =>
      if Z.leb (scene_number s) (scene_number t) then s :: t :: rest
      else t :: insert_scene s rest
  end.

Fixpoint sortedScenes (l : list ProjectScene) : list ProjectScene :=
  match l with
  | [] => []
  | s :: rest => insert_scene s (sortedScenes rest)
  end.

(** The scene line, image, video and prompts that [loadFromProject] makes
    of a stored scene. *)
Definition sceneLine (s : ProjectScene) : StoryContext.SceneLine :=
  {| StoryContext.scene_number := scene_number s;
     StoryContext.scene_type := or_string (scene_type s) "character";
     StoryContext.script_text := or_string (script_text s) "";
     StoryContext.narration_url :=
       if present (narration_url s)
       then Js.str (or_string (narration_url s) "") else Js.null;
     StoryContext.narration_duration := None;
     StoryContext.phonemes := None |}.

Definition imagePrompt (s : ProjectScene) : StoryContext.ImagePrompt :=
  {| StoryContext.ip_scene_number := scene_number s;
     StoryContext.ip_prompt := or_string (image_prompt s) "";
     StoryContext.ip_scene_type := or_string (scene_type s) "character";
     StoryContext.characters_in_scene := None |}.

Definition videoPrompt (s : ProjectScene) : StoryContext.VideoPrompt :=
  {| StoryContext.vp_scene_number := scene_number s;
     StoryContext.vp_prompt := or_string (video_prompt s) "" |}.

(** The inputs that a project stands for. *)
Definition loadedInputs (project : Project) : StoryContext.StoryInputs :=
  {| StoryContext.characterName := or_string (character_name project) "";
     StoryContext.characterType := or_string (character_type project) "";
     StoryContext.personality := or_string (personality project) "";
     StoryContext.characterDescription :=
       or_string (character_description project) "";
     StoryContext.characterPrompt := or_string (character_prompt project) "";
     StoryContext.characterImageUrl :=
       or_string (character_image_url project) "";
     StoryContext.selectedStyle := or_string (style project) "";
     StoryContext.selectedThemes := default [] (themes project);
     StoryContext.customTheme := or_string (custom_theme project) "";
     StoryContext.sceneCount := count_or_six (scene_count project) |}.

(** [loadedSignature]: [JSON.stringify] of the object of the ten inputs
    of the project, which has the keys of the object that the editor
    serializes, in the same order. *)
Definition loadedSignature (project : Project) : string :=
  SceneGeneration.currentSignature
    {| StoryContext.characterName := or_string (character_name project) "";
       StoryContext.characterType := or_string (character_type project) "";
       StoryContext.personality := or_string (personality project) "";
       StoryContext.characterDescription :=
         or_string (character_description project) "";
       StoryContext.characterPrompt := or_string (character_prompt project) "";
       StoryContext.characterImageUrl :=
         or_string (character_image_url project) "";
       StoryContext.selectedStyle := or_string (style project) "";
       StoryContext.selectedThemes := default [] (themes project);
       StoryContext.customTheme := or_string (custom_theme project) "";
       StoryContext.sceneCount := count_or_six (scene_count project) |}.

(** The step of the character creation: the stored one, or the one
    inferred from what the project holds. *)
Definition loadedStep (project : Project) : Step :=
  match character_creation_step project with
  | Some st => st
  | None =>
      if present (character_image_url project) then selection
      else if negb (Nat.eqb (length (default [] (character_options project)))
                      0)
      then selection
      else if present (uploaded_character_url project) then form
      else if present (character_name project) then form
      else if match character_creation_method project with
              | Some _ => true
              | None => false
              end
      then form
      else method
  end.

(** The scenes of a project that has some, sorted. *)
Definition loadedScenes (project : Project) : list ProjectScene :=
  match scenes project with
  | Some (s :: rest) => sortedScenes (s :: rest)
  | _ => []
  end.

(** [loadFromProject(project)], up to its microtask and its timer: the flag
    of the load is raised, the whole state is reset and then set from the
    project (a field that the project does not give keeps the value of the
    reset), the refs of the watchers are set to the loaded values, and the
    signature of the loaded inputs is recorded. *)
Definition loadFromProject (project : Project) (r : Refs) (p : State)
    : Refs * State :=
  let sorted := loadedScenes project in
  ({| isLoadingProjectRef := true;
      prevStyleRef := or_string (style project) "";
      prevThemesRef := default [] (themes project);
      prevCustomThemeRef := or_string (custom_theme project) "";
      prevCharacterCreationMethodRef := character_creation_method project;
      prevCharacterNameRef := or_string (character_name project) "";
      prevCharacterTypeRef := or_string (character_type project) "";
      prevPersonalityRef := or_string (personality project) "";
      prevCharacterPromptRef := or_string (character_prompt project) "";
      prevSceneCountRef := count_or_six (scene_count project) |},
   {| story :=
        {| StoryContext.inputs := loadedInputs project;
           StoryContext.storyTitle := or_string (title project) "";
           StoryContext.scenes := map sceneLine sorted;
           StoryContext.imagePrompts :=
             map imagePrompt
               (List.filter (fun s => present (image_prompt s)) sorted);
           StoryContext.videoPrompts :=
             map videoPrompt
               (List.filter (fun s => present (video_prompt s)) sorted);
           StoryContext.visualBlueprint := None;
           StoryContext.sceneImages :=
             map (fun s => Some (Js.str (or_string (image_url s) ""))) sorted;
           StoryContext.videos :=
             map (fun s => Some (Js.str (or_string (video_url s) ""))) sorted;
           StoryContext.sideCharacterImages := [];
           StoryContext.storySignature := loadedSignature project;
           StoryContext.finalVideoUrl :=
             or_string (final_video_url project) "" |};
      characterCreationMethod := character_creation_method project;
      characterCreationStep := loadedStep project;
      isCharacterUploaded := default false (is_character_uploaded project);
      uploadedCharacterUrl := or_string (uploaded_character_url project) "";
      uploadedImagePreview := or_string (uploaded_character_url project) "";
      characterOptions := default [] (character_options project);
      selectedCharacterId := selected_character_id project;
      narrationVoice := or_string (narration_voice project) "auto";
      lastVisitedPage := "/create/start";
      currentStep := or_string (current_step project) "style";
      projectId := Some (id project);
      isHydrated := isHydrated p;
      isLoadingProject := true |}).

(** The microtask queued by [loadFromProject]. *)
Definition loadingMicrotask (r : Refs) : Refs :=
  {| isLoadingProjectRef := false;
     prevStyleRef := prevStyleRef r;
     prevThemesRef := prevThemesRef r;
     prevCustomThemeRef := prevCustomThemeRef r;
     prevCharacterCreationMethodRef := prevCharacterCreationMethodRef r;
     prevCharacterNameRef := prevCharacterNameRef r;
     prevCharacterTypeRef := prevCharacterTypeRef r;
     prevPersonalityRef := prevPersonalityRef r;
     prevCharacterPromptRef := prevCharacterPromptRef r;
     prevSceneCountRef := prevSceneCountRef r |}.

(** The timer of 500 ms set by [loadFromProject]. *)
Definition loadingTimer (p : State) : State := setIsLoadingProject false p.

(** A list of scene numbers in ascending order. *)
Fixpoint ascending (l : list Z) : Prop :=
  match l with
  | [] => True
  | n :: rest => Forall (Z.le n) rest /\ ascending rest
  end.

(** [reset()]. *)
Definition reset (p : State) : State :=
  {| story :=
       {| StoryContext.inputs :=
            {| StoryContext.characterName := "";
               StoryContext.characterType := "";
               StoryContext.personality := "";
               StoryContext.characterDescription := "";
               StoryContext.characterPrompt := "";
               StoryContext.characterImageUrl := "";
               StoryContext.selectedStyle := "";
               StoryContext.selectedThemes := [];
               StoryContext.customTheme := "";
               StoryContext.sceneCount := 5 |};
          StoryContext.storyTitle := "";
          StoryContext.scenes := [];
          StoryContext.imagePrompts := [];
          StoryContext.videoPrompts := [];
          StoryContext.visualBlueprint := None;
          StoryContext.sceneImages := [];
          StoryContext.videos := [];
          StoryContext.sideCharacterImages := [];
          StoryContext.storySignature := "";
          StoryContext.finalVideoUrl := "" |};
     characterCreationMethod := None;
     characterCreationStep := method;
     isCharacterUploaded := false;
     uploadedCharacterUrl := "";
     uploadedImagePreview := "";
     characterOptions := [];
     selectedCharacterId := None;
     narrationVoice := "auto";
     lastVisitedPage := "/create/start";
     currentStep := "style";
     projectId := None;
     isHydrated := isHydrated p;
     isLoadingProject := isLoadingProject p |}.

(** *** The character creation page ([CharacterCreation]) *)

(** [handleSelectCharacter()], with the [selectedCharacter] of the page:
    the chosen option gives the character image and the character prompt.
    The boolean tells whether the page went on to the next step. *)
Definition handleSelectCharacter (selectedCharacter : option Z) (p : State)
    : State * bool :=
  match selectedCharacter with
  | None => (p, false)
  | Some chosen =>
      match List.find (fun c => Z.eqb (option_id c) chosen)
              (characterOptions p) with
      | Some selected =>
          (setCharacterPrompt (option_prompt selected)
             (setCharacterImageUrl (option_url selected)
                (setCharacterChoice (characterOptions p) (Some chosen) p)),
           true)
      | None => (p, false)
      end
  end.

(** *** The pages that choose themes and personalities
    ([StoryNarration], [CharacterCreation]) *)

(** [l.includes(x)]. *)
Definition includes (x : string) (l : list string) : bool :=
  existsb (String.eqb x) l.

(** [l.filter(t => t !== x)]. *)
Definition without (x : string) (l : list string) : list string :=
  List.filter (fun t => negb (String.eqb t x)) l.

(** The body that [toggleTheme] and [togglePersonality] share: a chosen
    entry is taken out, another one is added at the end while fewer than
    [limit] are chosen, and otherwise nothing is updated ([None]). *)
Definition toggled (limit : nat) (x : string) (current : list string)
    : option (list string) :=
  if includes x current then Some (without x current)
  else if Nat.ltb (length current) limit then Some (current ++ [x])
  else None.

(** [toggleTheme(themeId)] of the narration page, whose own
    [selectedThemes] it reads; the page and the context are updated
    together. *)
Definition toggleTheme (themeId : string) (selectedThemes : list string)
    (p : State) : list string * State :=
  match toggled 2 themeId selectedThemes with
  | Some updatedThemes => (updatedThemes, setSelectedThemes updatedThemes p)
  | None => (selectedThemes, p)
  end.

(** [s.split(", ")]: [acc] is the piece read so far. *)
Fixpoint split_from (acc s : string) : list string :=
  match s with
  | EmptyString => [acc]
  | String c rest =>
      match rest with
      | String d rest' =>
          if Ascii.eqb c "," && Ascii.eqb d " "
          then acc :: split_from EmptyString rest'
          else split_from (acc +:+ String c EmptyString) rest
      | EmptyString => split_from (acc +:+ String c EmptyString) rest
      end
  end.

(** [getPersonalities()] of the character creation page. *)
Definition getPersonalities (p : State) : list string :=
  match StoryContext.personality (StoryContext.inputs (story p)) with
  | EmptyString => []
  | String c rest => split_from EmptyString (String c rest)
  end.

(** [togglePersonality(personalityId)]: the personalities are kept in the
    context as one string, joined by a comma and a space. *)
Definition togglePersonality (personalityId : string) (p : State) : State :=
  match toggled 3 personalityId (getPersonalities p) with
  | Some newPersonalities =>
      setPersonality (String.concat ", " newPersonalities) p
  | None => p
  end.

(** A sequence of clicks on themes, on the page and the context. *)
Fixpoint toggleThemes (themeIds : list string) (selectedThemes : list string)
    (p : State) : list string * State :=
  match themeIds with
  | [] => (selectedThemes, p)
  | themeId :: later =>
      let '(updated, p') := toggleTheme themeId selectedThemes p in
      toggleThemes later updated p'
  end.

(** A sequence of clicks on personalities. *)
Fixpoint togglePersonalities (personalityIds : list string) (p : State)
    : State :=
  match personalityIds with
  | [] => p
  | personalityId :: later =>
      togglePersonalities later (togglePersonality personalityId p)
  end.

(** An id like those of the page: not empty and without a comma. *)
Definition is_word (s : string) : bool :=
  negb (String.eqb s "")
  && forallb (fun c => negb (Ascii.eqb c ",")) (list_ascii_of_string s).

(** *** Saving *)

(** The object [projectData] that [saveToDatabase] sends; [None] is
    [undefined], a key that [JSON.stringify] leaves out. *)
Record ProjectData : Type :=
  { data_title : option string;
    data_style : string;
    data_themes : list string;
    data_custom_theme : string;
    data_character_name : string;
    data_character_type : string;
    data_personality : string;
    data_character_description : string;
    data_character_image_url : string;
    data_character_creation_method : option Method;
    data_character_creation_step : Step;
    data_character_options : option (list CharacterOption);
    data_character_prompt : option string;
    data_selected_character_id : option Z;
    data_is_character_uploaded : bool;
    data_uploaded_character_url : option string;
    data_scene_count : nat;
    data_narration_voice : string;
    data_final_video_url : string;
    data_status : string;
    data_current_step : string }.

(** The optional argument of [saveToDatabase]. *)
Record Overrides : Type :=
  { override_uploadedCharacterUrl : option string;
    override_isCharacterUploaded : option bool }.

(** [s || undefined]. *)
Definition or_undefined (s : string) : option string :=
  match s with
  | EmptyString => None
  | String c rest => Some (String c rest)
  end.

(** The text that follows the name of the character in the title of an
    untitled story. *)
Definition title_suffix : string := "의 이야기".

Definition projectData (overrides : option Overrides) (p : State)
    : ProjectData :=
  let i := StoryContext.inputs (story p) in
  let finalUploadedCharacterUrl :=
    default (uploadedCharacterUrl p)
      (overrides ≫= override_uploadedCharacterUrl) in
  let finalIsCharacterUploaded :=
    default (isCharacterUploaded p)
      (overrides ≫= override_isCharacterUploaded) in
  {| data_title :=
       match StoryContext.storyTitle (story p) with
       | String c rest => Some (String c rest)
       | EmptyString =>
           match StoryContext.characterName i with
           | String c rest => Some (String c rest +:+ title_suffix)
           | EmptyString => None
           end
       end;
     data_style := StoryContext.selectedStyle i;
     data_themes := StoryContext.selectedThemes i;
     data_custom_theme := StoryContext.customTheme i;
     data_character_name := StoryContext.characterName i;
     data_character_type := StoryContext.characterType i;
     data_personality := StoryContext.personality i;
     data_character_description := StoryContext.characterDescription i;
     data_character_image_url := StoryContext.characterImageUrl i;
     data_character_creation_method := characterCreationMethod p;
     data_character_creation_step := characterCreationStep p;
     data_character_options :=
       if negb (Nat.eqb (length (characterOptions p)) 0)
       then Some (characterOptions p) else None;
     data_character_prompt := or_undefined (StoryContext.characterPrompt i);
     data_selected_character_id := selectedCharacterId p;
     data_is_character_uploaded := finalIsCharacterUploaded;
     data_uploaded_character_url := or_undefined finalUploadedCharacterUrl;
     data_scene_count := StoryContext.sceneCount i;
     data_narration_voice := narrationVoice p;
     data_final_video_url := StoryContext.finalVideoUrl (story p);
     data_status :=
       if negb (String.eqb (StoryContext.finalVideoUrl (story p)) "")
       then "completed" else "draft";
     data_current_step := currentStep p |}.

(** [prompts.find(p => p.scene_number === n)?.prompt || '']. *)
Definition imagePromptOf (s : StoryContext.Story) (n : Z) : string :=
  from_option StoryContext.ip_prompt ""
    (List.find (fun p => Z.eqb (StoryContext.ip_scene_number p) n)
       (StoryContext.imagePrompts s)).

Definition videoPromptOf (s : StoryContext.Story) (n : Z) : string :=
  from_option StoryContext.vp_prompt ""
    (List.find (fun p => Z.eqb (StoryContext.vp_scene_number p) n)
       (StoryContext.videoPrompts s)).

(** The array [scenesData] that [saveToDatabase] sends. *)
Definition scenesData (s : StoryContext.Story) : list ProjectScene :=
  imap (fun index scene =>
          {| scene_number := StoryContext.scene_number scene;
             scene_type := Some (StoryContext.scene_type scene);
             script_text := Some (StoryContext.script_text scene);
             image_prompt :=
               Some (imagePromptOf s (StoryContext.scene_number scene));
             video_prompt :=
               Some (videoPromptOf s (StoryContext.scene_number scene));
             image_url :=
               Some (Js.to_string
                       (Js.or_ (Js.get (StoryContext.sceneImages s) index)
                          (Js.str "")));
             video_url :=
               Some (Js.to_string
                       (Js.or_ (Js.get (StoryContext.videos s) index)
                          (Js.str "")));
             narration_url :=
               Some (Js.to_string
                       (Js.or_ (StoryContext.narration_url scene)
                          (Js.str ""))) |})
       (StoryContext.scenes s).

(** The requests that [saveToDatabase] makes. *)
Inductive Request : Type :=
| UpdateProject (projectId : string) (data : ProjectData)
| CreateProject (data : ProjectData)
| SaveScenes (projectId : string) (scenes : list ProjectScene).

(** [saveToDatabase(overrides)]. [answer] is the outcome of the first
    request: the thrown error, or the id in the response (the response of an
    update is not read). The id of a created project is stored; an error is
    caught and logged. *)
Definition saveToDatabase (overrides : option Overrides)
    (answer : Api.JsError + string) (p : State) : list Request * State :=
  let data := projectData overrides p in
  let first :=
    if present (projectId p)
    then UpdateProject (or_string (projectId p) "") data
    else CreateProject data in
  match answer with
  | inl _ => ([first], p)
  | inr responseId =>
      let savedProjectId :=
        if present (projectId p) then or_string (projectId p) ""
        else responseId in
      let p' :=
        if present (projectId p) then p else setProjectId (Some responseId) p in
      if negb (String.eqb savedProjectId "")
         && negb (Nat.eqb (length (StoryContext.scenes (story p))) 0)
      then ([first; SaveScenes savedProjectId (scenesData (story p))], p')
      else ([first], p')
  end.

(** Whether the effect of the automatic save sets its timer of 2000 ms. *)
Definition autoSave_armed (p : State) : bool :=
  isHydrated p
  && negb (String.eqb
             (StoryContext.selectedStyle (StoryContext.inputs (story p))) "").

(** Modelled from the spec: the project store, which is not among the
    sources. The spec has it as a store with create, get and update on a
    story document and its per-scene records, a mirror of the story
    document in memory. [storedProject projectId data saved] is the project
    that [getProject] returns from a store that mirrors what it was sent:
    the fields of [data], a key that was left out being absent, and the
    scenes [saved]. Nothing here says which scenes the store holds after a
    save: a theorem that uses this definition holds for every [saved], and
    an example names the project it loads. *)
Definition storedProject (projectId : string) (data : ProjectData)
    (saved : list ProjectScene) : Project :=
  {| id := projectId;
     title := data_title data;
     style := Some (data_style data);
     themes := Some (data_themes data);
     custom_theme := Some (data_custom_theme data);
     character_name := Some (data_character_name data);
     character_type := Some (data_character_type data);
     personality := Some (data_personality data);
     character_description := Some (data_character_description data);
     character_image_url := Some (data_character_image_url data);
     character_creation_method := data_character_creation_method data;
     character_creation_step := Some (data_character_creation_step data);
     character_options := data_character_options data;
     character_prompt := data_character_prompt data;
     selected_character_id := data_selected_character_id data;
     is_character_uploaded := Some (data_is_character_uploaded data);
     uploaded_character_url := data_uploaded_character_url data;
     scene_count := Some (data_scene_count data);
     narration_voice := Some (data_narration_voice data);
     final_video_url := Some (data_final_video_url data);
     current_step := Some (data_current_step data);
     scenes := Some saved |}.

(** [project] has every field of the story that [data] sends, as it was
    sent. Nothing is said of a key that [data] leaves out, which a store may
    drop or keep from an earlier save. *)
Definition returns_fields (data : ProjectData) (project : Project) : Prop :=
  (forall sent, data_title data = Some sent -> title project = Some sent)
  /\ style project = Some (data_style data)
  /\ themes project = Some (data_themes data)
  /\ custom_theme project = Some (data_custom_theme data)
  /\ character_name project = Some (data_character_name data)
  /\ character_type project = Some (data_character_type data)
  /\ personality project = Some (data_personality data)
  /\ character_description project = Some (data_character_description data)
  /\ character_image_url project = Some (data_character_image_url data)
  /\ (forall sent, data_character_prompt data = Some sent ->
                   character_prompt project = Some sent)
  /\ scene_count project = Some (data_scene_count data)
  /\ final_video_url project = Some (data_final_video_url data).

(** [getProject] answers with what [request] sent: the fields of an update
    or of a creation, the scenes of a save of scenes. The store is not
    among the sources; this is the hypothesis under which a save and a load
    are compared. *)
Definition answers_with (project : Project) (request : Request) : Prop :=
  match request with
  | UpdateProject _ data => returns_fields data project
  | CreateProject data => returns_fields data project
  | SaveScenes _ saved => scenes project = Some saved
  end.

End Provider.

(** ** The final-video page ([FinalVideoPage]) *)
Module FinalVideoPage.

(** One scene of the request of the final-video job. *)
Record FinalScene : Type :=
  { video_url : Js.value;
    narration_url : Js.value;
    subtitle_text : string;
    phonemes : option StoryContext.Json;
    duration : Q }.

Record Page : Type :=
  { isRendering : bool;
    finalVideoUrl : Js.value;
    hasGeneratedRef : bool }.

(** The page as first rendered: [useState(story.finalVideoUrl || null)]. *)
Definition initial (story : StoryContext.Story) : Page :=
  {| isRendering := false;
     finalVideoUrl :=
       Js.or_ (Js.str (StoryContext.finalVideoUrl story)) Js.null;
     hasGeneratedRef := false |}.

(** The scenes sent to the backend by [handleGenerateFinalVideo]. *)
Definition request_scenes (story : StoryContext.Story) : list FinalScene :=
  imap (fun idx scene =>
          {| video_url := Js.get (StoryContext.videos story) idx;
             narration_url :=
               Js.or_ (StoryContext.narration_url scene) (Js.str "");
             subtitle_text := StoryContext.script_text scene;
             phonemes := StoryContext.phonemes scene;
             duration := Js.num_or (StoryContext.narration_duration scene) 5 |})
       (StoryContext.scenes story).

(** The effect that starts the generation. The second component is the
    request it submits, if any. *)
Definition autoGenerateEffect (story : StoryContext.Story) (p : Page)
    : Page * option (list FinalScene) :=
  if negb (Js.truthy (finalVideoUrl p))
     && negb (Js.truthy (Js.str (StoryContext.finalVideoUrl story)))
     && negb (Nat.eqb (length (StoryContext.videos story)) 0)
     && negb (hasGeneratedRef p)
  then
    ({| isRendering := true;
        finalVideoUrl := finalVideoUrl p;
        hasGeneratedRef := true |}, Some (request_scenes story))
  else (p, None).

(** The effect that copies a final video URL of the context into the page;
    [rendered] is the page the effects of this render were created in. *)
Definition syncEffect (story : StoryContext.Story) (rendered p : Page) : Page :=
  if Js.truthy (Js.str (StoryContext.finalVideoUrl story))
     && negb (Js.strict_eq (Js.str (StoryContext.finalVideoUrl story))
                (finalVideoUrl rendered))
  then
    {| isRendering := isRendering p;
       finalVideoUrl := Js.str (StoryContext.finalVideoUrl story);
       hasGeneratedRef := hasGeneratedRef p |}
  else p.

(** What happens to a mounted page: a render with the context as it then
    is, after which the effects run, or the end of the generation it
    started. *)
Inductive PageEvent : Type :=
| Render (story : StoryContext.Story)
| Generated (final_video_url : string)
| GenerationFailed.

Definition step (p : Page) (ev : PageEvent)
    : Page * option (list FinalScene) :=
  match ev with
  | Render story =>
      let '(p1, submitted) := autoGenerateEffect story p in
      (syncEffect story p p1, submitted)
  | Generated url =>
      ({| isRendering := false;
          finalVideoUrl := Js.str url;
          hasGeneratedRef := hasGeneratedRef p |}, None)
  | GenerationFailed =>
      ({| isRendering := false;
          finalVideoUrl := finalVideoUrl p;
          hasGeneratedRef := hasGeneratedRef p |}, None)
  end.

(** The requests submitted over a sequence of events. *)
Fixpoint submissions (p : Page) (evs : list PageEvent)
    : list (list FinalScene) :=
  match evs with
  | [] => []
  | ev :: later =>
      let '(p', submitted) := step p ev in
      match submitted with
      | Some request => request :: submissions p' later
      | None => submissions p' later
      end
  end.

(** The life of the page mounted with [story]: the first render, then
    [later]. *)
Definition mounted (story : StoryContext.Story) (later : list PageEvent)
    : list (list FinalScene) :=
  submissions (initial story) (Render story :: later).

End FinalVideoPage.

(** ** The poller as the state machine of the specification

    [Polling] is left for [Resolved] or [Rejected] only; a terminal state
    asks for no further status. Each rule is one case of the tick of the
    specification, with the two cases the source adds to it: a failure record
    whose error is absent or empty is rejected with a default message, and a
    progress callback that throws rejects the promise. *)
Module PollerMachine.

Inductive PollerState (T : Type) : Type :=
| Polling
| Resolved (r : option T)
| Rejected (e : Api.JsError).
Arguments Polling {T}.
Arguments Resolved {T}.
Arguments Rejected {T}.

Definition is_polling {T} (st : PollerState T) : bool :=
  match st with Polling => true | _ => false end.

(** The state a pending or settled promise stands for. *)
Definition state_of {T} (outcome : option (Api.Settlement T)) : PollerState T :=
  match outcome with
  | None => Polling
  | Some (Api.Resolve r) => Resolved r
  | Some (Api.Reject e) => Rejected e
  end.

(** The message a failed job is rejected with: the error of the record when
    it is a non-empty string. *)
Definition failure_message (e : Js.value) : string :=
  match e with
  | Js.str (String c rest) => String c rest
  | _ => "Job failed"
  end.

(** The rejection the specification words ask for: the error of the record
    as it is. *)
Definition record_error (e : Js.value) : Api.JsError :=
  Api.Error_ (Js.to_string e).

Definition progress_info {T} (status : Api.JobStatusResponse T)
    (p : Api.Progress) : Api.ProgressInfo :=
  {| Api.info_current := Api.current p;
     Api.info_total := Api.total p;
     Api.info_status := Api.status status;
     Api.partialResults := Api.partial_results status |}.

Definition running (state : string) : Prop :=
  state = "STARTED" \/ state = "PROGRESS".

Section Machine.

Context {T : Type}.
Variable jobId : string.
Variable onProgress : option Api.Callback.
Variable pollInterval : Z.

(** One tick in state [Polling]: the answer to the status request, the
    events of the tick, the state after it. *)
Inductive tick : Api.FetchResult T -> list Api.Event -> PollerState T -> Prop :=
| tick_running_report resp status p callback :
    Api.getJobStatus resp = inr status ->
    running (Api.state status) ->
    onProgress = Some callback ->
    Api.progress status = Some p ->
    callback (progress_info status p) = None ->
    tick resp
      [Api.Request jobId; Api.OnProgress (progress_info status p);
       Api.SetTimeout pollInterval]
      Polling
| tick_running_callback_throws resp status p callback e :
    Api.getJobStatus resp = inr status ->
    running (Api.state status) ->
    onProgress = Some callback ->
    Api.progress status = Some p ->
    callback (progress_info status p) = Some e ->
    tick resp
      [Api.Request jobId; Api.OnProgress (progress_info status p)]
      (Rejected e)
| tick_running_silent resp status :
    Api.getJobStatus resp = inr status ->
    running (Api.state status) ->
    onProgress = None \/ Api.progress status = None ->
    tick resp [Api.Request jobId; Api.SetTimeout pollInterval] Polling
| tick_success resp status :
    Api.getJobStatus resp = inr status ->
    Api.state status = "SUCCESS" ->
    tick resp [Api.Request jobId] (Resolved (Api.result status))
| tick_failure resp status :
    Api.getJobStatus resp = inr status ->
    Api.state status = "FAILURE" ->
    tick resp [Api.Request jobId]
      (Rejected (Api.Error_ (failure_message (Api.error status))))
| tick_waiting resp status :
    Api.getJobStatus resp = inr status ->
    ~ running (Api.state status) ->
    Api.state status <> "SUCCESS" ->
    Api.state status <> "FAILURE" ->
    tick resp [Api.Request jobId; Api.SetTimeout pollInterval] Polling
| tick_transport_failure resp e :
    Api.getJobStatus resp = inl e ->
    tick resp [Api.Request jobId] (Rejected e).

(** The machine against the successive answers of the network. *)
Inductive run : PollerState T -> list (Api.FetchResult T) ->
                list Api.Event -> PollerState T -> Prop :=
| run_end st : run st [] [] st
| run_stopped st resp later :
    is_polling st = false -> run st (resp :: later) [] st
| run_tick resp later events st events' st' :
    tick resp events st ->
    run st later events' st' ->
    run Polling (resp :: later) (events ++ events') st'.

End Machine.

End PollerMachine.

(** ** Concrete inputs used below *)
Module Example.

Definition respond {T} (status : Api.JobStatusResponse T) : Api.FetchResult T :=
  Api.FetchResponse true "OK" (inr status).

(** A failed job whose error is the empty string, as a worker reports an
    exception without a message. *)
Definition failed_without_message : Api.JobStatusResponse unit :=
  {| Api.job_id := "job-1";
     Api.state := "FAILURE";
     Api.status := "Task failed";
     Api.progress := None;
     Api.partial_results := None;
     Api.result := None;
     Api.error := Js.str "" |}.

(** Two of five scene images done. *)
Definition two_of_five : Api.JobStatusResponse unit :=
  {| Api.job_id := "job-1";
     Api.state := "PROGRESS";
     Api.status := "Generating scene images";
     Api.progress := Some {| Api.current := 2; Api.total := 5 |};
     Api.partial_results := None;
     Api.result := None;
     Api.error := Js.undefined |}.

Definition queued : Api.JobStatusResponse unit :=
  {| Api.job_id := "job-1";
     Api.state := "PENDING";
     Api.status := "Task is waiting";
     Api.progress := None;
     Api.partial_results := None;
     Api.result := None;
     Api.error := Js.undefined |}.

(** A callback that returns. *)
Definition quiet : Api.Callback := fun _ => None.

(** A scene of the editor, by what the gate reads of it. *)
Definition scene (n : nat) (video : Js.value) (videoSt : SceneGeneration.Status)
    (narration : Js.value) (narrationSt : SceneGeneration.Status)
    : SceneGeneration.Scene :=
  {| SceneGeneration.id := pretty n;
     SceneGeneration.sceneNumber := Z.of_nat n;
     SceneGeneration.sceneType := "character";
     SceneGeneration.text := "Once upon a time";
     SceneGeneration.imagePrompt := "a meadow";
     SceneGeneration.videoPrompt := "the camera pans";
     SceneGeneration.narrationUrl := narration;
     SceneGeneration.narrationStatus := narrationSt;
     SceneGeneration.narrationDuration := 4;
     SceneGeneration.narrationCurrentTime := 0;
     SceneGeneration.imageUrl := Js.str "image.png";
     SceneGeneration.imageStatus := SceneGeneration.ready;
     SceneGeneration.videoUrl := video;
     SceneGeneration.videoStatus := videoSt;
     SceneGeneration.isPlayingNarration := false;
     SceneGeneration.charactersInScene := [] |}.

Definition complete_scene (n : nat) : SceneGeneration.Scene :=
  scene n (Js.str "video.mp4") SceneGeneration.ready
    (Js.str "narration.mp3") SceneGeneration.ready.

Definition a_character : StoryContext.StoryInputs :=
  {| StoryContext.characterName := "Momo";
     StoryContext.characterType := "cat";
     StoryContext.personality := "curious";
     StoryContext.characterDescription := "a small grey cat";
     StoryContext.characterPrompt := "a small grey cat, soft light";
     StoryContext.characterImageUrl := "momo.png";
     StoryContext.selectedStyle := "anime art style";
     StoryContext.selectedThemes := ["adventure"; "friendship"];
     StoryContext.customTheme := "";
     StoryContext.sceneCount := 5 |}.

Definition line (n : Z) (narration : Js.value) : StoryContext.SceneLine :=
  {| StoryContext.scene_number := n;
     StoryContext.scene_type := "character";
     StoryContext.script_text := "Once upon a time";
     StoryContext.narration_url := narration;
     StoryContext.narration_duration := None;
     StoryContext.phonemes := None |}.

(** A story of five scenes with the given per-scene arrays. *)
Definition story_of (images videos : Js.array) (signature final : string)
    : StoryContext.Story :=
  {| StoryContext.inputs := a_character;
     StoryContext.storyTitle := "Momo and the moon";
     StoryContext.scenes :=
       [line 1 (Js.str "n1.mp3"); line 2 (Js.str "n2.mp3");
        line 3 Js.null; line 4 Js.undefined; line 5 (Js.str "n5.mp3")];
     StoryContext.imagePrompts := [];
     StoryContext.videoPrompts := [];
     StoryContext.visualBlueprint := None;
     StoryContext.sceneImages := images;
     StoryContext.videos := videos;
     StoryContext.sideCharacterImages := [];
     StoryContext.storySignature := signature;
     StoryContext.finalVideoUrl := final |}.

(** Five scenes of which the third has no video yet, the context holding
    the four videos that exist. *)
Definition third_video_missing : SceneGeneration.Client :=
  {| SceneGeneration.story :=
       story_of
         (Js.of_strings ["i1.png"; "i2.png"; "i3.png"; "i4.png"; "i5.png"])
         (Js.of_strings ["v1.mp4"; "v2.mp4"; ""; "v4.mp4"; "v5.mp4"])
         "" "";
     SceneGeneration.local :=
       SceneGeneration.setScenes
         (fun _ =>
            [complete_scene 1; complete_scene 2;
             scene 3 Js.null SceneGeneration.idle
               (Js.str "narration.mp3") SceneGeneration.ready;
             complete_scene 4; complete_scene 5])
         SceneGeneration.initial |}.

(** A resumed story whose signature was recorded for the inputs
    [a_character]. *)
Definition resumed : SceneGeneration.Client :=
  {| SceneGeneration.story :=
       story_of
         (Js.of_strings ["i1.png"; "i2.png"; "i3.png"; "i4.png"; "i5.png"])
         (Js.of_strings ["v1.mp4"; "v2.mp4"; "v3.mp4"; ""; ""])
         (SceneGeneration.currentSignature a_character) "";
     SceneGeneration.local := SceneGeneration.initial |}.

(** The same story when the user has since chosen another style. *)
Definition restyled : SceneGeneration.Client :=
  SceneGeneration.on_story
    (fun s =>
       {| StoryContext.inputs :=
            {| StoryContext.characterName := "Momo";
               StoryContext.characterType := "cat";
               StoryContext.personality := "curious";
               StoryContext.characterDescription := "a small grey cat";
               StoryContext.characterPrompt := "a small grey cat, soft light";
               StoryContext.characterImageUrl := "momo.png";
               StoryContext.selectedStyle := "pixel art style";
               StoryContext.selectedThemes := ["adventure"; "friendship"];
               StoryContext.customTheme := "";
               StoryContext.sceneCount := 5 |};
          StoryContext.storyTitle := StoryContext.storyTitle s;
          StoryContext.scenes := StoryContext.scenes s;
          StoryContext.imagePrompts := StoryContext.imagePrompts s;
          StoryContext.videoPrompts := StoryContext.videoPrompts s;
          StoryContext.visualBlueprint := StoryContext.visualBlueprint s;
          StoryContext.sceneImages := StoryContext.sceneImages s;
          StoryContext.videos := StoryContext.videos s;
          StoryContext.sideCharacterImages := StoryContext.sideCharacterImages s;
          StoryContext.storySignature := StoryContext.storySignature s;
          StoryContext.finalVideoUrl := StoryContext.finalVideoUrl s |})
    resumed.


(** A story saved while its videos were being made: five scenes and five
    images, but a video array of three. *)
Definition partially_saved : SceneGeneration.Client :=
  {| SceneGeneration.story :=
       story_of
         (Js.of_strings ["i1.png"; "i2.png"; "i3.png"; "i4.png"; "i5.png"])
         (Js.of_strings ["v1.mp4"; "v2.mp4"; "v3.mp4"])
         (SceneGeneration.currentSignature a_character) "";
     SceneGeneration.local := SceneGeneration.initial |}.

(** Scenario C: five scenes, videos for the first three, and the provider
    hydrated with the count of five remembered. *)
Definition three_videos : StoryContext.Story :=
  story_of
    (Js.of_strings ["i1.png"; "i2.png"; "i3.png"; "i4.png"; "i5.png"])
    (Js.of_strings ["v1.mp4"; "v2.mp4"; "v3.mp4"; ""; ""])
    (SceneGeneration.currentSignature a_character) "".

Definition watching_five : StoryContext.Watch :=
  {| StoryContext.isHydrated := true;
     StoryContext.isLoadingProjectRef := false;
     StoryContext.prevSceneCountRef := 5 |}.

(** The script of six scenes that the backend answers with. *)
Definition six_scenes : SceneGeneration.ScriptResponse :=
  {| SceneGeneration.story_title := "Momo and the moon";
     SceneGeneration.response_scenes :=
       [line 1 Js.undefined; line 2 Js.undefined; line 3 Js.undefined;
        line 4 Js.undefined; line 5 Js.undefined; line 6 Js.undefined] |}.

(** Five complete scenes, in the editor and in the context. *)
Definition five_complete : SceneGeneration.Client :=
  {| SceneGeneration.story :=
       story_of
         (Js.of_strings ["i1.png"; "i2.png"; "i3.png"; "i4.png"; "i5.png"])
         (Js.of_strings ["v1.mp4"; "v2.mp4"; "v3.mp4"; "v4.mp4"; "v5.mp4"])
         (SceneGeneration.currentSignature a_character) "";
     SceneGeneration.local :=
       SceneGeneration.setScenes
         (fun _ =>
            [complete_scene 1; complete_scene 2; complete_scene 3;
             complete_scene 4; complete_scene 5])
         SceneGeneration.initial |}.

(** No other update while a job runs. *)
Definition undisturbed : SceneGeneration.Client -> SceneGeneration.Client :=
  fun c => c.

(** A scene with its image and narration and no video yet. *)
Definition scene_to_animate (n : nat) : SceneGeneration.Scene :=
  scene n Js.null SceneGeneration.idle
    (Js.str "narration.mp3") SceneGeneration.ready.

(** Five scenes with images and no video. *)
Definition images_done : SceneGeneration.Client :=
  {| SceneGeneration.story :=
       story_of
         (Js.of_strings ["i1.png"; "i2.png"; "i3.png"; "i4.png"; "i5.png"])
         (Js.of_strings [""; ""; ""; ""; ""])
         (SceneGeneration.currentSignature a_character) "";
     SceneGeneration.local :=
       SceneGeneration.setScenes
         (fun _ =>
            [scene_to_animate 1; scene_to_animate 2; scene_to_animate 3;
             scene_to_animate 4; scene_to_animate 5])
         SceneGeneration.initial |}.

(** A story with a character and nothing generated, as the editor finds it
    on a first visit. *)
Definition nothing_generated : StoryContext.Story :=
  StoryContext.clearGeneratedContent (story_of [] [] "" "").

(** The script of five scenes. *)
Definition five_scenes : SceneGeneration.ScriptResponse :=
  {| SceneGeneration.story_title := "Momo and the moon";
     SceneGeneration.response_scenes :=
       [line 1 Js.undefined; line 2 Js.undefined; line 3 Js.undefined;
        line 4 Js.undefined; line 5 Js.undefined] |}.

(** The editor once [generateScript], started on [nothing_generated], has
    its script: five scenes, no image yet. *)
Definition script_done : SceneGeneration.Client :=
  SceneGeneration.scriptReceived nothing_generated five_scenes
    {| SceneGeneration.story := nothing_generated;
       SceneGeneration.local := SceneGeneration.initial |}.

(** A progress update of a batch job with the given partial results. *)
Definition update (done : Z) (partial : option Api.PartialResults)
    : Api.ProgressInfo :=
  {| Api.info_current := done;
     Api.info_total := 5;
     Api.info_status := "Generating";
     Api.partialResults := partial |}.

Definition partial_images (l : list string) : option Api.PartialResults :=
  Some {| Api.scene_images := Some (Js.of_strings l); Api.videos := None |}.

Definition partial_videos (l : list string) : option Api.PartialResults :=
  Some {| Api.scene_images := None; Api.videos := Some (Js.of_strings l) |}.

(** A story that reaches the final page with one video for five scenes. *)
Definition one_video : StoryContext.Story :=
  story_of
    (Js.of_strings ["i1.png"; "i2.png"; "i3.png"; "i4.png"; "i5.png"])
    (Js.of_strings ["v1.mp4"])
    (SceneGeneration.currentSignature a_character) "".

(** A state of the task queue that the client does not test for. *)
Definition unheard_of : Api.JobStatusResponse unit :=
  {| Api.job_id := "job-1";
     Api.state := "RETRY";
     Api.status := "Task is being retried";
     Api.progress := None;
     Api.partial_results := None;
     Api.result := None;
     Api.error := Js.undefined |}.

(** The answer to a POST that started a job. *)
Definition job_seven : Api.JobResponse :=
  {| Api.started_job_id := "job-7";
     Api.started_status := "queued";
     Api.started_message := "Scene image generation started" |}.

(** Five complete scenes whose final video has been rendered. *)
Definition with_final_video : SceneGeneration.Client :=
  {| SceneGeneration.story :=
       story_of
         (Js.of_strings ["i1.png"; "i2.png"; "i3.png"; "i4.png"; "i5.png"])
         (Js.of_strings ["v1.mp4"; "v2.mp4"; "v3.mp4"; "v4.mp4"; "v5.mp4"])
         (SceneGeneration.currentSignature a_character) "final.mp4";
     SceneGeneration.local :=
       SceneGeneration.setScenes
         (fun _ =>
            [complete_scene 1; complete_scene 2; complete_scene 3;
             complete_scene 4; complete_scene 5])
         SceneGeneration.initial |}.

(** The answers of two narration jobs. *)
Definition narration_three : SceneGeneration.NarrationResponse :=
  {| SceneGeneration.audio_url := "n3.mp3";
     SceneGeneration.duration_seconds := Some 4%Q;
     SceneGeneration.response_phonemes := None |}.

Definition narration_four : SceneGeneration.NarrationResponse :=
  {| SceneGeneration.audio_url := "n4.mp3";
     SceneGeneration.duration_seconds := Some 6%Q;
     SceneGeneration.response_phonemes := None |}.

(** While a job runs, the narration of the fourth scene, asked for in the
    same render, arrives and is stored. *)
Definition fourth_narrated (c : SceneGeneration.Client)
    : SceneGeneration.Client :=
  default c
    (SceneGeneration.narration_received
       (SceneGeneration.story five_complete)
       (SceneGeneration.scenes (SceneGeneration.local five_complete))
       "4" narration_four c).

(** A hydrated provider that holds the character [a_character], five
    complete scenes and the project they are saved to. *)
Definition momo_provider : Provider.State :=
  {| Provider.story := SceneGeneration.story five_complete;
     Provider.characterCreationMethod := Some Provider.generate;
     Provider.characterCreationStep := Provider.selection;
     Provider.isCharacterUploaded := false;
     Provider.uploadedCharacterUrl := "";
     Provider.uploadedImagePreview := "";
     Provider.characterOptions :=
       [{| Provider.option_id := 1;
           Provider.option_url := "momo.png";
           Provider.option_prompt := "a small grey cat, soft light" |};
        {| Provider.option_id := 2;
           Provider.option_url := "momo-2.png";
           Provider.option_prompt := "a small grey cat, at dusk" |}];
     Provider.selectedCharacterId := Some 1%Z;
     Provider.narrationVoice := "auto";
     Provider.lastVisitedPage := "/create/scene";
     Provider.currentStep := "scene";
     Provider.projectId := Some "project-1";
     Provider.isHydrated := true;
     Provider.isLoadingProject := false |}.

(** The same provider after a watcher has taken the character and the
    story away. *)
Definition momo_cleared : Provider.State :=
  Provider.clearGeneratedContent (Provider.clearCharacter momo_provider).

(** The project that holds what a save of [momo_provider] sends. *)
Definition momo_stored : Provider.Project :=
  Provider.storedProject "project-1"
    (Provider.projectData None momo_provider)
    (Provider.scenesData (Provider.story momo_provider)).

(** [momo_provider] saved and loaded again, into a provider just
    started. *)
Definition momo_reloaded : Provider.State :=
  snd (Provider.loadFromProject momo_stored
         (Provider.refs_of false Provider.initial) Provider.initial).

(** A hydrated provider in which a style has just been chosen. *)
Definition first_style : Provider.State :=
  Provider.setSelectedStyle "anime art style"
    (Provider.setIsHydrated true Provider.initial).

(** The second of the two characters offered. *)
Definition second_option : Provider.CharacterOption :=
  {| Provider.option_id := 2;
     Provider.option_url := "momo-2.png";
     Provider.option_prompt := "a small grey cat, at dusk" |}.

(** Five scenes of which the third has its video already; the other four
    are to be animated. *)
Definition third_animated : SceneGeneration.Client :=
  {| SceneGeneration.story :=
       story_of
         (Js.of_strings ["i1.png"; "i2.png"; "i3.png"; "i4.png"; "i5.png"])
         (Js.of_strings [""; ""; "v3.mp4"; ""; ""])
         (SceneGeneration.currentSignature a_character) "";
     SceneGeneration.local :=
       SceneGeneration.setScenes
         (fun _ =>
            [scene_to_animate 1; scene_to_animate 2; complete_scene 3;
             scene_to_animate 4; scene_to_animate 5])
         SceneGeneration.initial |}.

(** The scenes of a render in which the third scene is being animated on
    its own and the other four are to be animated. *)
Definition third_generating : list SceneGeneration.Scene :=
  [scene_to_animate 1; scene_to_animate 2;
   scene 3 Js.null SceneGeneration.generating
     (Js.str "narration.mp3") SceneGeneration.ready;
   scene_to_animate 4; scene_to_animate 5].

(** The answer of a batch of four videos. *)
Definition four_videos : Js.array :=
  Js.of_strings ["b1.mp4"; "b2.mp4"; "b4.mp4"; "b5.mp4"].

(** The editor mounted on a stored story of five scenes that has every
    image and every video, and no narration yet for the third and the
    fourth scene. *)
Definition two_narrations_missing : SceneGeneration.Client :=
  fst (SceneGeneration.mountCommit
         {| SceneGeneration.story := SceneGeneration.story five_complete;
            SceneGeneration.local := SceneGeneration.initial |}).

(** While the narration of the third scene is generated, the user asks for
    that of the fourth, and its answer arrives: the context has not changed
    since the mount, so this handler holds the story of the mount as
    well. *)
Definition fourth_asked_meanwhile (c : SceneGeneration.Client)
    : SceneGeneration.Client :=
  default c
    (SceneGeneration.generateSingleNarration
       (SceneGeneration.story two_narrations_missing)
       (SceneGeneration.scenes (SceneGeneration.local c))
       "4" (inr narration_four) undisturbed c).

(** The two missing narrations asked for one after the other, the answer
    for the third scene arriving last. *)
Definition overlapping_narrations : option SceneGeneration.Client :=
  SceneGeneration.generateSingleNarration
    (SceneGeneration.story two_narrations_missing)
    (SceneGeneration.scenes (SceneGeneration.local two_narrations_missing))
    "3" (inr narration_three) fourth_asked_meanwhile two_narrations_missing.

(** An answer of the narration endpoint without an audio URL. *)
Definition narration_without_audio : SceneGeneration.NarrationResponse :=
  {| SceneGeneration.audio_url := "";
     SceneGeneration.duration_seconds := None;
     SceneGeneration.response_phonemes := None |}.

(** The two missing narrations asked for in turn, each in the render that
    follows the answer of the one before; the answer for the third scene
    has no audio URL. *)
Definition narrated_in_turn : option SceneGeneration.Client :=
  c ← SceneGeneration.generateSingleNarration
         (SceneGeneration.story two_narrations_missing)
         (SceneGeneration.scenes
            (SceneGeneration.local two_narrations_missing))
         "4" (inr narration_four) undisturbed two_narrations_missing;
  SceneGeneration.generateSingleNarration
    (SceneGeneration.story c)
    (SceneGeneration.scenes (SceneGeneration.local c))
    "3" (inr narration_without_audio) undisturbed c.

(** A stored story of five scenes with every video and every narration. *)
Definition stored_complete : StoryContext.Story :=
  StoryContext.setScenes
    [line 1 (Js.str "n1.mp3"); line 2 (Js.str "n2.mp3");
     line 3 (Js.str "n3.mp3"); line 4 (Js.str "n4.mp3");
     line 5 (Js.str "n5.mp3")]
    (SceneGeneration.story five_complete).

End Example.

(** * Properties *)

(** ** The poller *)

Section PollerFacts.

Context {T : Type}.
Variable jobId : string.
Variable onProgress : option Api.Callback.
Variable pollInterval : Z.

Local Abbreviation poll := (Api.poll (T:=T) jobId onProgress pollInterval).
Local Abbreviation poll_loop :=
  (Api.poll_loop (T:=T) jobId onProgress pollInterval).
Local Abbreviation tick :=
  (PollerMachine.tick (T:=T) jobId onProgress pollInterval).
Local Abbreviation run :=
  (PollerMachine.run (T:=T) jobId onProgress pollInterval).

Lemma failure_message_or (e : Js.value) :
  Js.to_string (Js.or_ e (Js.str "Job failed")) = PollerMachine.failure_message e.
Proof.
  destruct e as [| |s]; try reflexivity.
  destruct s; reflexivity.
Qed.

(** Every run of [poll] is a tick of the machine. *)
Lemma poll_is_tick (resp : Api.FetchResult T) :
  tick resp (fst (poll resp)) (PollerMachine.state_of (snd (poll resp))).
Proof.
  unfold Api.poll, Api.handle.
  destruct (Api.getJobStatus resp) as [e|status] eqn:Hget.
  { cbn. by apply PollerMachine.tick_transport_failure. }
  assert (Hrunning :
    String.eqb (Api.state status) "PROGRESS"
    || String.eqb (Api.state status) "STARTED" = true
    <-> PollerMachine.running (Api.state status)).
  { unfold PollerMachine.running.
    rewrite orb_true_iff, !String.eqb_eq. tauto. }
  destruct (String.eqb (Api.state status) "PROGRESS"
            || String.eqb (Api.state status) "STARTED").
  { assert (Hrun : PollerMachine.running (Api.state status))
      by (by apply Hrunning).
    destruct onProgress as [callback|] eqn:Hcb.
    - destruct (Api.progress status) as [p|] eqn:Hpr.
      + destruct (callback _) as [e|] eqn:Hcall; cbn.
        * by apply (PollerMachine.tick_running_callback_throws
                      _ _ _ resp status p callback e).
        * by apply (PollerMachine.tick_running_report
                      _ _ _ resp status p callback).
      + cbn. apply (PollerMachine.tick_running_silent _ _ _ resp status);
          auto.
    - cbn. apply (PollerMachine.tick_running_silent _ _ _ resp status); auto. }
  assert (Hnot : ~ PollerMachine.running (Api.state status))
    by (intros Hrun; apply Hrunning in Hrun; discriminate).
  destruct (String.eqb_spec (Api.state status) "SUCCESS") as [Hok|Hok].
  { cbn. by apply PollerMachine.tick_success. }
  destruct (String.eqb_spec (Api.state status) "FAILURE") as [Hf|Hf].
  { cbn. rewrite failure_message_or. by apply PollerMachine.tick_failure. }
  cbn. by apply (PollerMachine.tick_waiting _ _ _ resp status).
Qed.

(** The machine is deterministic: a tick is the run of [poll]. *)
Lemma tick_is_poll (resp : Api.FetchResult T) events st :
  tick resp events st ->
  events = fst (poll resp) /\ st = PollerMachine.state_of (snd (poll resp)).
Proof.
  pose proof (poll_is_tick resp) as Hpoll.
  revert Hpoll.
  generalize (fst (poll resp)) (PollerMachine.state_of (snd (poll resp))).
  intros events' st' Hpoll Htick.
  unfold PollerMachine.running in *.
  destruct Htick; inversion Hpoll; subst;
    repeat match goal with
           | H : Api.getJobStatus ?r = _, H' : Api.getJobStatus ?r = _ |- _ =>
               rewrite H in H'; inversion H'; clear H'; subst
           | H : Some _ = Some _ |- _ => inversion H; clear H; subst
           end;
    unfold PollerMachine.running in *;
    try (split; congruence);
    try (exfalso; intuition congruence).
Qed.

Lemma poll_loop_cons (resp : Api.FetchResult T) later :
  poll_loop (resp :: later) =
  match snd (poll resp) with
  | Some settlement => (fst (poll resp), Some settlement)
  | None =>
      (fst (poll resp) ++ fst (poll_loop later), snd (poll_loop later))
  end.
Proof.
  cbn [Api.poll_loop].
  destruct (poll resp) as [events [settlement|]]; [done|].
  by destruct (poll_loop later).
Qed.

(** The loop of the source is a run of the machine from [Polling]. *)
Lemma poll_loop_runs (net : list (Api.FetchResult T)) :
  run PollerMachine.Polling net (fst (poll_loop net))
    (PollerMachine.state_of (snd (poll_loop net))).
Proof.
  induction net as [|resp later IH].
  - apply PollerMachine.run_end.
  - rewrite poll_loop_cons.
    pose proof (poll_is_tick resp) as Htick.
    destruct (snd (poll resp)) as [settlement|] eqn:Hsnd; cbn [fst snd].
    + rewrite <- (app_nil_r (fst (poll resp))).
      eapply PollerMachine.run_tick; [exact Htick|].
      destruct later; [apply PollerMachine.run_end|].
      apply PollerMachine.run_stopped. by destruct settlement.
    + eapply PollerMachine.run_tick; [exact Htick|exact IH].
Qed.

Lemma run_settled st net events st' :
  run st net events st' ->
  PollerMachine.is_polling st = false -> events = [] /\ st' = st.
Proof. destruct 1; intros Hst; try done. Qed.

(** Conversely the machine has no other run. *)
Lemma run_is_poll_loop (net : list (Api.FetchResult T)) events st :
  run PollerMachine.Polling net events st ->
  events = fst (poll_loop net)
  /\ st = PollerMachine.state_of (snd (poll_loop net)).
Proof.
  revert events st.
  induction net as [|resp later IH]; intros events st Hrun.
  - by inversion Hrun.
  - inversion Hrun as [| |resp' later' ev1 st1 ev2 st2 Htick Hrest]; subst;
      [done|].
    apply tick_is_poll in Htick as [-> ->].
    rewrite poll_loop_cons.
    destruct (snd (poll resp)) as [settlement|] eqn:Hsnd; cbn [fst snd].
    + apply run_settled in Hrest as [-> ->]; [|by destruct settlement].
      by rewrite app_nil_r.
    + cbn in Hrest. apply IH in Hrest as [-> ->]. done.
Qed.

End PollerFacts.

(** C1, as the source has it. For every sequence of polled job statuses
    [pollJobUntilComplete] is exactly the poller machine started in
    [Polling]: on STARTED or PROGRESS the callback, when one was given, is
    called with current, total, status and the partial results exactly when
    the progress field is present, and the next tick is scheduled unless the
    callback throws, which rejects the promise; on PENDING or an unknown state
    the next tick is scheduled without a call; the first SUCCESS resolves
    with the result of the record and the first FAILURE rejects with an error
    whose message is the error of the record when that is a non-empty string
    and the text Job failed otherwise; after either no status is requested
    again. *)
Theorem pollJobUntilComplete_is_poller_machine {T : Type} (jobId : string)
    (onProgress : option Api.Callback) (pollInterval : option Z)
    (net : list (Api.FetchResult T)) (events : list Api.Event)
    (st : PollerMachine.PollerState T) :
  PollerMachine.run jobId onProgress (default 2000%Z pollInterval)
    PollerMachine.Polling net events st
  <-> fst (Api.pollJobUntilComplete jobId onProgress pollInterval net) = events
      /\ PollerMachine.state_of
           (snd (Api.pollJobUntilComplete jobId onProgress pollInterval net))
         = st.
Proof.
  unfold Api.pollJobUntilComplete. split.
  - intros Hrun. apply run_is_poll_loop in Hrun as [-> ->]. done.
  - intros [<- <-]. apply poll_loop_runs.
Qed.

(** C1 as stated fails: a FAILURE record whose error is the empty string is
    rejected with the default message, not with the error of the record. *)
Lemma failure_is_not_rejected_with_record_error :
  snd (Api.pollJobUntilComplete "job-1" (Some Example.quiet) None
         [Example.respond Example.failed_without_message])
  = Some (Api.Reject (Api.Error_ "Job failed"))
  /\ Api.Error_ "Job failed"
     <> PollerMachine.record_error (Api.error Example.failed_without_message).
Proof. split; [reflexivity|discriminate]. Qed.

Section PollerRuns.

Context {T : Type}.
Variable jobId : string.
Variable onProgress : option Api.Callback.
Variable pollInterval : Z.

Local Abbreviation poll := (Api.poll (T:=T) jobId onProgress pollInterval).
Local Abbreviation poll_loop :=
  (Api.poll_loop (T:=T) jobId onProgress pollInterval).

(** A run over [net ++ later]: a settled poller never looks at [later]; a
    pending one goes on with it. *)
Lemma poll_loop_app (net later : list (Api.FetchResult T)) :
  poll_loop (net ++ later) =
  match snd (poll_loop net) with
  | Some _ => poll_loop net
  | None =>
      (fst (poll_loop net) ++ fst (poll_loop later), snd (poll_loop later))
  end.
Proof.
  induction net as [|resp net IH].
  - cbn. by destruct (poll_loop later).
  - rewrite <- app_comm_cons, !poll_loop_cons.
    destruct (snd (poll resp)) as [settlement|]; cbn [fst snd]; [done|].
    rewrite IH.
    destruct (snd (poll_loop net)) as [settlement|] eqn:Hnet; cbn [fst snd].
    + by rewrite Hnet.
    + by rewrite app_assoc.
Qed.

(** Every run of [poll] makes one status request. *)
Lemma poll_requests_once (resp : Api.FetchResult T) :
  Api.requests (fst (poll resp)) = 1.
Proof.
  unfold Api.poll, Api.handle.
  destruct (Api.getJobStatus resp) as [e|status]; [done|].
  destruct (_ || _).
  - destruct onProgress as [callback|]; [|done].
    destruct (Api.progress status) as [p|]; [|done].
    by destruct (callback _).
  - destruct (String.eqb _ "SUCCESS"); [done|].
    by destruct (String.eqb _ "FAILURE").
Qed.

Lemma requests_app (a b : list Api.Event) :
  Api.requests (a ++ b) = Api.requests a + Api.requests b.
Proof. unfold Api.requests. by rewrite List.filter_app, length_app. Qed.

(** While every poll leaves the poller pending, there is one request per
    answer. *)
Lemma pending_prefix (pre : list (Api.FetchResult T)) :
  Forall (fun resp => snd (poll resp) = None) pre ->
  snd (poll_loop pre) = None
  /\ Api.requests (fst (poll_loop pre)) = length pre.
Proof.
  induction 1 as [|resp pre Hresp _ [IHs IHn]]; [done|].
  rewrite poll_loop_cons, Hresp. cbn [fst snd].
  split; [done|].
  rewrite requests_app, poll_requests_once, IHn. done.
Qed.

End PollerRuns.

(** C9. When the status request of a poll fails in transport (the fetch
    rejects, the response is not ok, or its body does not parse), the
    promise of the poller is rejected with that very error, and the failed
    request is the last one: whatever the network would answer afterwards,
    the poller has made one request per earlier poll and one for the failed
    poll, and has set no timer after it. *)
Theorem transport_failure_rejects_without_retry {T : Type} (jobId : string)
    (onProgress : option Api.Callback) (pollInterval : option Z)
    (pre : list (Api.FetchResult T)) (resp : Api.FetchResult T)
    (later : list (Api.FetchResult T)) (e : Api.JsError) :
  Forall (fun r =>
            snd (Api.poll jobId onProgress (default 2000%Z pollInterval) r)
            = None) pre ->
  Api.getJobStatus resp = inl e ->
  Api.pollJobUntilComplete jobId onProgress pollInterval (pre ++ resp :: later)
  = (fst (Api.pollJobUntilComplete jobId onProgress pollInterval pre)
       ++ [Api.Request jobId],
     Some (Api.Reject e))
  /\ Api.requests
       (fst (Api.pollJobUntilComplete jobId onProgress pollInterval
               (pre ++ resp :: later)))
     = length pre + 1.
Proof.
  intros Hpre Hget. unfold Api.pollJobUntilComplete.
  destruct (pending_prefix jobId onProgress _ pre Hpre) as [Hpending Hcount].
  assert (Hfail :
    Api.poll_loop jobId onProgress (default 2000%Z pollInterval)
      (resp :: later) = ([Api.Request jobId], Some (Api.Reject e))).
  { rewrite poll_loop_cons. unfold Api.poll, Api.handle. by rewrite Hget. }
  rewrite poll_loop_app, Hpending, Hfail. cbn [fst snd].
  split; [done|].
  by rewrite requests_app, Hcount.
Qed.

Lemma transport_failure_rejects_without_retry_witness :
  Api.pollJobUntilComplete "job-1" (Some Example.quiet) None
    ([Example.respond Example.queued; Example.respond Example.two_of_five]
       ++ Api.FetchRejects (Api.Error_ "Failed to fetch")
       :: [Example.respond Example.two_of_five])
  = (fst (Api.pollJobUntilComplete "job-1" (Some Example.quiet) None
            [Example.respond Example.queued;
             Example.respond Example.two_of_five])
       ++ [Api.Request "job-1"],
     Some (Api.Reject (Api.Error_ "Failed to fetch")))
  /\ Api.requests
       (fst (Api.pollJobUntilComplete "job-1" (Some Example.quiet) None
               ([Example.respond Example.queued;
                 Example.respond Example.two_of_five]
                  ++ Api.FetchRejects (Api.Error_ "Failed to fetch")
                  :: [Example.respond Example.two_of_five])))
     = 2 + 1.
Proof.
  apply (transport_failure_rejects_without_retry (T:=unit)).
  - repeat constructor.
  - reflexivity.
Defined.

Section EventLoop.

Context {T : Type}.
Variable jobId : string.
Variable onProgress : option Api.Callback.
Variable pollInterval : Z.

Local Abbreviation event_loop :=
  (Api.event_loop (T:=T) jobId onProgress pollInterval).

Lemma poller_events_did (events : list Api.Event) :
  Api.poller_events (map Api.Did events) = events.
Proof.
  induction events as [|ev events IH]; [done|].
  cbn. unfold Api.poller_events in IH. by rewrite IH.
Qed.

Lemma poller_events_cons (e : Api.Event) (obs : list Api.Observed) :
  Api.poller_events (Api.Did e :: obs) = e :: Api.poller_events obs.
Proof. reflexivity. Qed.

Lemma poller_events_app (a b : list Api.Observed) :
  Api.poller_events (a ++ b) = Api.poller_events a ++ Api.poller_events b.
Proof. unfold Api.poller_events. apply omap_app. Qed.

(** Taking the abandonments out of the loop events changes nothing of what
    the poller does. *)
Lemma event_loop_without_abandonment (phase : Api.Phase)
    (evs : list (Api.LoopEvent T)) :
  Api.poller_events (fst (event_loop phase evs))
  = Api.poller_events (fst (event_loop phase (Api.without_abandonment evs)))
  /\ snd (event_loop phase evs)
     = snd (event_loop phase (Api.without_abandonment evs)).
Proof.
  revert phase. induction evs as [|[resp| |] evs IH]; intros phase; [done|..].
  - cbn [Api.without_abandonment List.filter Api.event_loop].
    fold (Api.without_abandonment evs).
    destruct phase; try apply IH.
    destruct (Api.handle onProgress pollInterval (Api.getJobStatus resp))
      as [events [settlement|]].
    + destruct (IH Api.Settled) as [IHobs _].
      destruct (event_loop Api.Settled evs) as [obs o].
      destruct (event_loop Api.Settled (Api.without_abandonment evs))
        as [obs' o'].
      cbn [fst snd] in *. by rewrite !poller_events_app, IHobs.
    + destruct (IH Api.Scheduled) as [IHobs IHout].
      destruct (event_loop Api.Scheduled evs) as [obs o].
      destruct (event_loop Api.Scheduled (Api.without_abandonment evs))
        as [obs' o'].
      cbn [fst snd] in *. by rewrite !poller_events_app, IHobs, IHout.
  - cbn [Api.without_abandonment List.filter Api.event_loop].
    fold (Api.without_abandonment evs).
    destruct phase; try apply IH.
    destruct (IH Api.InFlight) as [IHobs IHout].
    destruct (event_loop Api.InFlight evs) as [obs o].
    destruct (event_loop Api.InFlight (Api.without_abandonment evs))
      as [obs' o'].
    cbn [fst snd] in *. cbn. unfold Api.poller_events in IHobs.
    by rewrite IHobs, IHout.
  - cbn [Api.without_abandonment List.filter Api.event_loop].
    fold (Api.without_abandonment evs).
    destruct (IH phase) as [IHobs IHout].
    destruct (event_loop phase evs) as [obs o]. by cbn [fst snd] in *.
Qed.

(** A settled poller does nothing more. *)
Lemma event_loop_settled (evs : list (Api.LoopEvent T)) :
  Api.poller_events (fst (event_loop Api.Settled evs)) = [].
Proof.
  induction evs as [|[resp| |] evs IH]; [done|..];
    cbn [Api.event_loop]; try apply IH.
  by destruct (event_loop Api.Settled evs).
Qed.

Lemma schedule_cons (resp next : Api.FetchResult T)
    (later : list (Api.FetchResult T)) :
  Api.schedule resp (next :: later)
  = Api.Answer resp :: Api.TimerFires :: Api.schedule next later.
Proof. reflexivity. Qed.

Lemma event_loop_answer (resp : Api.FetchResult T)
    (later : list (Api.LoopEvent T)) :
  event_loop Api.InFlight (Api.Answer resp :: later) =
  match Api.handle onProgress pollInterval (Api.getJobStatus resp) with
  | (events, Some settlement) =>
      (map Api.Did events ++ fst (event_loop Api.Settled later),
       Some settlement)
  | (events, None) =>
      (map Api.Did events ++ fst (event_loop Api.Scheduled later),
       snd (event_loop Api.Scheduled later))
  end.
Proof.
  cbn [Api.event_loop].
  destruct (Api.handle onProgress pollInterval (Api.getJobStatus resp))
    as [events [settlement|]].
  - by destruct (event_loop Api.Settled later).
  - by destruct (event_loop Api.Scheduled later).
Qed.

Lemma event_loop_timer (later : list (Api.LoopEvent T)) :
  event_loop Api.Scheduled (Api.TimerFires :: later)
  = (Api.Did (Api.Request jobId) :: fst (event_loop Api.InFlight later),
     snd (event_loop Api.InFlight later)).
Proof.
  cbn [Api.event_loop]. by destruct (event_loop Api.InFlight later).
Qed.

Lemma started_eq (evs : list (Api.LoopEvent T)) :
  Api.started jobId onProgress pollInterval evs
  = (Api.Did (Api.Request jobId) :: fst (event_loop Api.InFlight evs),
     snd (event_loop Api.InFlight evs)).
Proof.
  unfold Api.started. by destruct (event_loop Api.InFlight evs).
Qed.

(** On the schedule in which every timer fires and every request is
    answered, the loop does what [poll_loop] does on the answers. *)
Lemma started_schedule (resp : Api.FetchResult T)
    (later : list (Api.FetchResult T)) :
  Api.poller_events
    (fst (Api.started jobId onProgress pollInterval (Api.schedule resp later)))
  = fst (Api.poll_loop jobId onProgress pollInterval (resp :: later))
  /\ snd (Api.started jobId onProgress pollInterval (Api.schedule resp later))
     = snd (Api.poll_loop jobId onProgress pollInterval (resp :: later)).
Proof.
  revert resp. induction later as [|next later IH]; intros resp;
    rewrite started_eq, poll_loop_cons; unfold Api.poll; cbn [fst snd].
  - unfold Api.schedule. cbn [flat_map]. rewrite event_loop_answer.
    destruct (Api.handle onProgress pollInterval (Api.getJobStatus resp))
      as [events [settlement|]]; cbn [fst snd Api.event_loop Api.poll_loop];
      by rewrite !app_nil_r, poller_events_cons, poller_events_did.
  - specialize (IH next). rewrite started_eq in IH. cbn [fst snd] in IH.
    destruct IH as [IHobs IHout].
    rewrite schedule_cons, event_loop_answer.
    destruct (Api.handle onProgress pollInterval (Api.getJobStatus resp))
      as [events [settlement|]]; cbn [fst snd].
    + by rewrite poller_events_cons, poller_events_app, poller_events_did,
        event_loop_settled, app_nil_r.
    + rewrite event_loop_timer. cbn [fst snd].
      by rewrite poller_events_cons, poller_events_app, poller_events_did,
        IHobs, IHout.
Qed.

End EventLoop.

(** C2 as stated fails. First run: the component unmounts while the first
    request is in flight, and its answer still calls the progress callback.
    Second run: it unmounts while the timer is set, and the next poll still
    calls the progress callback. *)
Lemma abandoned_poller_still_calls_back :
  Api.callbacks_after_abandon
    (fst (Api.started "job-1" (Some Example.quiet) 2000
            [Api.CallerAbandons;
             Api.Answer (Example.respond Example.two_of_five)]))
  = [Api.Did (Api.OnProgress
       {| Api.info_current := 2;
          Api.info_total := 5;
          Api.info_status := "Generating scene images";
          Api.partialResults := None |})]
  /\ Api.callbacks_after_abandon
       (fst (Api.started "job-1" (Some Example.quiet) 2000
               [Api.Answer (Example.respond Example.queued);
                Api.CallerAbandons;
                Api.TimerFires;
                Api.Answer (Example.respond Example.two_of_five)]))
     = [Api.Did (Api.OnProgress
          {| Api.info_current := 2;
             Api.info_total := 5;
             Api.info_status := "Generating scene images";
             Api.partialResults := None |})].
Proof. split; reflexivity. Qed.

(** C2, as the source has it. The poller cannot be cancelled: abandoning
    the caller, with a request in flight or with a timer set, changes
    nothing of what the poller does; its requests, callback invocations,
    timers and settlement are those of the same loop events without the
    abandonment, and with every timer firing and every request answered
    they are those of [pollJobUntilComplete]. Callback invocations end only
    with the settlement: a settled poller does nothing more. *)
Theorem abandonment_does_not_reach_poller {T : Type} (jobId : string)
    (onProgress : option Api.Callback) (pollInterval : Z)
    (evs : list (Api.LoopEvent T)) (resp : Api.FetchResult T)
    (later : list (Api.FetchResult T)) :
  (Api.poller_events (fst (Api.started jobId onProgress pollInterval evs))
   = Api.poller_events
       (fst (Api.started jobId onProgress pollInterval
               (Api.without_abandonment evs)))
   /\ snd (Api.started jobId onProgress pollInterval evs)
      = snd (Api.started jobId onProgress pollInterval
               (Api.without_abandonment evs)))
  /\ (Api.poller_events
        (fst (Api.started jobId onProgress pollInterval
                (Api.schedule resp later)))
      = fst (Api.pollJobUntilComplete jobId onProgress (Some pollInterval)
               (resp :: later))
      /\ snd (Api.started jobId onProgress pollInterval
                 (Api.schedule resp later))
         = snd (Api.pollJobUntilComplete jobId onProgress (Some pollInterval)
                  (resp :: later)))
  /\ Api.poller_events
       (fst (Api.event_loop jobId onProgress pollInterval Api.Settled evs))
     = [].
Proof.
  split; [|split].
  - unfold Api.started.
    destruct (event_loop_without_abandonment jobId onProgress pollInterval
                Api.InFlight evs) as [Hobs Hout].
    destruct (Api.event_loop jobId onProgress pollInterval Api.InFlight evs)
      as [obs o].
    destruct (Api.event_loop jobId onProgress pollInterval Api.InFlight
                (Api.without_abandonment evs)) as [obs' o'].
    cbn [fst snd] in *. split; [|done].
    cbn. unfold Api.poller_events in Hobs. by rewrite Hobs.
  - apply started_schedule.
  - apply event_loop_settled.
Qed.

(** ** The gate of the final step *)

Lemma strict_eq_null (v : Js.value) :
  Js.strict_eq v Js.null = true <-> v = Js.null.
Proof. destruct v; cbn; split; congruence. Qed.

(** What an open gate says of each scene of the editor. *)
Lemma allVideosReady_lookup (l : list SceneGeneration.Scene) i scene :
  SceneGeneration.allVideosReady l = true ->
  l !! i = Some scene ->
  SceneGeneration.videoUrl scene <> Js.null
  /\ SceneGeneration.videoStatus scene = SceneGeneration.ready.
Proof.
  unfold SceneGeneration.allVideosReady.
  rewrite andb_true_iff, forallb_forall. intros [_ Hall] Hi.
  apply list_elem_of_lookup_2, list_elem_of_In, Hall in Hi.
  apply andb_true_iff in Hi as [Hurl Hst]. split.
  - intros Hnull. apply strict_eq_null in Hnull.
    rewrite Hnull in Hurl. discriminate.
  - by destruct (SceneGeneration.videoStatus scene).
Qed.

Lemma allNarrationsReady_lookup (l : list SceneGeneration.Scene) i scene :
  SceneGeneration.allNarrationsReady l = true ->
  l !! i = Some scene ->
  SceneGeneration.narrationUrl scene <> Js.null
  /\ SceneGeneration.narrationStatus scene = SceneGeneration.ready.
Proof.
  unfold SceneGeneration.allNarrationsReady.
  rewrite andb_true_iff, forallb_forall. intros [_ Hall] Hi.
  apply list_elem_of_lookup_2, list_elem_of_In, Hall in Hi.
  apply andb_true_iff in Hi as [Hurl Hst]. split.
  - intros Hnull. apply strict_eq_null in Hnull.
    rewrite Hnull in Hurl. discriminate.
  - by destruct (SceneGeneration.narrationStatus scene).
Qed.

Lemma every_truthy_lookup (a : Js.array) i v :
  Js.every Js.truthy a = true -> a !! i = Some (Some v) -> Js.truthy v = true.
Proof.
  unfold Js.every. rewrite forallb_forall. intros Hall Hi.
  by apply list_elem_of_lookup_2, list_elem_of_In, Hall in Hi.
Qed.

(** Where the gate is closed. In any state in which some scene of the
    editor has [null] for its video URL, or a video that is not ready, or
    [null] for its narration URL, or a narration that is not ready, or in
    which the video array of the context holds an empty entry, the button
    is disabled and a click on it does not lead to the final page. *)
Lemma gate_is_closed_on_null (c : SceneGeneration.Client) (i : nat) :
  (exists scene,
      SceneGeneration.scenes (SceneGeneration.local c) !! i = Some scene
      /\ (SceneGeneration.videoUrl scene = Js.null
          \/ SceneGeneration.videoStatus scene <> SceneGeneration.ready
          \/ SceneGeneration.narrationUrl scene = Js.null
          \/ SceneGeneration.narrationStatus scene <> SceneGeneration.ready))
  \/ (exists v,
         StoryContext.videos (SceneGeneration.story c) !! i = Some (Some v)
         /\ Js.truthy v = false) ->
  SceneGeneration.canProceedToFinal c = false
  /\ SceneGeneration.nextButton_disabled c = true
  /\ SceneGeneration.clickNext c = None.
Proof.
  intros Hlack.
  assert (Hgate : SceneGeneration.canProceedToFinal c = false).
  { destruct (SceneGeneration.canProceedToFinal c) eqn:Hcan; [|done].
    exfalso. unfold SceneGeneration.canProceedToFinal in Hcan.
    rewrite !andb_true_iff in Hcan.
    destruct Hcan as [[[Hvideos Hnarrations] _] Hevery].
    destruct Hlack as [(scene & Hi & Hlack)|(v & Hi & Hv)].
    - destruct (allVideosReady_lookup _ _ _ Hvideos Hi).
      destruct (allNarrationsReady_lookup _ _ _ Hnarrations Hi).
      intuition.
    - rewrite (every_truthy_lookup _ _ _ Hevery Hi) in Hv. discriminate. }
  unfold SceneGeneration.clickNext, SceneGeneration.nextButton_disabled.
  by rewrite Hgate.
Qed.

(** The example of the specification: five scenes of which the third has no
    video. *)
Example third_video_missing_is_gated :
  SceneGeneration.canProceedToFinal Example.third_video_missing = false
  /\ SceneGeneration.nextButton_disabled Example.third_video_missing = true
  /\ SceneGeneration.clickNext Example.third_video_missing = None.
Proof.
  apply (gate_is_closed_on_null Example.third_video_missing 2).
  left. eexists. split; [reflexivity|]. left. reflexivity.
Qed.

(** The editor mounted on the stored story of the two runs below: the gate
    is closed, the third and the fourth scene having no narration. *)
Example two_narrations_missing_is_gated :
  SceneGeneration.canProceedToFinal Example.two_narrations_missing = false
  /\ SceneGeneration.clickNext Example.two_narrations_missing = None
  /\ (SceneGeneration.narrationUrl <$>
      SceneGeneration.scenes
        (SceneGeneration.local Example.two_narrations_missing) !! 2)
     = Some Js.null
  /\ (SceneGeneration.narrationUrl <$>
      SceneGeneration.scenes
        (SceneGeneration.local Example.two_narrations_missing) !! 3)
     = Some Js.null.
Proof. repeat split; vm_compute; reflexivity. Qed.

(** C3. The gate of the final step opens for a story in which a scene has no
    narration URL, in two runs of the handlers of the editor on a stored
    story whose third and fourth scene have no narration.

    First run: the two narrations are asked for one after the other and the
    answer for the fourth scene arrives first. The handler of the third
    scene writes the scenes of the context from the story it captured, so
    the narration of the fourth scene is lost there, while the editor shows
    both as ready: the gate, which reads narrations off the editor only, is
    open, the fourth scene of the story has no narration URL, and the final
    page mounted on that story submits the empty string as the narration
    of that scene.

    Second run: the narrations are asked for in turn and the answer for
    the third scene has an empty audio URL. The handler stores it as it is
    with the status ready, where the batch of narrations stores [null] and
    the status error: the gate tests for [null] only and is open, and the
    final page submits the empty string as the narration of that scene. *)
Theorem gate_opens_without_narration :
  (exists c,
      Example.overlapping_narrations = Some c
      /\ SceneGeneration.canProceedToFinal c = true
      /\ SceneGeneration.clickNext c = Some "/create/final"
      /\ (StoryContext.narration_url <$>
          StoryContext.scenes (SceneGeneration.story c) !! 3)
         = Some Js.undefined
      /\ exists request,
           FinalVideoPage.mounted (SceneGeneration.story c) [] = [request]
           /\ (FinalVideoPage.narration_url <$> request !! 3)
              = Some (Js.str ""))
  /\ (exists c,
         Example.narrated_in_turn = Some c
         /\ SceneGeneration.canProceedToFinal c = true
         /\ SceneGeneration.clickNext c = Some "/create/final"
         /\ (SceneGeneration.narrationUrl <$>
             SceneGeneration.scenes (SceneGeneration.local c) !! 2)
            = Some (Js.str "")
         /\ (StoryContext.narration_url <$>
             StoryContext.scenes (SceneGeneration.story c) !! 2)
            = Some (Js.str "")
         /\ exists request,
              FinalVideoPage.mounted (SceneGeneration.story c) [] = [request]
              /\ (FinalVideoPage.narration_url <$> request !! 2)
                 = Some (Js.str "")).
Proof.
  split.
  - eexists. split; [vm_compute; reflexivity|].
    split; [vm_compute; reflexivity|].
    split; [vm_compute; reflexivity|].
    split; [vm_compute; reflexivity|].
    eexists. split; vm_compute; reflexivity.
  - eexists. split; [vm_compute; reflexivity|].
    split; [vm_compute; reflexivity|].
    split; [vm_compute; reflexivity|].
    split; [vm_compute; reflexivity|].
    split; [vm_compute; reflexivity|].
    eexists. split; vm_compute; reflexivity.
Qed.

(** ** The signature tells inputs apart

    [JSON.stringify] loses nothing of the ten inputs: two signatures are
    equal only for equal inputs, so a recorded signature differs from the
    current one exactly when an input has changed. *)

Lemma append_cons (x : ascii) (a b : string) :
  String x a +:+ b = String x (a +:+ b).
Proof. reflexivity. Qed.

Lemma append_nil (b : string) : "" +:+ b = b.
Proof. reflexivity. Qed.

Lemma append_assoc (a b c : string) : (a +:+ b) +:+ c = a +:+ (b +:+ c).
Proof.
  induction a as [|x a IH]; [done|]. by rewrite !append_cons, IH.
Qed.



(** Reading one escaped character back. *)
Definition unhex (c : ascii) : nat :=
  let n := nat_of_ascii c in
  if Nat.leb 97 n then n - 87 else n - 48.

Definition unescape_char (s : string) : option (ascii * string) :=
  match s with
  | EmptyString => None
  | String a rest =>
      if Nat.eqb (nat_of_ascii a) 92 then
        match rest with
        | EmptyString => None
        | String b rest' =>
            let k := nat_of_ascii b in
            if Nat.eqb k 34 then Some (Js.dquote, rest')
            else if Nat.eqb k 92 then Some (Js.backslash, rest')
            else if Nat.eqb k 98 then Some (ascii_of_nat 8, rest')
            else if Nat.eqb k 102 then Some (ascii_of_nat 12, rest')
            else if Nat.eqb k 110 then Some (ascii_of_nat 10, rest')
            else if Nat.eqb k 114 then Some (ascii_of_nat 13, rest')
            else if Nat.eqb k 116 then Some (ascii_of_nat 9, rest')
            else
              match rest' with
              | String _ (String _ (String h (String l rest''))) =>
                  Some (ascii_of_nat (16 * unhex h + unhex l), rest'')
              | _ => None
              end
        end
      else Some (a, rest)
  end.

Lemma unescape_escape_char (c : ascii) (r : string) :
  unescape_char (Js.escape_char c +:+ r) = Some (c, r).
Proof.
  destruct c as [[|] [|] [|] [|] [|] [|] [|] [|]]; reflexivity.
Qed.

Lemma escape_char_prefix_inj (c c' : ascii) (r r' : string) :
  Js.escape_char c +:+ r = Js.escape_char c' +:+ r' -> c = c' /\ r = r'.
Proof.
  intros Heq. apply (f_equal unescape_char) in Heq.
  rewrite !unescape_escape_char in Heq. by injection Heq.
Qed.

(** An escaped character never starts with a bare quote. *)
Lemma escape_char_not_quote (c : ascii) (r r' : string) :
  Js.escape_char c +:+ r <> String Js.dquote r'.
Proof.
  destruct c as [[|] [|] [|] [|] [|] [|] [|] [|]]; discriminate.
Qed.

Lemma escape_prefix_inj (s s' r r' : string) :
  Js.escape s +:+ String Js.dquote r = Js.escape s' +:+ String Js.dquote r' ->
  s = s' /\ r = r'.
Proof.
  revert s'. induction s as [|c s IH]; intros [|c' s'] Heq;
    cbn [Js.escape] in Heq.
  - rewrite !append_nil in Heq. by injection Heq.
  - rewrite append_nil, append_assoc in Heq. symmetry in Heq.
    by apply escape_char_not_quote in Heq.
  - rewrite append_nil, append_assoc in Heq.
    by apply escape_char_not_quote in Heq.
  - rewrite !append_assoc in Heq.
    apply escape_char_prefix_inj in Heq as [-> Heq].
    apply IH in Heq as [-> ->]. done.
Qed.

Lemma quote_append (s r : string) :
  Js.quote s +:+ r = String Js.dquote (Js.escape s +:+ String Js.dquote r).
Proof.
  unfold Js.quote. by rewrite append_cons, append_assoc, append_cons, append_nil.
Qed.

(** A quoted string can be read off the front of any text. *)
Lemma quote_prefix_inj (s s' r r' : string) :
  Js.quote s +:+ r = Js.quote s' +:+ r' -> s = s' /\ r = r'.
Proof.
  rewrite !quote_append. intros Heq. injection Heq as Heq.
  by apply escape_prefix_inj in Heq.
Qed.

Lemma concat_cons2 (sep x y : string) (l : list string) :
  String.concat sep (x :: y :: l) = x +:+ sep +:+ String.concat sep (y :: l).
Proof. reflexivity. Qed.

Lemma concat_single (sep x : string) : String.concat sep [x] = x.
Proof. reflexivity. Qed.

Lemma items_prefix_inj (l l' : list string) (r r' : string) :
  String.concat "," (map Js.quote l) +:+ String "]" r
  = String.concat "," (map Js.quote l') +:+ String "]" r' ->
  l = l' /\ r = r'.
Proof.
  assert (Hhead : forall (x : string) (xs : list string) (t : string),
             exists u, String.concat "," (map Js.quote (x :: xs)) +:+ t
                       = String Js.dquote u).
  { intros x [|y xs] t; cbn [map].
    - rewrite concat_single, quote_append. by eexists.
    - rewrite concat_cons2, append_assoc, quote_append. by eexists. }
  revert l'. induction l as [|x l IH]; intros [|x' l'] Heq.
  - change (String.concat "," (map Js.quote [])) with "" in Heq.
    rewrite !append_nil in Heq. by injection Heq.
  - exfalso. change (String.concat "," (map Js.quote [])) with "" in Heq.
    destruct (Hhead x' l' (String "]" r')) as [u Hu].
    rewrite append_nil, Hu in Heq. discriminate.
  - exfalso. change (String.concat "," (map Js.quote [])) with "" in Heq.
    destruct (Hhead x l (String "]" r)) as [u Hu].
    rewrite append_nil, Hu in Heq. discriminate.
  - destruct l as [|y l], l' as [|y' l']; cbn [map] in Heq;
      rewrite ?concat_cons2, ?concat_single, ?append_assoc in Heq;
      apply quote_prefix_inj in Heq as [-> Heq].
    + by injection Heq as ->.
    + rewrite append_cons in Heq. discriminate.
    + rewrite append_cons in Heq. discriminate.
    + rewrite !append_cons, !append_nil in Heq. injection Heq as Heq.
      apply (IH (y' :: l')) in Heq as [Hl ->]. by rewrite Hl.
Qed.

Lemma quote_list_prefix_inj (l l' : list string) (r r' : string) :
  Js.quote_list l +:+ r = Js.quote_list l' +:+ r' -> l = l' /\ r = r'.
Proof.
  unfold Js.quote_list.
  rewrite !append_cons, !append_nil, !append_assoc, !append_cons, !append_nil.
  intros Heq. injection Heq as Heq. by apply items_prefix_inj.
Qed.



(** ** Invalidation by signature *)

(** The signature of any inputs is a non-empty string, so a recorded
    signature is never mistaken for none. *)
Lemma currentSignature_nonempty (i : StoryContext.StoryInputs) :
  SceneGeneration.currentSignature i <> "".
Proof. unfold SceneGeneration.currentSignature. cbn. discriminate. Qed.

Lemma signatureEffect_changed (c : SceneGeneration.Client) :
  StoryContext.storySignature (SceneGeneration.story c) <> "" ->
  StoryContext.storySignature (SceneGeneration.story c)
  <> SceneGeneration.currentSignature
       (StoryContext.inputs (SceneGeneration.story c)) ->
  SceneGeneration.signatureEffect c =
  ({| SceneGeneration.story :=
        StoryContext.setStorySignature
          (SceneGeneration.currentSignature
             (StoryContext.inputs (SceneGeneration.story c)))
          (StoryContext.clearGeneratedContent (SceneGeneration.story c));
      SceneGeneration.local :=
        SceneGeneration.reset_local (SceneGeneration.local c) |}, true).
Proof.
  intros Hrec Hne. unfold SceneGeneration.signatureEffect.
  apply String.eqb_neq in Hrec, Hne. by rewrite Hrec, Hne.
Qed.

Lemma signatureEffect_first (c : SceneGeneration.Client) :
  StoryContext.storySignature (SceneGeneration.story c) = "" ->
  SceneGeneration.signatureEffect c =
  (SceneGeneration.on_story
     (StoryContext.setStorySignature
        (SceneGeneration.currentSignature
           (StoryContext.inputs (SceneGeneration.story c)))) c, false).
Proof.
  intros Hrec. unfold SceneGeneration.signatureEffect. by rewrite Hrec.
Qed.

Lemma signatureEffect_equal (c : SceneGeneration.Client) :
  StoryContext.storySignature (SceneGeneration.story c)
  = SceneGeneration.currentSignature
      (StoryContext.inputs (SceneGeneration.story c)) ->
  SceneGeneration.signatureEffect c = (c, false).
Proof.
  intros Hrec. unfold SceneGeneration.signatureEffect. rewrite Hrec.
  rewrite String.eqb_refl.
  pose proof (currentSignature_nonempty
                (StoryContext.inputs (SceneGeneration.story c))) as Hne.
  apply String.eqb_neq in Hne. by rewrite Hne.
Qed.






(** ** Reading and writing arrays *)

Lemma or_empty_string (s : string) :
  Js.or_ (Js.str s) (Js.str "") = Js.str s.
Proof. unfold Js.or_. cbn. by destruct s. Qed.

Lemma or_empty_idempotent (v : Js.value) :
  Js.or_ (Js.or_ v (Js.str "")) (Js.str "") = Js.or_ v (Js.str "").
Proof.
  unfold Js.or_. destruct (Js.truthy v) eqn:Hv; [by rewrite Hv|done].
Qed.

Lemma get_lookup (a : Js.array) (i : nat) (v : Js.value) :
  a !! i = Some (Some v) -> Js.get a i = v.
Proof. unfold Js.get. by intros ->. Qed.

Lemma get_out_of_range (a : Js.array) (i : nat) :
  length a <= i -> Js.get a i = Js.undefined.
Proof.
  intros Hi. unfold Js.get. by rewrite lookup_ge_None_2.
Qed.

Lemma lookup_map {A B : Type} (f : A -> B) (l : list A) (i : nat) :
  map f l !! i = f <$> l !! i.
Proof.
  revert i. induction l as [|x l IH]; intros [|i]; cbn; done.
Qed.

Lemma fill_map_length (n : nat) (f : nat -> Js.value) :
  length (Js.fill_map n f) = n.
Proof. unfold Js.fill_map. by rewrite length_map, length_seq. Qed.

Lemma fill_map_lookup (n : nat) (f : nat -> Js.value) (i : nat) :
  i < n -> Js.fill_map n f !! i = Some (Some (f i)).
Proof.
  intros Hi. unfold Js.fill_map.
  rewrite lookup_map, lookup_seq_lt by done. done.
Qed.

Lemma resized_length (n : nat) (a : Js.array) :
  length (SceneGeneration.resized n a) = n.
Proof. apply fill_map_length. Qed.

Lemma resized_lookup (n : nat) (a : Js.array) (i : nat) :
  i < n ->
  SceneGeneration.resized n a !! i
  = Some (Some (Js.or_ (Js.get a i) (Js.str ""))).
Proof. apply fill_map_lookup. Qed.

(** A string of the old array is found again at its index. *)
Lemma resized_keeps (n : nat) (a : Js.array) (i : nat) (s : string) :
  i < n -> a !! i = Some (Some (Js.str s)) ->
  SceneGeneration.resized n a !! i = Some (Some (Js.str s)).
Proof.
  intros Hi Ha. rewrite resized_lookup by done.
  by rewrite (get_lookup _ _ _ Ha), or_empty_string.
Qed.

(** An index the old array does not have holds the empty string. *)
Lemma resized_fills (n : nat) (a : Js.array) (i : nat) :
  length a <= i < n ->
  SceneGeneration.resized n a !! i = Some (Some (Js.str "")).
Proof.
  intros [Hlo Hhi]. rewrite resized_lookup by done.
  by rewrite get_out_of_range.
Qed.

(** ** Resuming a stored story *)

Lemma resize_if_needed_aligned (n : nat) (a : Js.array) :
  SceneGeneration.aligned n a
    (if negb (Nat.eqb (length a) n) then SceneGeneration.resized n a else a).
Proof.
  unfold SceneGeneration.aligned. destruct (Nat.eqb_spec (length a) n) as [Heq|Hne]; cbn [negb].
  - repeat split; try done. lia.
  - repeat split.
    + apply resized_length.
    + intros. by apply resized_keeps.
    + intros. by apply resized_fills.
    + done.
Qed.

(** The effect keyed on the number of scenes, run on its own on a story
    that has scenes when nothing was generated in this mount: it starts no
    generation and leaves the scenes as stored, and after it the scene
    images and the videos both have the length of the scenes, each brought
    to that length as [aligned] says. *)
Lemma mountEffect_aligns (c : SceneGeneration.Client) :
  StoryContext.scenes (SceneGeneration.story c) <> [] ->
  SceneGeneration.hasGeneratedRef (SceneGeneration.local c) = false ->
  let before := SceneGeneration.story c in
  let after := SceneGeneration.story (fst (SceneGeneration.mountEffect c)) in
  let n := length (StoryContext.scenes before) in
  snd (SceneGeneration.mountEffect c) = false
  /\ StoryContext.scenes after = StoryContext.scenes before
  /\ length (StoryContext.scenes after) = length (StoryContext.sceneImages after)
  /\ length (StoryContext.sceneImages after) = length (StoryContext.videos after)
  /\ SceneGeneration.aligned n (StoryContext.sceneImages before)
       (StoryContext.sceneImages after)
  /\ SceneGeneration.aligned n (StoryContext.videos before)
       (StoryContext.videos after).
Proof.
  intros Hscenes Href. cbv zeta.
  unfold SceneGeneration.mountEffect. rewrite Href.
  destruct (StoryContext.scenes (SceneGeneration.story c))
    as [|scene rest] eqn:Hsc; [done|].
  cbn [length Nat.eqb negb andb fst snd SceneGeneration.story
       StoryContext.setSceneImages StoryContext.setVideos
       StoryContext.scenes StoryContext.sceneImages StoryContext.videos].
  pose proof (resize_if_needed_aligned (S (length rest))
                (StoryContext.sceneImages (SceneGeneration.story c)))
    as Himages.
  pose proof (resize_if_needed_aligned (S (length rest))
                (StoryContext.videos (SceneGeneration.story c)))
    as Hvideos.
  split; [done|]. split; [done|].
  pose proof Himages as [Hli _]. pose proof Hvideos as [Hlv _].
  rewrite Hli, Hlv, Hsc. done.
Qed.

(** With no write queued before it, the effect in a commit is the effect on
    its own. *)
Lemma mountEffect_after_same (c : SceneGeneration.Client) :
  SceneGeneration.mountEffect_after c c = SceneGeneration.mountEffect c.
Proof. reflexivity. Qed.

(** The commit of the mount when the recorded signature asks for no
    invalidation: the signature effect writes the signature at most, which
    the effect keyed on the number of scenes neither reads nor writes, so
    the commit starts what that effect starts on its own and leaves its
    local state, scenes, videos and scene images, under the signature of
    the current inputs. *)
Lemma mountCommit_settled (c : SceneGeneration.Client) :
  SceneGeneration.signature_settled (SceneGeneration.story c) ->
  snd (SceneGeneration.mountCommit c) = snd (SceneGeneration.mountEffect c)
  /\ SceneGeneration.local (fst (SceneGeneration.mountCommit c))
     = SceneGeneration.local (fst (SceneGeneration.mountEffect c))
  /\ StoryContext.scenes
       (SceneGeneration.story (fst (SceneGeneration.mountCommit c)))
     = StoryContext.scenes
         (SceneGeneration.story (fst (SceneGeneration.mountEffect c)))
  /\ StoryContext.videos
       (SceneGeneration.story (fst (SceneGeneration.mountCommit c)))
     = StoryContext.videos
         (SceneGeneration.story (fst (SceneGeneration.mountEffect c)))
  /\ StoryContext.sceneImages
       (SceneGeneration.story (fst (SceneGeneration.mountCommit c)))
     = StoryContext.sceneImages
         (SceneGeneration.story (fst (SceneGeneration.mountEffect c)))
  /\ StoryContext.storySignature
       (SceneGeneration.story (fst (SceneGeneration.mountCommit c)))
     = SceneGeneration.currentSignature
         (StoryContext.inputs (SceneGeneration.story c)).
Proof.
  unfold SceneGeneration.mountCommit. intros [Hnone|Hsame].
  - rewrite (signatureEffect_first c Hnone). cbn [fst].
    unfold SceneGeneration.mountEffect_after, SceneGeneration.mountEffect.
    cbn [SceneGeneration.on_story SceneGeneration.story SceneGeneration.local].
    destruct (_ && _); [done|]. destruct (_ && _); done.
  - rewrite (signatureEffect_equal c Hsame). cbn [fst].
    rewrite mountEffect_after_same.
    repeat split.
    unfold SceneGeneration.mountEffect.
    destruct (_ && _); [done|]. destruct (_ && _); done.
Qed.

(** C6. On resume, that is in the commit in which the editor mounts on a
    story that has scenes, nothing having been generated in this mount and
    the recorded signature asking for no invalidation (none is recorded, or
    it is that of the inputs, as it is after a project was loaded), no
    generation is started and the scenes are left as stored, and after the
    commit the scene images and the videos both have exactly the length of
    the scenes. Each array keeps every string it held at an index below
    that length, has the empty string at every index it did not have, and
    is not touched at all when its length was already right. *)
Theorem resume_aligns_sibling_arrays (c : SceneGeneration.Client) :
  StoryContext.scenes (SceneGeneration.story c) <> [] ->
  SceneGeneration.hasGeneratedRef (SceneGeneration.local c) = false ->
  SceneGeneration.signature_settled (SceneGeneration.story c) ->
  let before := SceneGeneration.story c in
  let after := SceneGeneration.story (fst (SceneGeneration.mountCommit c)) in
  let n := length (StoryContext.scenes before) in
  snd (SceneGeneration.mountCommit c) = false
  /\ StoryContext.scenes after = StoryContext.scenes before
  /\ length (StoryContext.scenes after) = length (StoryContext.sceneImages after)
  /\ length (StoryContext.sceneImages after) = length (StoryContext.videos after)
  /\ SceneGeneration.aligned n (StoryContext.sceneImages before)
       (StoryContext.sceneImages after)
  /\ SceneGeneration.aligned n (StoryContext.videos before)
       (StoryContext.videos after).
Proof.
  intros Hscenes Href Hsettled. cbv zeta.
  destruct (mountCommit_settled c Hsettled) as (-> & _ & -> & -> & -> & _).
  by apply mountEffect_aligns.
Qed.

Lemma resume_aligns_sibling_arrays_witness :
  let before := SceneGeneration.story Example.partially_saved in
  let after :=
    SceneGeneration.story
      (fst (SceneGeneration.mountCommit Example.partially_saved)) in
  let n := length (StoryContext.scenes before) in
  snd (SceneGeneration.mountCommit Example.partially_saved) = false
  /\ StoryContext.scenes after = StoryContext.scenes before
  /\ length (StoryContext.scenes after) = length (StoryContext.sceneImages after)
  /\ length (StoryContext.sceneImages after) = length (StoryContext.videos after)
  /\ SceneGeneration.aligned n (StoryContext.sceneImages before)
       (StoryContext.sceneImages after)
  /\ SceneGeneration.aligned n (StoryContext.videos before)
       (StoryContext.videos after).
Proof.
  apply (resume_aligns_sibling_arrays Example.partially_saved).
  - discriminate.
  - reflexivity.
  - right. reflexivity.
Defined.

(** The resumed story of the witness, evaluated: three videos become five
    entries. *)
Example partially_saved_videos_resized :
  StoryContext.videos
    (SceneGeneration.story
       (fst (SceneGeneration.mountCommit Example.partially_saved)))
  = Js.of_strings ["v1.mp4"; "v2.mp4"; "v3.mp4"; ""; ""].
Proof. reflexivity. Qed.

(** ** A change of the scene count *)

(** C7 as stated fails: after the change from five to six scenes the video
    array has six entries, but the three videos that existed are gone. *)
Lemma scene_count_change_loses_videos :
  StoryContext.videos Example.three_videos
  = Js.of_strings ["v1.mp4"; "v2.mp4"; "v3.mp4"; ""; ""]
  /\ StoryContext.videos
       (SceneGeneration.story
          (SceneGeneration.after_scene_count_change Example.watching_five
             Example.three_videos 6 Example.six_scenes))
     = Js.of_strings [""; ""; ""; ""; ""; ""]
  /\ Js.get
       (StoryContext.videos
          (SceneGeneration.story
             (SceneGeneration.after_scene_count_change Example.watching_five
                Example.three_videos 6 Example.six_scenes))) 0
     <> Js.get (StoryContext.videos Example.three_videos) 0.
Proof. split; [reflexivity|split; [reflexivity|discriminate]]. Qed.

Lemma resized_empty (n : nat) :
  SceneGeneration.resized n [] = replicate n (Some (Js.str "")).
Proof.
  unfold SceneGeneration.resized, Js.fill_map.
  generalize 0. induction n as [|n IH]; intros start; [done|].
  cbn [seq map replicate]. by rewrite IH.
Qed.

(** C7, as the source has it. A change of the scene count, made while the
    provider is hydrated and not loading a project and away from a
    remembered non-zero count, clears the generated content, the videos
    among it; the script generated afterwards for the new count leaves a
    video array of the length of its scenes in which every entry is the
    empty string. The adjustment of the array is what keeps entries: applied
    to five entries with videos at indices 0 to 2 and six scenes it yields
    six entries with indices 0 to 2 unchanged and 3 to 5 empty. *)
Theorem scene_count_change_clears_videos (w : StoryContext.Watch)
    (s : StoryContext.Story) (n : nat)
    (response : SceneGeneration.ScriptResponse) :
  StoryContext.isHydrated w = true ->
  StoryContext.isLoadingProjectRef w = false ->
  StoryContext.prevSceneCountRef w <> 0 ->
  StoryContext.prevSceneCountRef w <> n ->
  StoryContext.characterPrompt (StoryContext.inputs s) <> "" ->
  StoryContext.videos (snd (StoryContext.changeSceneCount n w s)) = []
  /\ StoryContext.videos
       (SceneGeneration.story
          (SceneGeneration.after_scene_count_change w s n response))
     = replicate (length (SceneGeneration.response_scenes response))
         (Some (Js.str ""))
  /\ SceneGeneration.resized 6
       (Js.of_strings ["v1.mp4"; "v2.mp4"; "v3.mp4"; ""; ""])
     = Js.of_strings ["v1.mp4"; "v2.mp4"; "v3.mp4"; ""; ""; ""].
Proof.
  intros Hhyd Hload Hprev Hne Hprompt.
  assert (Hchange :
    StoryContext.changeSceneCount n w s
    = ({| StoryContext.isHydrated := StoryContext.isHydrated w;
          StoryContext.isLoadingProjectRef := StoryContext.isLoadingProjectRef w;
          StoryContext.prevSceneCountRef := n |},
       StoryContext.clearGeneratedContent (StoryContext.setSceneCount n s))).
  { unfold StoryContext.changeSceneCount, StoryContext.sceneCountWatcher.
    rewrite Hhyd, Hload. cbn [negb orb].
    apply Nat.eqb_neq in Hprev, Hne.
    cbn [StoryContext.setSceneCount StoryContext.inputs StoryContext.sceneCount].
    by rewrite Hprev, Hne. }
  split; [by rewrite Hchange|]. split; [|reflexivity].
  unfold SceneGeneration.after_scene_count_change. rewrite Hchange.
  rewrite signatureEffect_first by done.
  unfold SceneGeneration.mountEffect.
  cbn [SceneGeneration.on_story SceneGeneration.story SceneGeneration.local
       StoryContext.setStorySignature StoryContext.clearGeneratedContent
       StoryContext.setSceneCount StoryContext.scenes StoryContext.inputs
       StoryContext.characterPrompt SceneGeneration.initial
       SceneGeneration.hasGeneratedRef length Nat.eqb negb andb].
  apply String.eqb_neq in Hprompt. rewrite Hprompt. cbn [negb].
  unfold SceneGeneration.scriptReceived.
  cbn [SceneGeneration.story StoryContext.setSceneImages StoryContext.setVideos
       StoryContext.videos StoryContext.clearGeneratedContent length].
  destruct (SceneGeneration.response_scenes response) as [|line rest];
    [done|].
  cbn [length Nat.eqb negb]. apply resized_empty.
Qed.

Lemma scene_count_change_clears_videos_witness :
  StoryContext.videos
    (snd (StoryContext.changeSceneCount 6 Example.watching_five
            Example.three_videos)) = []
  /\ StoryContext.videos
       (SceneGeneration.story
          (SceneGeneration.after_scene_count_change Example.watching_five
             Example.three_videos 6 Example.six_scenes))
     = replicate
         (length (SceneGeneration.response_scenes Example.six_scenes))
         (Some (Js.str ""))
  /\ SceneGeneration.resized 6
       (Js.of_strings ["v1.mp4"; "v2.mp4"; "v3.mp4"; ""; ""])
     = Js.of_strings ["v1.mp4"; "v2.mp4"; "v3.mp4"; ""; ""; ""].
Proof.
  apply (scene_count_change_clears_videos Example.watching_five
           Example.three_videos 6 Example.six_scenes).
  - reflexivity.
  - reflexivity.
  - discriminate.
  - discriminate.
  - discriminate.
Defined.

(** With every scene complete the gate is open. *)
Example five_complete_may_proceed :
  SceneGeneration.clickNext Example.five_complete = Some "/create/final".
Proof. reflexivity. Qed.

(** ** Regenerating the image of one scene *)

Lemma get_spread (a : Js.array) (j : nat) :
  Js.get (Js.spread a) j = Js.get a j.
Proof.
  unfold Js.get, Js.spread. rewrite lookup_map.
  by destruct (a !! j) as [[v|]|].
Qed.

Lemma spread_length (a : Js.array) : length (Js.spread a) = length a.
Proof. unfold Js.spread. apply length_map. Qed.

Lemma get_set_eq (a : Js.array) (i : nat) (v : Js.value) :
  Js.get (Js.set a i v) i = v.
Proof.
  unfold Js.get, Js.set. destruct (decide (i < length a)) as [Hi|Hi].
  - by rewrite list_lookup_insert_eq.
  - rewrite lookup_app_r by lia.
    rewrite lookup_app_r by (rewrite length_replicate; lia).
    rewrite length_replicate, Nat.sub_diag. done.
Qed.

Lemma get_set_ne (a : Js.array) (i j : nat) (v : Js.value) :
  j <> i -> Js.get (Js.set a i v) j = Js.get a j.
Proof.
  intros Hne. unfold Js.get, Js.set.
  destruct (decide (i < length a)) as [Hi|Hi].
  - by rewrite list_lookup_insert_ne.
  - destruct (decide (j < length a)) as [Hj|Hj].
    + by rewrite lookup_app_l.
    + rewrite (lookup_ge_None_2 a j) by lia.
      rewrite lookup_app_r by lia.
      destruct (decide (j - length a < i - length a)) as [Hgap|Hgap].
      * rewrite lookup_app_l by (rewrite length_replicate; lia).
        rewrite lookup_replicate_2 by lia. done.
      * rewrite lookup_ge_None_2; [done|].
        rewrite length_app, length_replicate. cbn. lia.
Qed.

Lemma set_length (a : Js.array) (i : nat) (v : Js.value) :
  length (Js.set a i v) = Nat.max (length a) (i + 1).
Proof.
  unfold Js.set. destruct (decide (i < length a)) as [Hi|Hi].
  - rewrite length_insert. lia.
  - rewrite !length_app, length_replicate. cbn. lia.
Qed.

Lemma update_scene_lookup (sceneId : string)
    (f : SceneGeneration.Scene -> SceneGeneration.Scene)
    (l : list SceneGeneration.Scene) (k : nat) (scene : SceneGeneration.Scene) :
  l !! k = Some scene ->
  SceneGeneration.id scene <> sceneId ->
  SceneGeneration.update_scene sceneId f l !! k = Some scene.
Proof.
  intros Hk Hid. unfold SceneGeneration.update_scene.
  rewrite lookup_map, Hk. cbn. unfold SceneGeneration.has_id.
  apply String.eqb_neq in Hid. by rewrite Hid.
Qed.

(** The writes of a finished image job, against the client as it is when
    the job answers. *)
Lemma image_regenerated_writes (capturedScenes : list SceneGeneration.Scene)
    (sceneId url : string) (c : SceneGeneration.Client) (i : nat) :
  SceneGeneration.findIndex (SceneGeneration.has_id sceneId) capturedScenes
  = Some i ->
  let before := SceneGeneration.story c in
  let after :=
    SceneGeneration.story
      (SceneGeneration.image_regenerated capturedScenes sceneId url c) in
  Js.get (StoryContext.sceneImages after) i = Js.str url
  /\ Js.get (StoryContext.videos after) i = Js.str ""
  /\ (forall j, j <> i ->
        Js.get (StoryContext.sceneImages after) j
        = Js.get (StoryContext.sceneImages before) j
        /\ Js.get (StoryContext.videos after) j
           = Js.get (StoryContext.videos before) j).
Proof.
  intros Hfind. cbv zeta. unfold SceneGeneration.image_regenerated.
  rewrite Hfind.
  cbn [SceneGeneration.on_story SceneGeneration.on_local SceneGeneration.story
       StoryContext.setVideos StoryContext.setSceneImages
       StoryContext.sceneImages StoryContext.videos].
  rewrite !get_set_eq. repeat split.
  - by rewrite get_set_ne, get_spread.
  - by rewrite get_set_ne, get_spread.
Qed.

(** C8. When the image of one scene is regenerated, by [retryImage] or by
    [generateSingleImage], the new URL is written at the index of that scene
    in the scene images and the empty string at the same index in the
    videos; at every other index both arrays read as they did when the job
    answered, whatever was written to them while it ran. *)
Theorem regenerated_image_touches_one_index
    (capturedScenes : list SceneGeneration.Scene) (sceneId url : string)
    (between : SceneGeneration.Client -> SceneGeneration.Client)
    (c : SceneGeneration.Client) (i : nat) :
  SceneGeneration.findIndex (SceneGeneration.has_id sceneId) capturedScenes
  = Some i ->
  (let before :=
     SceneGeneration.story
       (between (SceneGeneration.retryImage_started sceneId c)) in
   let after :=
     SceneGeneration.story
       (SceneGeneration.retryImage capturedScenes sceneId (inr url)
          between c) in
   Js.get (StoryContext.sceneImages after) i = Js.str url
   /\ Js.get (StoryContext.videos after) i = Js.str ""
   /\ (forall j, j <> i ->
         Js.get (StoryContext.sceneImages after) j
         = Js.get (StoryContext.sceneImages before) j
         /\ Js.get (StoryContext.videos after) j
            = Js.get (StoryContext.videos before) j))
  /\ (let before :=
        SceneGeneration.story
          (between (SceneGeneration.generateSingleImage_started sceneId c)) in
      let after :=
        SceneGeneration.story
          (SceneGeneration.generateSingleImage capturedScenes sceneId
             (inr url) between c) in
      Js.get (StoryContext.sceneImages after) i = Js.str url
      /\ Js.get (StoryContext.videos after) i = Js.str ""
      /\ (forall j, j <> i ->
            Js.get (StoryContext.sceneImages after) j
            = Js.get (StoryContext.sceneImages before) j
            /\ Js.get (StoryContext.videos after) j
               = Js.get (StoryContext.videos before) j)).
Proof.
  intros Hfind.
  unfold SceneGeneration.retryImage, SceneGeneration.generateSingleImage,
    SceneGeneration.found.
  rewrite Hfind. split; by apply image_regenerated_writes.
Qed.

Lemma regenerated_image_touches_one_index_witness :
  (let before :=
     SceneGeneration.story
       (Example.undisturbed
          (SceneGeneration.retryImage_started "2" Example.five_complete)) in
   let after :=
     SceneGeneration.story
       (SceneGeneration.retryImage
          (SceneGeneration.scenes (SceneGeneration.local Example.five_complete))
          "2" (inr "new.png") Example.undisturbed Example.five_complete) in
   Js.get (StoryContext.sceneImages after) 1 = Js.str "new.png"
   /\ Js.get (StoryContext.videos after) 1 = Js.str ""
   /\ (forall j, j <> 1 ->
         Js.get (StoryContext.sceneImages after) j
         = Js.get (StoryContext.sceneImages before) j
         /\ Js.get (StoryContext.videos after) j
            = Js.get (StoryContext.videos before) j))
  /\ (let before :=
        SceneGeneration.story
          (Example.undisturbed
             (SceneGeneration.generateSingleImage_started "2"
                Example.five_complete)) in
      let after :=
        SceneGeneration.story
          (SceneGeneration.generateSingleImage
             (SceneGeneration.scenes
                (SceneGeneration.local Example.five_complete))
             "2" (inr "new.png") Example.undisturbed Example.five_complete) in
      Js.get (StoryContext.sceneImages after) 1 = Js.str "new.png"
      /\ Js.get (StoryContext.videos after) 1 = Js.str ""
      /\ (forall j, j <> 1 ->
            Js.get (StoryContext.sceneImages after) j
            = Js.get (StoryContext.sceneImages before) j
            /\ Js.get (StoryContext.videos after) j
               = Js.get (StoryContext.videos before) j)).
Proof.
  apply (regenerated_image_touches_one_index
           (SceneGeneration.scenes (SceneGeneration.local Example.five_complete))
           "2" "new.png" Example.undisturbed Example.five_complete 1).
  reflexivity.
Defined.

(** The witness evaluated: the second image is the new one, the second
    video is gone, the rest stands. *)
Example second_image_regenerated :
  let after :=
    SceneGeneration.story
      (SceneGeneration.retryImage
         (SceneGeneration.scenes (SceneGeneration.local Example.five_complete))
         "2" (inr "new.png") Example.undisturbed Example.five_complete) in
  StoryContext.sceneImages after
  = Js.of_strings ["i1.png"; "new.png"; "i3.png"; "i4.png"; "i5.png"]
  /\ StoryContext.videos after
     = Js.of_strings ["v1.mp4"; ""; "v3.mp4"; "v4.mp4"; "v5.mp4"].
Proof. split; reflexivity. Qed.

(** ** Merging partial results *)

(** The editor's own scenes are merged from their latest value: an empty
    payload, or one whose entries are all empty, changes none of them. *)
Lemma merge_partial_images_empty (partialImages : Js.array)
    (prev : list SceneGeneration.Scene) :
  (forall i, Js.truthy (Js.get partialImages i) = false) ->
  SceneGeneration.merge_partial_images partialImages prev = prev.
Proof.
  intros Hempty. unfold SceneGeneration.merge_partial_images.
  apply list_eq. intros i. rewrite list_lookup_imap.
  destruct (prev !! i) as [scene|]; [|done]. cbn. by rewrite Hempty.
Qed.

(** The context array is not: it is rebuilt from the array captured when
    the batch was started. *)
Lemma updatedImages_empty (captured : StoryContext.Story) :
  SceneGeneration.updatedImages captured []
  = Js.spread (StoryContext.sceneImages captured).
Proof. reflexivity. Qed.

(** Whatever the context holds when a partial payload arrives, the scene
    images written are those computed from the captured story. *)
Lemma partial_image_merge_ignores_latest (captured : StoryContext.Story)
    (progress : Api.ProgressInfo) (partialImages : Js.array)
    (c : SceneGeneration.Client) :
  Api.partialResults progress ≫= Api.scene_images = Some partialImages ->
  StoryContext.sceneImages
    (SceneGeneration.story
       (SceneGeneration.generateAllImages_onProgress captured progress c))
  = SceneGeneration.updatedImages captured partialImages.
Proof.
  intros Hpayload. unfold SceneGeneration.generateAllImages_onProgress.
  by rewrite Hpayload.
Qed.

(** C5 on the source. The arrays of the context are merged from the story
    captured when the batch was started, not from the latest one. First run:
    [generateScript] starts on a story with nothing generated, the script
    brings the scene images to five empty entries, and the image batch
    reports its first image; the context then holds one entry, and a second
    update with an empty payload leaves it with none. Second run: the video
    of scene 3 is being generated on its own when the batch for the other
    scenes is started; it arrives and is stored at index 2, and the next
    partial payload of the batch, which has no entry for scene 3, writes the
    empty string at index 2. *)
Theorem partial_merge_writes_back_captured_arrays :
  (let captured := Example.nothing_generated in
   let first :=
     SceneGeneration.generateAllImages_onProgress captured
       (Example.update 1 (Example.partial_images ["a1.png"; ""; ""; ""; ""]))
       Example.script_done in
   let second :=
     SceneGeneration.generateAllImages_onProgress captured
       (Example.update 1 (Example.partial_images [])) first in
   StoryContext.sceneImages (SceneGeneration.story Example.script_done)
   = Js.of_strings [""; ""; ""; ""; ""]
   /\ StoryContext.sceneImages (SceneGeneration.story first)
      = Js.of_strings ["a1.png"]
   /\ StoryContext.sceneImages (SceneGeneration.story second) = []
   /\ SceneGeneration.story second <> SceneGeneration.story first)
  /\ (let started :=
        SceneGeneration.animateScene_started "3" Example.images_done in
      let captured := SceneGeneration.story started in
      let capturedScenes :=
        SceneGeneration.scenes (SceneGeneration.local started) in
      let single :=
        SceneGeneration.animateScene
          (SceneGeneration.scenes (SceneGeneration.local Example.images_done))
          "3" (inr "v3.mp4")
          (SceneGeneration.generateAllVideos_started capturedScenes)
          Example.images_done in
      let merged :=
        SceneGeneration.generateAllVideos_onProgress captured capturedScenes
          (Example.update 1 (Example.partial_videos ["b1.mp4"])) single in
      StoryContext.videos (SceneGeneration.story single)
      = Js.of_strings [""; ""; "v3.mp4"; ""; ""]
      /\ StoryContext.videos (SceneGeneration.story merged)
         = Js.of_strings ["b1.mp4"; ""; ""; ""; ""]).
Proof.
  split; [repeat (split; [reflexivity|])|split; reflexivity].
  intros Heq. apply (f_equal StoryContext.sceneImages) in Heq.
  vm_compute in Heq. discriminate.
Qed.

(** ** The final-video page *)

(** Once the ref is set, no event makes the page submit again. *)
Lemma no_submission_after_ref (p : FinalVideoPage.Page)
    (evs : list FinalVideoPage.PageEvent) :
  FinalVideoPage.hasGeneratedRef p = true ->
  FinalVideoPage.submissions p evs = [].
Proof.
  revert p. induction evs as [|ev evs IH]; intros p Href; [done|].
  cbn [FinalVideoPage.submissions].
  destruct ev as [story|url|]; cbn [FinalVideoPage.step].
  - unfold FinalVideoPage.autoGenerateEffect. rewrite Href.
    rewrite !andb_false_r. apply IH.
    unfold FinalVideoPage.syncEffect. by destruct (_ && _).
  - by apply IH.
  - by apply IH.
Qed.

Lemma request_scenes_lookup (story : StoryContext.Story) (idx : nat)
    (scene : StoryContext.SceneLine) :
  StoryContext.scenes story !! idx = Some scene ->
  FinalVideoPage.request_scenes story !! idx
  = Some {| FinalVideoPage.video_url := Js.get (StoryContext.videos story) idx;
            FinalVideoPage.narration_url :=
              Js.or_ (StoryContext.narration_url scene) (Js.str "");
            FinalVideoPage.subtitle_text := StoryContext.script_text scene;
            FinalVideoPage.phonemes := StoryContext.phonemes scene;
            FinalVideoPage.duration :=
              Js.num_or (StoryContext.narration_duration scene) 5 |}.
Proof.
  intros Hidx. unfold FinalVideoPage.request_scenes.
  by rewrite list_lookup_imap, Hidx.
Qed.

(** C10. When the final page mounts on a story with no final video URL and
    a non-empty video array, it submits the final-video job on that first
    render and never again, whatever renders and job outcomes follow. The
    request has one entry per scene, with the video read from the video
    array at the index of the scene and the narration URL of the scene or
    the empty string. Nothing else is asked of the story: the last part
    shows a story with one video for five scenes being submitted, the
    second scene with an undefined video and the third with an empty
    narration. *)
Theorem final_video_is_submitted_once_unchecked (story : StoryContext.Story)
    (later : list FinalVideoPage.PageEvent) :
  StoryContext.finalVideoUrl story = "" ->
  StoryContext.videos story <> [] ->
  FinalVideoPage.mounted story later = [FinalVideoPage.request_scenes story]
  /\ length (FinalVideoPage.request_scenes story)
     = length (StoryContext.scenes story)
  /\ (forall idx scene,
        StoryContext.scenes story !! idx = Some scene ->
        exists entry,
          FinalVideoPage.request_scenes story !! idx = Some entry
          /\ FinalVideoPage.video_url entry
             = Js.get (StoryContext.videos story) idx
          /\ FinalVideoPage.narration_url entry
             = Js.or_ (StoryContext.narration_url scene) (Js.str ""))
  /\ (exists request entry2 entry3,
        FinalVideoPage.mounted Example.one_video later = [request]
        /\ request !! 1 = Some entry2
        /\ FinalVideoPage.video_url entry2 = Js.undefined
        /\ request !! 2 = Some entry3
        /\ FinalVideoPage.narration_url entry3 = Js.str "").
Proof.
  intros Hfinal Hvideos.
  assert (Hmount : forall s,
            StoryContext.finalVideoUrl s = "" ->
            StoryContext.videos s <> [] ->
            FinalVideoPage.mounted s later = [FinalVideoPage.request_scenes s]).
  { intros s Hf Hv.
    unfold FinalVideoPage.mounted. cbn [FinalVideoPage.submissions].
    unfold FinalVideoPage.step, FinalVideoPage.autoGenerateEffect,
      FinalVideoPage.initial.
    rewrite Hf. cbn [Js.or_ Js.truthy String.eqb negb andb
                     FinalVideoPage.finalVideoUrl
                     FinalVideoPage.hasGeneratedRef].
    destruct (StoryContext.videos s) as [|slot slots]; [done|].
    cbn [length Nat.eqb negb andb]. f_equal.
    apply no_submission_after_ref.
    unfold FinalVideoPage.syncEffect. by destruct (_ && _). }
  split; [by apply Hmount|]. split; [|split].
  - unfold FinalVideoPage.request_scenes. apply length_imap.
  - intros idx scene Hidx. eexists. split.
    + by apply request_scenes_lookup.
    + done.
  - eexists _, _, _. split; [by apply Hmount|].
    repeat split; reflexivity.
Qed.

Lemma final_video_is_submitted_once_unchecked_witness :
  let story := Example.one_video in
  let later :=
    [FinalVideoPage.Render Example.one_video;
     FinalVideoPage.GenerationFailed;
     FinalVideoPage.Render Example.three_videos] in
  FinalVideoPage.mounted story later = [FinalVideoPage.request_scenes story]
  /\ length (FinalVideoPage.request_scenes story)
     = length (StoryContext.scenes story)
  /\ (forall idx scene,
        StoryContext.scenes story !! idx = Some scene ->
        exists entry,
          FinalVideoPage.request_scenes story !! idx = Some entry
          /\ FinalVideoPage.video_url entry
             = Js.get (StoryContext.videos story) idx
          /\ FinalVideoPage.narration_url entry
             = Js.or_ (StoryContext.narration_url scene) (Js.str ""))
  /\ (exists request entry2 entry3,
        FinalVideoPage.mounted Example.one_video later = [request]
        /\ request !! 1 = Some entry2
        /\ FinalVideoPage.video_url entry2 = Js.undefined
        /\ request !! 2 = Some entry3
        /\ FinalVideoPage.narration_url entry3 = Js.str "").
Proof.
  apply (final_video_is_submitted_once_unchecked Example.one_video).
  - reflexivity.
  - discriminate.
Defined.

(** Over any life of the page, mounted on any story, at most one request
    is submitted. *)
Lemma at_most_one_submission (p : FinalVideoPage.Page)
    (evs : list FinalVideoPage.PageEvent) :
  length (FinalVideoPage.submissions p evs) <= 1.
Proof.
  revert p. induction evs as [|ev evs IH]; intros p; [cbn; lia|].
  cbn [FinalVideoPage.submissions].
  destruct ev as [story|url|]; cbn [FinalVideoPage.step]; try apply IH.
  unfold FinalVideoPage.autoGenerateEffect.
  destruct (_ && _ && _ && _); [|apply IH].
  rewrite no_submission_after_ref; [cbn; lia|].
  unfold FinalVideoPage.syncEffect. by destruct (_ && _).
Qed.

(** * Further properties of the code *)

(** ** The trace of the poller *)

Section PollerTrace.

Context {T : Type}.
Variable jobId : string.
Variable onProgress : option Api.Callback.
Variable pollInterval : Z.

Local Abbreviation poll := (Api.poll (T:=T) jobId onProgress pollInterval).
Local Abbreviation poll_loop :=
  (Api.poll_loop (T:=T) jobId onProgress pollInterval).

Lemma timers_app (a b : list Api.Event) :
  Api.timers (a ++ b) = Api.timers a + Api.timers b.
Proof. unfold Api.timers. by rewrite List.filter_app, length_app. Qed.

Lemma reports_app (a b : list Api.Event) :
  Api.reports (a ++ b) = Api.reports a + Api.reports b.
Proof. unfold Api.reports. by rewrite List.filter_app, length_app. Qed.

(** One run of [poll]: its events are those of this poller. *)
Lemma poll_counted (resp : Api.FetchResult T) :
  Forall (Api.event_of jobId pollInterval) (fst (poll resp)).
Proof.
  unfold Api.poll, Api.handle.
  destruct (Api.getJobStatus resp) as [e|status].
  { cbn. repeat constructor. }
  destruct (_ || _).
  - destruct onProgress as [callback|].
    + destruct (Api.progress status) as [p|].
      * destruct (callback _); cbn; repeat constructor.
      * cbn. repeat constructor.
    + cbn. repeat constructor.
  - destruct (String.eqb _ "SUCCESS").
    { cbn. repeat constructor. }
    destruct (String.eqb _ "FAILURE"); cbn; repeat constructor.
Qed.

(** So are the events of all the runs. *)
Lemma poll_loop_counted (net : list (Api.FetchResult T)) :
  Forall (Api.event_of jobId pollInterval) (fst (poll_loop net)).
Proof.
  induction net as [|resp net IH]; [by constructor|].
  rewrite poll_loop_cons.
  pose proof (poll_counted resp) as He.
  destruct (snd (poll resp)) as [settlement|]; cbn [fst snd]; [done|].
  by apply Forall_app.
Qed.

(** While the answers tell of a waiting job, every run of [poll] is a
    request followed by the timer of the next run. *)
Lemma poll_waiting (resp : Api.FetchResult T) :
  Api.is_waiting resp = true ->
  poll resp = ([Api.Request jobId; Api.SetTimeout pollInterval], None).
Proof.
  unfold Api.is_waiting, Api.poll, Api.handle.
  destruct (Api.getJobStatus resp) as [e|status]; [done|].
  destruct (String.eqb _ "PROGRESS"); [done|].
  destruct (String.eqb _ "STARTED"); [done|].
  destruct (String.eqb _ "SUCCESS"); [done|].
  by destruct (String.eqb _ "FAILURE").
Qed.

Lemma poll_loop_waiting (net : list (Api.FetchResult T)) :
  Forall (fun resp => Api.is_waiting resp = true) net ->
  poll_loop net
  = (concat (replicate (length net)
               [Api.Request jobId; Api.SetTimeout pollInterval]), None).
Proof.
  induction 1 as [|resp net Hresp _ IH]; [done|].
  rewrite poll_loop_cons, (poll_waiting resp Hresp), IH. done.
Qed.

End PollerTrace.

Section LoopTrace.

Context {T : Type}.
Variable jobId : string.
Variable onProgress : option Api.Callback.
Variable pollInterval : Z.

Local Abbreviation event_loop :=
  (Api.event_loop (T:=T) jobId onProgress pollInterval).

(** The body of [poll] on an answer: its events are those of this poller,
    none of them a request; it sets one timer exactly when it leaves the
    promise pending, and it calls the callback at most once, and only when
    there is one. *)
Lemma handle_counted (answer : Api.JsError + Api.JobStatusResponse T) :
  Forall (Api.event_of jobId pollInterval)
    (fst (Api.handle onProgress pollInterval answer))
  /\ Api.requests (fst (Api.handle onProgress pollInterval answer)) = 0
  /\ Api.timers (fst (Api.handle onProgress pollInterval answer))
     = (if Api.is_settled (snd (Api.handle onProgress pollInterval answer))
        then 0 else 1)
  /\ Api.reports (fst (Api.handle onProgress pollInterval answer)) <= 1
  /\ (onProgress = None ->
      Api.reports (fst (Api.handle onProgress pollInterval answer)) = 0).
Proof.
  unfold Api.handle. destruct answer as [e|status].
  { cbn. repeat split; auto. }
  destruct (_ || _).
  - destruct onProgress as [callback|].
    + destruct (Api.progress status) as [p|].
      * destruct (callback _); cbn; repeat split; auto; try done;
          repeat constructor.
      * cbn. repeat split; auto. repeat constructor.
    + cbn. repeat split; auto. repeat constructor.
  - destruct (String.eqb _ "SUCCESS").
    { cbn. repeat split; auto. }
    destruct (String.eqb _ "FAILURE");
      cbn; repeat split; auto; repeat constructor.
Qed.

Lemma answers_cons_answer (resp : Api.FetchResult T)
    (evs : list (Api.LoopEvent T)) :
  Api.answers (Api.Answer resp :: evs) = S (Api.answers evs).
Proof. reflexivity. Qed.

Lemma answers_cons_timer (evs : list (Api.LoopEvent T)) :
  Api.answers (Api.TimerFires :: evs) = Api.answers evs.
Proof. reflexivity. Qed.

Lemma answers_cons_abandon (evs : list (Api.LoopEvent T)) :
  Api.answers (Api.CallerAbandons :: evs) = Api.answers evs.
Proof. reflexivity. Qed.

Lemma requests_cons_request (id : string) (events : list Api.Event) :
  Api.requests (Api.Request id :: events) = S (Api.requests events).
Proof. reflexivity. Qed.

Lemma timers_cons_request (id : string) (events : list Api.Event) :
  Api.timers (Api.Request id :: events) = Api.timers events.
Proof. reflexivity. Qed.

Lemma reports_cons_request (id : string) (events : list Api.Event) :
  Api.reports (Api.Request id :: events) = Api.reports events.
Proof. reflexivity. Qed.

(** The invariant of the loop, by induction on the loop events for every
    phase at once. *)
Lemma event_loop_counted (phase : Api.Phase) (evs : list (Api.LoopEvent T)) :
  Forall (Api.event_of jobId pollInterval)
    (Api.poller_events (fst (event_loop phase evs)))
  /\ Api.reports (Api.poller_events (fst (event_loop phase evs)))
     <= Api.answers evs
  /\ Api.timers (Api.poller_events (fst (event_loop phase evs)))
     <= Api.answers evs
  /\ (onProgress = None ->
      Api.reports (Api.poller_events (fst (event_loop phase evs))) = 0)
  /\ Api.counted phase (Api.poller_events (fst (event_loop phase evs)))
       (snd (event_loop phase evs)).
Proof.
  revert phase. induction evs as [|[resp| |] evs IH]; intros phase.
  - cbn. repeat split; auto. destruct phase; cbn; auto; lia.
  - rewrite answers_cons_answer. destruct phase; cbn [Api.counted].
    + rewrite event_loop_answer.
      destruct (handle_counted (Api.getJobStatus resp))
        as (He & Hq & Ht & Hr & Hnone).
      destruct (Api.handle onProgress pollInterval (Api.getJobStatus resp))
        as [events [settlement|]]; cbn [fst snd Api.is_settled] in *.
      * rewrite poller_events_app, poller_events_did, event_loop_settled,
          app_nil_r.
        repeat split; auto; try lia.
      * destruct (IH Api.Scheduled) as (IHe & IHr & IHt & IHnone & IHc).
        cbn [Api.counted] in IHc. destruct IHc as (IHb & IHs & IHrep).
        rewrite poller_events_app, poller_events_did.
        rewrite requests_app, timers_app, reports_app.
        repeat split; auto; try lia.
        -- by apply Forall_app.
        -- intros Hno. rewrite Hnone, IHnone by done. done.
        -- intros Hset. specialize (IHs Hset). lia.
    + cbn [Api.event_loop].
      destruct (IH Api.Scheduled) as (IHe & IHr & IHt & IHnone & IHc).
      split; [done|]. split; [lia|]. split; [lia|]. split; [done|].
      exact IHc.
    + cbn [Api.event_loop].
      destruct (IH Api.Settled) as (IHe & IHr & IHt & IHnone & IHc).
      split; [done|]. split; [lia|]. split; [lia|]. split; [done|].
      exact IHc.
  - rewrite answers_cons_timer. destruct phase; cbn [Api.counted].
    + cbn [Api.event_loop]. apply IH.
    + rewrite event_loop_timer. cbn [fst snd].
      destruct (IH Api.InFlight) as (IHe & IHr & IHt & IHnone & IHc).
      cbn [Api.counted] in IHc. destruct IHc as (IHb & IHs & IHrep).
      rewrite poller_events_cons, requests_cons_request,
        timers_cons_request, reports_cons_request.
      repeat split; auto; try lia.
      * constructor; [done|]. done.
      * intros Hset. specialize (IHs Hset). lia.
    + cbn [Api.event_loop]. apply IH.
  - rewrite answers_cons_abandon. cbn [Api.event_loop].
    destruct (IH phase) as (IHe & IHr & IHt & IHnone & IHc).
    destruct (event_loop phase evs) as [obs o]. cbn [fst snd] in *.
    change (Api.poller_events (Api.Abandoned :: obs))
      with (Api.poller_events obs).
    done.
Qed.

End LoopTrace.

(** X1. Whatever the event loop delivers, and in whatever order (answers,
    timers, an unmount of the caller), the trace of a started poller is
    that of one poller. It begins with the request sent at the start;
    every request names the job the poller was started for and every timer
    is set to its interval. A request follows each timer that fired, so
    there are as many requests as timers or one more, and one more once the
    promise has settled; at most one request is without its answer; the
    callback is called at most once per answer, so at most once per
    request, and never when none was supplied. *)
Theorem poller_trace_is_counted {T : Type} (jobId : string)
    (onProgress : option Api.Callback) (pollInterval : Z)
    (evs : list (Api.LoopEvent T)) :
  let trace :=
    Api.poller_events (fst (Api.started jobId onProgress pollInterval evs)) in
  let outcome := snd (Api.started jobId onProgress pollInterval evs) in
  head trace = Some (Api.Request jobId)
  /\ Forall (Api.event_of jobId pollInterval) trace
  /\ Api.timers trace <= Api.requests trace <= Api.timers trace + 1
  /\ (Api.is_settled outcome = true ->
      Api.requests trace = Api.timers trace + 1)
  /\ Api.requests trace <= Api.answers evs + 1
  /\ Api.reports trace <= Api.requests trace
  /\ Api.reports trace <= Api.answers evs
  /\ (onProgress = None -> Api.reports trace = 0).
Proof.
  cbv zeta. rewrite started_eq. cbn [fst snd].
  destruct (event_loop_counted jobId onProgress pollInterval Api.InFlight evs)
    as (He & Hr & Ht & Hnone & Hb & Hs & Hrep).
  rewrite poller_events_cons, requests_cons_request, timers_cons_request,
    reports_cons_request.
  repeat split; auto; try lia.
  - constructor; [done|]. done.
  - intros Hset. specialize (Hs Hset). lia.
Qed.

(** X2. The poller has no limit of attempts and no deadline: as long as
    the status requests succeed and tell of a job that is neither running
    nor finished (PENDING, or a state the client does not know), the promise
    stays pending, however many answers there are, and the trace is one
    request and one timer per answer, without a call of the callback. *)
Theorem waiting_job_is_polled_without_end {T : Type} (jobId : string)
    (onProgress : option Api.Callback) (pollInterval : option Z)
    (net : list (Api.FetchResult T)) :
  Forall (fun resp => Api.is_waiting resp = true) net ->
  Api.pollJobUntilComplete jobId onProgress pollInterval net
  = (concat (replicate (length net)
               [Api.Request jobId;
                Api.SetTimeout (default 2000%Z pollInterval)]),
     None).
Proof. unfold Api.pollJobUntilComplete. apply poll_loop_waiting. Qed.

Lemma waiting_job_is_polled_without_end_witness :
  Api.pollJobUntilComplete (T:=unit) "job-1" (Some Example.quiet) None
    [Example.respond Example.queued; Example.respond Example.queued;
     Example.respond Example.unheard_of]
  = (concat (replicate 3
               [Api.Request "job-1"; Api.SetTimeout 2000%Z]),
     None).
Proof.
  apply (waiting_job_is_polled_without_end (T:=unit) "job-1"
           (Some Example.quiet) None
           [Example.respond Example.queued; Example.respond Example.queued;
            Example.respond Example.unheard_of]).
  repeat constructor.
Defined.

(** ** The functions that start a job *)

(** X3. When the POST of one of the thirteen job functions does not start a
    job (the fetch rejects, the response is not ok, or its body does not
    parse), the promise is rejected and no status is ever requested; for a
    response that is not ok the error reads Failed to start, the name of
    the job, and the status text of the response. *)
Theorem job_not_started_is_not_polled {T : Type} (f : Api.JobFunction)
    (post : Api.PostResult) (onProgress : option Api.Callback)
    (net : list (Api.FetchResult T)) :
  Api.started_job post = None ->
  exists e,
    Api.start_and_poll f post onProgress net = ([], Some (Api.Reject e))
    /\ (forall statusText json,
          post = Api.PostResponse false statusText json ->
          e = Api.Error_
                ("Failed to start " +:+ Api.job_name f +:+ ": "
                 +:+ statusText)).
Proof.
  intros Hnone. destruct post as [e|[|] statusText [e|jobResponse]];
    try discriminate Hnone; cbn.
  - exists e. split; [done|]. discriminate.
  - exists e. split; [done|]. discriminate.
  - eexists. split; [done|]. by intros ? ? [= <- _].
  - eexists. split; [done|]. by intros ? ? [= <- _].
Qed.

Lemma job_not_started_is_not_polled_witness :
  exists e,
    Api.start_and_poll (T:=unit) Api.generateVideos
      (Api.PostResponse false "Service Unavailable"
         (inl (Api.Error_ "Unexpected end of JSON input")))
      (Some Example.quiet) [Example.respond Example.two_of_five]
    = ([], Some (Api.Reject e))
    /\ (forall statusText json,
          Api.PostResponse false "Service Unavailable"
            (inl (Api.Error_ "Unexpected end of JSON input"))
          = Api.PostResponse false statusText json ->
          e = Api.Error_
                ("Failed to start " +:+ Api.job_name Api.generateVideos
                 +:+ ": " +:+ statusText)).
Proof.
  apply (job_not_started_is_not_polled (T:=unit) Api.generateVideos
           (Api.PostResponse false "Service Unavailable"
              (inl (Api.Error_ "Unexpected end of JSON input")))
           (Some Example.quiet) [Example.respond Example.two_of_five]).
  reflexivity.
Defined.

(** X4. When the POST starts a job, each of the thirteen functions is the
    poller on the job id of the answer with the default interval: every
    status request names that id, every timer is set to 2000 ms, and the
    promise settles as the poller settles it. None of the functions lets
    its caller choose another interval. *)
Theorem started_job_is_polled_every_two_seconds {T : Type}
    (f : Api.JobFunction) (post : Api.PostResult)
    (onProgress : option Api.Callback) (net : list (Api.FetchResult T))
    (jobResponse : Api.JobResponse) :
  Api.started_job post = Some jobResponse ->
  Forall (Api.event_of (Api.started_job_id jobResponse) 2000%Z)
    (fst (Api.start_and_poll f post onProgress net))
  /\ Api.start_and_poll f post onProgress net
     = Api.poll_loop (Api.started_job_id jobResponse) onProgress 2000%Z net.
Proof.
  intros Hjob. destruct post as [e|[|] statusText [e|r]];
    try discriminate Hjob.
  injection Hjob as ->. cbn [Api.start_and_poll negb].
  unfold Api.pollJobUntilComplete. cbn [default]. split; [|done].
  apply poll_loop_counted.
Qed.

Lemma started_job_is_polled_every_two_seconds_witness :
  Forall (Api.event_of "job-7" 2000%Z)
    (fst (Api.start_and_poll (T:=unit) Api.generateSceneImages
            (Api.PostResponse true "OK" (inr Example.job_seven))
            (Some Example.quiet)
            [Example.respond Example.queued;
             Example.respond Example.two_of_five]))
  /\ Api.start_and_poll (T:=unit) Api.generateSceneImages
       (Api.PostResponse true "OK" (inr Example.job_seven))
       (Some Example.quiet)
       [Example.respond Example.queued; Example.respond Example.two_of_five]
     = Api.poll_loop "job-7" (Some Example.quiet) 2000%Z
         [Example.respond Example.queued;
          Example.respond Example.two_of_five].
Proof.
  apply (started_job_is_polled_every_two_seconds (T:=unit)
           Api.generateSceneImages
           (Api.PostResponse true "OK" (inr Example.job_seven))
           (Some Example.quiet)
           [Example.respond Example.queued;
            Example.respond Example.two_of_five]
           Example.job_seven).
  reflexivity.
Defined.

(** ** Animating one scene *)

Lemma findIndex_lookup {A : Type} (p : A -> bool) (l : list A) (i : nat) :
  SceneGeneration.findIndex p l = Some i ->
  exists x, l !! i = Some x /\ p x = true /\ List.find p l = Some x.
Proof.
  revert i. induction l as [|y l IH]; intros i; [done|].
  cbn [SceneGeneration.findIndex List.find].
  destruct (p y) eqn:Hy.
  - intros [= <-]. by exists y.
  - destruct (SceneGeneration.findIndex p l) as [k|]; [|done].
    intros [= <-]. destruct (IH k eq_refl) as (x & Hx & Hp & Hfind).
    by exists x.
Qed.

(** The writes of a finished video job, against the client as it is when
    the job answers. *)
Lemma video_generated_stores (capturedScenes : list SceneGeneration.Scene)
    (sceneId url : string) (c : SceneGeneration.Client) (i : nat) :
  SceneGeneration.findIndex (SceneGeneration.has_id sceneId) capturedScenes
  = Some i ->
  SceneGeneration.video_stored i url (SceneGeneration.story c)
    (SceneGeneration.story
       (SceneGeneration.video_generated capturedScenes sceneId url c)).
Proof.
  intros Hfind. unfold SceneGeneration.video_generated. rewrite Hfind.
  unfold SceneGeneration.video_stored.
  cbn [SceneGeneration.on_story SceneGeneration.on_local SceneGeneration.story
       StoryContext.setVideos StoryContext.setFinalVideoUrl
       StoryContext.sceneImages StoryContext.videos StoryContext.scenes
       StoryContext.finalVideoUrl StoryContext.inputs
       StoryContext.storySignature].
  rewrite get_set_eq. repeat split.
  intros j Hj. by rewrite get_set_ne, get_spread.
Qed.

Lemma animateScene_answered (capturedScenes : list SceneGeneration.Scene)
    (sceneId url : string)
    (between : SceneGeneration.Client -> SceneGeneration.Client)
    (c : SceneGeneration.Client) (i : nat) (scene : SceneGeneration.Scene) :
  SceneGeneration.findIndex (SceneGeneration.has_id sceneId) capturedScenes
  = Some i ->
  capturedScenes !! i = Some scene ->
  Js.truthy (SceneGeneration.imageUrl scene) = true ->
  SceneGeneration.videoPrompt scene <> "" ->
  SceneGeneration.animateScene capturedScenes sceneId (inr url) between c
  = SceneGeneration.video_generated capturedScenes sceneId url
      (between (SceneGeneration.animateScene_started sceneId c)).
Proof.
  intros Hfind Hi Himage Hprompt.
  destruct (findIndex_lookup _ _ _ Hfind) as (x & Hx & _ & Hfound).
  rewrite Hi in Hx. injection Hx as <-.
  unfold SceneGeneration.animateScene, SceneGeneration.video_generated.
  rewrite Hfound, Himage, Hfind. cbn [negb].
  apply String.eqb_neq in Hprompt. by rewrite Hprompt.
Qed.

Lemma retryAnimation_answered (capturedScenes : list SceneGeneration.Scene)
    (sceneId url : string)
    (between : SceneGeneration.Client -> SceneGeneration.Client)
    (c : SceneGeneration.Client) (i : nat) (scene : SceneGeneration.Scene) :
  SceneGeneration.findIndex (SceneGeneration.has_id sceneId) capturedScenes
  = Some i ->
  capturedScenes !! i = Some scene ->
  Js.truthy (SceneGeneration.imageUrl scene) = true ->
  SceneGeneration.retryAnimation capturedScenes sceneId (inr url) between c
  = SceneGeneration.video_generated capturedScenes sceneId url
      (between (SceneGeneration.retryAnimation_started sceneId c)).
Proof.
  intros Hfind Hi Himage.
  destruct (findIndex_lookup _ _ _ Hfind) as (x & Hx & _ & Hfound).
  rewrite Hi in Hx. injection Hx as <-.
  unfold SceneGeneration.retryAnimation.
  by rewrite Hfound, Himage.
Qed.

(** X5. When the video of one scene is generated, by [animateScene] (which
    asks for a video prompt) or by [retryAnimation] (which does not), the
    new URL is written at the index of that scene in the videos of the
    context and the final video is cleared; every other index of the
    videos, the scene images, the scenes, the inputs and the signature are
    as they were when the job answered, whatever was written while it
    ran. *)
Theorem animated_scene_touches_one_video
    (capturedScenes : list SceneGeneration.Scene) (sceneId url : string)
    (between : SceneGeneration.Client -> SceneGeneration.Client)
    (c : SceneGeneration.Client) (i : nat) (scene : SceneGeneration.Scene) :
  SceneGeneration.findIndex (SceneGeneration.has_id sceneId) capturedScenes
  = Some i ->
  capturedScenes !! i = Some scene ->
  Js.truthy (SceneGeneration.imageUrl scene) = true ->
  (SceneGeneration.videoPrompt scene <> "" ->
   SceneGeneration.video_stored i url
     (SceneGeneration.story
        (between (SceneGeneration.animateScene_started sceneId c)))
     (SceneGeneration.story
        (SceneGeneration.animateScene capturedScenes sceneId (inr url)
           between c)))
  /\ SceneGeneration.video_stored i url
       (SceneGeneration.story
          (between (SceneGeneration.retryAnimation_started sceneId c)))
       (SceneGeneration.story
          (SceneGeneration.retryAnimation capturedScenes sceneId (inr url)
             between c)).
Proof.
  intros Hfind Hi Himage. split.
  - intros Hprompt.
    rewrite (animateScene_answered _ _ _ _ _ _ _ Hfind Hi Himage Hprompt).
    by apply video_generated_stores.
  - rewrite (retryAnimation_answered _ _ _ _ _ _ _ Hfind Hi Himage).
    by apply video_generated_stores.
Qed.

Lemma animated_scene_touches_one_video_witness :
  (SceneGeneration.videoPrompt (Example.complete_scene 4) <> "" ->
   SceneGeneration.video_stored 3 "new.mp4"
     (SceneGeneration.story
        (Example.undisturbed
           (SceneGeneration.animateScene_started "4" Example.five_complete)))
     (SceneGeneration.story
        (SceneGeneration.animateScene
           (SceneGeneration.scenes
              (SceneGeneration.local Example.five_complete))
           "4" (inr "new.mp4") Example.undisturbed Example.five_complete)))
  /\ SceneGeneration.video_stored 3 "new.mp4"
       (SceneGeneration.story
          (Example.undisturbed
             (SceneGeneration.retryAnimation_started "4"
                Example.five_complete)))
       (SceneGeneration.story
          (SceneGeneration.retryAnimation
             (SceneGeneration.scenes
                (SceneGeneration.local Example.five_complete))
             "4" (inr "new.mp4") Example.undisturbed Example.five_complete)).
Proof.
  apply (animated_scene_touches_one_video
           (SceneGeneration.scenes
              (SceneGeneration.local Example.five_complete))
           "4" "new.mp4" Example.undisturbed Example.five_complete 3
           (Example.complete_scene 4)); reflexivity.
Defined.

(** A story without a final video and with some entry in its videos makes
    the final page, once mounted, submit one request, and no second one
    whatever happens to the page afterwards. *)
Lemma mounted_submits_once (story : StoryContext.Story)
    (later : list FinalVideoPage.PageEvent) :
  StoryContext.finalVideoUrl story = "" ->
  StoryContext.videos story <> [] ->
  FinalVideoPage.mounted story later = [FinalVideoPage.request_scenes story].
Proof.
  intros Hfinal Hvideos.
  unfold FinalVideoPage.mounted, FinalVideoPage.initial.
  cbn [FinalVideoPage.submissions FinalVideoPage.step].
  unfold FinalVideoPage.autoGenerateEffect.
  rewrite Hfinal.
  cbn [FinalVideoPage.finalVideoUrl FinalVideoPage.hasGeneratedRef
       Js.or_ Js.truthy String.eqb negb andb].
  destruct (StoryContext.videos story) as [|slot rest] eqn:Hv; [done|].
  cbn [length Nat.eqb negb andb].
  rewrite no_submission_after_ref; [done|].
  unfold FinalVideoPage.syncEffect. by destruct (_ && _).
Qed.

Lemma set_nonempty (a : Js.array) (i : nat) (v : Js.value) :
  Js.set a i v <> [].
Proof.
  intros Hempty. pose proof (set_length a i v) as Hlen.
  rewrite Hempty in Hlen. cbn in Hlen. lia.
Qed.

Lemma video_generated_regenerates (capturedScenes : list SceneGeneration.Scene)
    (sceneId url : string) (c : SceneGeneration.Client) (i : nat)
    (later : list FinalVideoPage.PageEvent) :
  SceneGeneration.findIndex (SceneGeneration.has_id sceneId) capturedScenes
  = Some i ->
  FinalVideoPage.mounted
    (SceneGeneration.story
       (SceneGeneration.video_generated capturedScenes sceneId url c)) later
  = [FinalVideoPage.request_scenes
       (SceneGeneration.story
          (SceneGeneration.video_generated capturedScenes sceneId url c))].
Proof.
  intros Hfind. apply mounted_submits_once.
  - by apply (video_generated_stores _ _ url c) in Hfind as (_ & _ & ? & _).
  - unfold SceneGeneration.video_generated. rewrite Hfind.
    cbn [SceneGeneration.on_story SceneGeneration.on_local
         SceneGeneration.story StoryContext.setVideos
         StoryContext.setFinalVideoUrl StoryContext.videos].
    apply set_nonempty.
Qed.

(** X6. A newly generated video of one scene always leads to a new final
    video: after [animateScene] or [retryAnimation] has stored a video, the
    final page mounted on the resulting story submits exactly one
    final-video request, for the scenes of that story, whatever final video
    the story had before and whatever happens to the page afterwards. *)
Theorem new_video_makes_final_page_regenerate
    (capturedScenes : list SceneGeneration.Scene) (sceneId url : string)
    (between : SceneGeneration.Client -> SceneGeneration.Client)
    (c : SceneGeneration.Client) (i : nat) (scene : SceneGeneration.Scene)
    (later : list FinalVideoPage.PageEvent) :
  SceneGeneration.findIndex (SceneGeneration.has_id sceneId) capturedScenes
  = Some i ->
  capturedScenes !! i = Some scene ->
  Js.truthy (SceneGeneration.imageUrl scene) = true ->
  (SceneGeneration.videoPrompt scene <> "" ->
   FinalVideoPage.mounted
     (SceneGeneration.story
        (SceneGeneration.animateScene capturedScenes sceneId (inr url)
           between c)) later
   = [FinalVideoPage.request_scenes
        (SceneGeneration.story
           (SceneGeneration.animateScene capturedScenes sceneId (inr url)
              between c))])
  /\ FinalVideoPage.mounted
       (SceneGeneration.story
          (SceneGeneration.retryAnimation capturedScenes sceneId (inr url)
             between c)) later
     = [FinalVideoPage.request_scenes
          (SceneGeneration.story
             (SceneGeneration.retryAnimation capturedScenes sceneId (inr url)
                between c))].
Proof.
  intros Hfind Hi Himage. split.
  - intros Hprompt.
    rewrite (animateScene_answered _ _ _ _ _ _ _ Hfind Hi Himage Hprompt).
    by apply video_generated_regenerates with (i := i).
  - rewrite (retryAnimation_answered _ _ _ _ _ _ _ Hfind Hi Himage).
    by apply video_generated_regenerates with (i := i).
Qed.

Lemma new_video_makes_final_page_regenerate_witness :
  (SceneGeneration.videoPrompt (Example.complete_scene 4) <> "" ->
   FinalVideoPage.mounted
     (SceneGeneration.story
        (SceneGeneration.animateScene
           (SceneGeneration.scenes
              (SceneGeneration.local Example.with_final_video))
           "4" (inr "new.mp4") Example.undisturbed
           Example.with_final_video))
     [FinalVideoPage.GenerationFailed]
   = [FinalVideoPage.request_scenes
        (SceneGeneration.story
           (SceneGeneration.animateScene
              (SceneGeneration.scenes
                 (SceneGeneration.local Example.with_final_video))
              "4" (inr "new.mp4") Example.undisturbed
              Example.with_final_video))])
  /\ FinalVideoPage.mounted
       (SceneGeneration.story
          (SceneGeneration.retryAnimation
             (SceneGeneration.scenes
                (SceneGeneration.local Example.with_final_video))
             "4" (inr "new.mp4") Example.undisturbed
             Example.with_final_video))
       [FinalVideoPage.GenerationFailed]
     = [FinalVideoPage.request_scenes
          (SceneGeneration.story
             (SceneGeneration.retryAnimation
                (SceneGeneration.scenes
                   (SceneGeneration.local Example.with_final_video))
                "4" (inr "new.mp4") Example.undisturbed
                Example.with_final_video))].
Proof.
  apply (new_video_makes_final_page_regenerate
           (SceneGeneration.scenes
              (SceneGeneration.local Example.with_final_video))
           "4" "new.mp4" Example.undisturbed Example.with_final_video 3
           (Example.complete_scene 4) [FinalVideoPage.GenerationFailed]);
    reflexivity.
Defined.

(** ** The gate of the final step, again *)

Lemma set_lookup_eq (a : Js.array) (i : nat) (v : Js.value) :
  Js.set a i v !! i = Some (Some v).
Proof.
  unfold Js.set. destruct (decide (i < length a)) as [Hi|Hi].
  - by rewrite list_lookup_insert_eq.
  - rewrite lookup_app_r by lia.
    rewrite lookup_app_r by (rewrite length_replicate; lia).
    rewrite length_replicate, Nat.sub_diag. done.
Qed.

Lemma every_false (p : Js.value -> bool) (a : Js.array) (i : nat)
    (v : Js.value) :
  a !! i = Some (Some v) -> p v = false -> Js.every p a = false.
Proof.
  intros Hi Hp. unfold Js.every.
  apply not_true_is_false. intros Hall.
  rewrite forallb_forall in Hall.
  specialize (Hall (Some v)). cbn in Hall. rewrite Hp in Hall.
  assert (In (Some v) a) as Hin.
  { apply list_elem_of_In. by eapply list_elem_of_lookup_2. }
  by specialize (Hall Hin).
Qed.

Lemma image_regenerated_closes (capturedScenes : list SceneGeneration.Scene)
    (sceneId url : string) (c : SceneGeneration.Client) (i : nat) :
  SceneGeneration.findIndex (SceneGeneration.has_id sceneId) capturedScenes
  = Some i ->
  SceneGeneration.canProceedToFinal
    (SceneGeneration.image_regenerated capturedScenes sceneId url c) = false.
Proof.
  intros Hfind. unfold SceneGeneration.canProceedToFinal.
  apply andb_false_intro2.
  unfold SceneGeneration.image_regenerated. rewrite Hfind.
  cbn [SceneGeneration.on_story SceneGeneration.on_local SceneGeneration.story
       StoryContext.setVideos StoryContext.setSceneImages StoryContext.videos].
  by apply (every_false _ _ i (Js.str "")); [apply set_lookup_eq|].
Qed.

(** X7. A regenerated image closes the gate of the final step: once
    [retryImage] or [generateSingleImage] has stored the new image, the
    scene has lost its video in the context, so [canProceedToFinal] is
    false, whatever the other scenes hold and whatever happened while the
    image job ran. *)
Theorem regenerated_image_closes_gate
    (capturedScenes : list SceneGeneration.Scene) (sceneId url : string)
    (between : SceneGeneration.Client -> SceneGeneration.Client)
    (c : SceneGeneration.Client) (i : nat) :
  SceneGeneration.findIndex (SceneGeneration.has_id sceneId) capturedScenes
  = Some i ->
  SceneGeneration.canProceedToFinal
    (SceneGeneration.retryImage capturedScenes sceneId (inr url) between c)
  = false
  /\ SceneGeneration.canProceedToFinal
       (SceneGeneration.generateSingleImage capturedScenes sceneId (inr url)
          between c)
     = false
  /\ SceneGeneration.clickNext
       (SceneGeneration.retryImage capturedScenes sceneId (inr url) between c)
     = None.
Proof.
  intros Hfind.
  unfold SceneGeneration.clickNext, SceneGeneration.nextButton_disabled,
    SceneGeneration.retryImage, SceneGeneration.generateSingleImage,
    SceneGeneration.found.
  rewrite Hfind.
  rewrite !(image_regenerated_closes _ _ _ _ i Hfind). done.
Qed.

Lemma regenerated_image_closes_gate_witness :
  SceneGeneration.canProceedToFinal
    (SceneGeneration.retryImage
       (SceneGeneration.scenes (SceneGeneration.local Example.five_complete))
       "2" (inr "new.png") Example.undisturbed Example.five_complete)
  = false
  /\ SceneGeneration.canProceedToFinal
       (SceneGeneration.generateSingleImage
          (SceneGeneration.scenes
             (SceneGeneration.local Example.five_complete))
          "2" (inr "new.png") Example.undisturbed Example.five_complete)
     = false
  /\ SceneGeneration.clickNext
       (SceneGeneration.retryImage
          (SceneGeneration.scenes
             (SceneGeneration.local Example.five_complete))
          "2" (inr "new.png") Example.undisturbed Example.five_complete)
     = None.
Proof.
  apply (regenerated_image_closes_gate
           (SceneGeneration.scenes
              (SceneGeneration.local Example.five_complete))
           "2" "new.png" Example.undisturbed Example.five_complete 1).
  reflexivity.
Defined.

Lemma forallb_imap {A B : Type} (p : B -> bool) (f : nat -> A -> B)
    (l : list A) :
  forallb p (imap f l) = true
  <-> forall i x, l !! i = Some x -> p (f i x) = true.
Proof.
  revert f. induction l as [|y l IH]; intros f; cbn [imap forallb].
  - split; [intros _ i x Hx; done|done].
  - rewrite andb_true_iff, IH. split.
    + intros [Hy Hl] [|i] x Hx.
      * by injection Hx as <-.
      * by apply (Hl i x).
    + intros Hall. split; [by apply (Hall 0 y)|].
      intros i x Hx. by apply (Hall (S i) x).
Qed.

Lemma truthy_or_null (v : Js.value) :
  negb (Js.strict_eq (Js.or_ v Js.null) Js.null)
  && SceneGeneration.is_ready
       (if Js.truthy v then SceneGeneration.ready else SceneGeneration.idle)
  = Js.truthy v.
Proof.
  unfold Js.or_. destruct (Js.truthy v) eqn:Hv; [|done].
  destruct v as [| |s]; try discriminate Hv. done.
Qed.

Lemma every_truthy_get (a : Js.array) :
  (forall i, i < length a -> Js.truthy (Js.get a i) = true) ->
  Js.every Js.truthy a = true.
Proof.
  intros Hall. unfold Js.every. apply forallb_forall. intros slot Hin.
  apply list_elem_of_In, list_elem_of_lookup in Hin as [i Hi].
  specialize (Hall i (lookup_lt_Some _ _ _ Hi)).
  unfold Js.get in Hall. rewrite Hi in Hall. by destruct slot.
Qed.

Lemma every_truthy_resized (n : nat) (a : Js.array) :
  Js.every Js.truthy (SceneGeneration.resized n a) = true
  <-> forall i, i < n -> Js.truthy (Js.get a i) = true.
Proof.
  split.
  - intros Hall i Hi.
    pose proof (resized_lookup n a i Hi) as Hlookup.
    destruct (Js.truthy (Js.get a i)) eqn:Hget; [done|].
    rewrite (every_false _ _ i _ Hlookup) in Hall; [done|].
    unfold Js.or_. by rewrite Hget.
  - intros Hall. apply every_truthy_get. rewrite resized_length.
    intros i Hi. rewrite (get_lookup _ _ _ (resized_lookup n a i Hi)).
    unfold Js.or_. by rewrite (Hall i Hi), (Hall i Hi).
Qed.

(** The gate after the effect keyed on the number of scenes has run on its
    own on a story, in an editor just rendered. *)
Lemma mountEffect_may_proceed_iff (s : StoryContext.Story) :
  SceneGeneration.canProceedToFinal
    (fst (SceneGeneration.mountEffect
            {| SceneGeneration.story := s;
               SceneGeneration.local := SceneGeneration.initial |}))
  = true
  <-> StoryContext.scenes s <> []
      /\ (forall i, i < length (StoryContext.scenes s) ->
                    Js.truthy (Js.get (StoryContext.videos s) i) = true)
      /\ Forall (fun line => Js.truthy (StoryContext.narration_url line) = true)
           (StoryContext.scenes s).
Proof.
  unfold SceneGeneration.mountEffect.
  cbn [SceneGeneration.story SceneGeneration.local SceneGeneration.initial
       SceneGeneration.hasGeneratedRef negb andb].
  destruct (StoryContext.scenes s) as [|line0 rest] eqn:Hscenes.
  { cbn [length Nat.eqb negb andb].
    split; [|by intros [? _]].
    destruct (negb _); cbn; intros ?; discriminate. }
  rewrite <- Hscenes.
  assert (Hn : Nat.eqb (length (StoryContext.scenes s)) 0 = false).
  { by rewrite Hscenes. }
  rewrite Hn. cbn [negb andb fst].
  unfold SceneGeneration.canProceedToFinal,
    SceneGeneration.allVideosReady, SceneGeneration.allNarrationsReady.
  cbn [SceneGeneration.story SceneGeneration.local SceneGeneration.scenes
       StoryContext.setSceneImages StoryContext.setVideos StoryContext.videos].
  rewrite length_imap, Hn. cbn [negb andb].
  rewrite !andb_true_iff, !forallb_imap.
  set (n := length (StoryContext.scenes s)) in *.
  assert (Hvid :
    (forall i x, StoryContext.scenes s !! i = Some x ->
       negb (Js.strict_eq
               (SceneGeneration.videoUrl (SceneGeneration.mappedScene s i x))
               Js.null)
       && SceneGeneration.is_ready
            (SceneGeneration.videoStatus (SceneGeneration.mappedScene s i x))
       = true)
    <-> (forall i, i < n -> Js.truthy (Js.get (StoryContext.videos s) i) = true)).
  { split.
    - intros Hall i Hi.
      destruct (lookup_lt_is_Some_2 (StoryContext.scenes s) i Hi) as [x Hx].
      specialize (Hall i x Hx).
      cbn [SceneGeneration.mappedScene SceneGeneration.videoUrl
           SceneGeneration.videoStatus] in Hall.
      by rewrite truthy_or_null in Hall.
    - intros Hall i x Hx.
      cbn [SceneGeneration.mappedScene SceneGeneration.videoUrl
           SceneGeneration.videoStatus].
      rewrite truthy_or_null. apply Hall. by eapply lookup_lt_Some. }
  assert (Hnar :
    (forall i x, StoryContext.scenes s !! i = Some x ->
       negb (Js.strict_eq
               (SceneGeneration.narrationUrl
                  (SceneGeneration.mappedScene s i x)) Js.null)
       && SceneGeneration.is_ready
            (SceneGeneration.narrationStatus
               (SceneGeneration.mappedScene s i x))
       = true)
    <-> Forall (fun line => Js.truthy (StoryContext.narration_url line) = true)
          (StoryContext.scenes s)).
  { rewrite Forall_lookup. split.
    - intros Hall i x Hx. specialize (Hall i x Hx).
      cbn [SceneGeneration.mappedScene SceneGeneration.narrationUrl
           SceneGeneration.narrationStatus] in Hall.
      by rewrite truthy_or_null in Hall.
    - intros Hall i x Hx.
      cbn [SceneGeneration.mappedScene SceneGeneration.narrationUrl
           SceneGeneration.narrationStatus].
      rewrite truthy_or_null. by apply (Hall i x). }
  rewrite Hvid, Hnar.
  split.
  - intros [[[Hv Hna] _] _]. split; [by rewrite Hscenes|]. done.
  - intros (_ & Hv & Hna). repeat split; try done.
    + destruct (Nat.eqb (length (StoryContext.videos s)) n) eqn:Hlen;
        cbn [negb].
      * apply Nat.eqb_eq in Hlen. rewrite Hlen. by rewrite Hn.
      * by rewrite resized_length, Hn.
    + destruct (Nat.eqb (length (StoryContext.videos s)) n) eqn:Hlen;
        cbn [negb].
      * apply Nat.eqb_eq in Hlen. apply every_truthy_get.
        rewrite Hlen. done.
      * by apply every_truthy_resized.
Qed.

(** The gate reads the scenes of the editor and the videos of the context,
    and nothing else. *)
Lemma canProceedToFinal_reads (c c' : SceneGeneration.Client) :
  SceneGeneration.scenes (SceneGeneration.local c)
  = SceneGeneration.scenes (SceneGeneration.local c') ->
  StoryContext.videos (SceneGeneration.story c)
  = StoryContext.videos (SceneGeneration.story c') ->
  SceneGeneration.canProceedToFinal c = SceneGeneration.canProceedToFinal c'.
Proof.
  intros Hscenes Hvideos. unfold SceneGeneration.canProceedToFinal.
  by rewrite Hscenes, Hvideos.
Qed.

(** X8. The gate of the final step on a resumed story. After the commit in
    which the editor is mounted on a story whose recorded signature asks
    for no invalidation, it may proceed to the final step exactly when the
    story has scenes, every scene has a stored narration, and the videos of
    the context hold a non-empty URL at the index of every scene. Nothing
    else is asked for: neither the scene images nor the prompts are looked
    at. *)
Theorem resumed_story_may_proceed_iff (s : StoryContext.Story) :
  SceneGeneration.signature_settled s ->
  SceneGeneration.canProceedToFinal
    (fst (SceneGeneration.mountCommit
            {| SceneGeneration.story := s;
               SceneGeneration.local := SceneGeneration.initial |}))
  = true
  <-> StoryContext.scenes s <> []
      /\ (forall i, i < length (StoryContext.scenes s) ->
                    Js.truthy (Js.get (StoryContext.videos s) i) = true)
      /\ Forall (fun line => Js.truthy (StoryContext.narration_url line) = true)
           (StoryContext.scenes s).
Proof.
  intros Hsettled.
  destruct (mountCommit_settled
              {| SceneGeneration.story := s;
                 SceneGeneration.local := SceneGeneration.initial |} Hsettled)
    as (_ & Hlocal & _ & Hvideos & _).
  rewrite (canProceedToFinal_reads _
             (fst (SceneGeneration.mountEffect
                     {| SceneGeneration.story := s;
                        SceneGeneration.local := SceneGeneration.initial |})))
    by (by rewrite ?Hlocal, ?Hvideos).
  apply mountEffect_may_proceed_iff.
Qed.

Lemma resumed_story_may_proceed_iff_witness :
  SceneGeneration.canProceedToFinal
    (fst (SceneGeneration.mountCommit
            {| SceneGeneration.story := Example.stored_complete;
               SceneGeneration.local := SceneGeneration.initial |}))
  = true
  <-> StoryContext.scenes Example.stored_complete <> []
      /\ (forall i, i < length (StoryContext.scenes Example.stored_complete) ->
                    Js.truthy
                      (Js.get (StoryContext.videos Example.stored_complete) i)
                    = true)
      /\ Forall (fun line => Js.truthy (StoryContext.narration_url line) = true)
           (StoryContext.scenes Example.stored_complete).
Proof.
  apply (resumed_story_may_proceed_iff Example.stored_complete).
  right. reflexivity.
Defined.

(** The witness evaluated: the gate is open on the complete story, and
    closed on the story that lacks two narrations. *)
Example stored_complete_may_proceed :
  SceneGeneration.canProceedToFinal
    (fst (SceneGeneration.mountCommit
            {| SceneGeneration.story := Example.stored_complete;
               SceneGeneration.local := SceneGeneration.initial |}))
  = true
  /\ SceneGeneration.canProceedToFinal
       (fst (SceneGeneration.mountCommit
               {| SceneGeneration.story :=
                    SceneGeneration.story Example.five_complete;
                  SceneGeneration.local := SceneGeneration.initial |}))
     = false.
Proof. split; vm_compute; reflexivity. Qed.

(** X25. The commit of the mount on a story whose recorded signature is
    stale. The signature effect clears the generated content of the context
    and queues the reset of the editor; the effect keyed on the number of
    scenes, which runs next in the same commit, still reads the story of
    the render, so it takes the branch that loads stored scenes. After the
    commit the context has no scenes and no title and records the signature
    of the current inputs, while the editor shows the scenes of the story
    that was cleared; a sibling array is empty when it had the length of
    the scenes, and is written again, brought to that length, when it had
    not. No script is asked for, neither in this commit nor when the two
    effects run again on the state it leaves. *)
Theorem stale_signature_mount_keeps_editor_scenes
    (c : SceneGeneration.Client) :
  StoryContext.scenes (SceneGeneration.story c) <> [] ->
  SceneGeneration.hasGeneratedRef (SceneGeneration.local c) = false ->
  StoryContext.storySignature (SceneGeneration.story c) <> "" ->
  StoryContext.storySignature (SceneGeneration.story c)
  <> SceneGeneration.currentSignature
       (StoryContext.inputs (SceneGeneration.story c)) ->
  let before := SceneGeneration.story c in
  let after := fst (SceneGeneration.mountCommit c) in
  let n := length (StoryContext.scenes before) in
  snd (SceneGeneration.mountCommit c) = false
  /\ StoryContext.scenes (SceneGeneration.story after) = []
  /\ StoryContext.storyTitle (SceneGeneration.story after) = ""
  /\ StoryContext.storySignature (SceneGeneration.story after)
     = SceneGeneration.currentSignature (StoryContext.inputs before)
  /\ SceneGeneration.scenes (SceneGeneration.local after)
     = imap (SceneGeneration.mappedScene before) (StoryContext.scenes before)
  /\ StoryContext.videos (SceneGeneration.story after)
     = (if Nat.eqb (length (StoryContext.videos before)) n then []
        else SceneGeneration.resized n (StoryContext.videos before))
  /\ StoryContext.sceneImages (SceneGeneration.story after)
     = (if Nat.eqb (length (StoryContext.sceneImages before)) n then []
        else SceneGeneration.resized n (StoryContext.sceneImages before))
  /\ SceneGeneration.signatureEffect after = (after, false)
  /\ SceneGeneration.mountEffect after = (after, false).
Proof.
  intros Hscenes Href Hrec Hne. cbv zeta.
  unfold SceneGeneration.mountCommit.
  rewrite (signatureEffect_changed c Hrec Hne). cbn [fst].
  unfold SceneGeneration.mountEffect_after.
  cbn [SceneGeneration.local SceneGeneration.reset_local
       SceneGeneration.hasGeneratedRef negb andb].
  destruct (StoryContext.scenes (SceneGeneration.story c))
    as [|line rest] eqn:Hsc; [done|].
  rewrite <- Hsc.
  assert (Hn : Nat.eqb (length (StoryContext.scenes (SceneGeneration.story c))) 0
               = false) by (by rewrite Hsc).
  rewrite Hn. cbn [negb andb fst snd SceneGeneration.story SceneGeneration.local
                   SceneGeneration.scenes].
  split; [reflexivity|]. split; [reflexivity|]. split; [reflexivity|].
  split; [reflexivity|]. split; [reflexivity|].
  split; [|split; [|split]].
  - cbn [StoryContext.videos StoryContext.setSceneImages
         StoryContext.setVideos].
    destruct (Nat.eqb (length (StoryContext.videos _)) _); reflexivity.
  - cbn [StoryContext.sceneImages StoryContext.setSceneImages].
    destruct (Nat.eqb (length (StoryContext.sceneImages _)) _); reflexivity.
  - apply signatureEffect_equal. reflexivity.
  - reflexivity.
Qed.

Lemma stale_signature_mount_keeps_editor_scenes_witness :
  let before := SceneGeneration.story Example.restyled in
  let after := fst (SceneGeneration.mountCommit Example.restyled) in
  let n := length (StoryContext.scenes before) in
  snd (SceneGeneration.mountCommit Example.restyled) = false
  /\ StoryContext.scenes (SceneGeneration.story after) = []
  /\ StoryContext.storyTitle (SceneGeneration.story after) = ""
  /\ StoryContext.storySignature (SceneGeneration.story after)
     = SceneGeneration.currentSignature (StoryContext.inputs before)
  /\ SceneGeneration.scenes (SceneGeneration.local after)
     = imap (SceneGeneration.mappedScene before) (StoryContext.scenes before)
  /\ StoryContext.videos (SceneGeneration.story after)
     = (if Nat.eqb (length (StoryContext.videos before)) n then []
        else SceneGeneration.resized n (StoryContext.videos before))
  /\ StoryContext.sceneImages (SceneGeneration.story after)
     = (if Nat.eqb (length (StoryContext.sceneImages before)) n then []
        else SceneGeneration.resized n (StoryContext.sceneImages before))
  /\ SceneGeneration.signatureEffect after = (after, false)
  /\ SceneGeneration.mountEffect after = (after, false).
Proof.
  apply (stale_signature_mount_keeps_editor_scenes Example.restyled).
  - discriminate.
  - reflexivity.
  - discriminate.
  - vm_compute. discriminate.
Defined.

(** The witness evaluated: after the change of style the context holds
    neither scenes nor videos, and the editor still shows five scenes, the
    first with its old video. *)
Example restyled_mount_shows_old_scenes :
  StoryContext.videos
    (SceneGeneration.story (fst (SceneGeneration.mountCommit Example.restyled)))
  = []
  /\ length
       (SceneGeneration.scenes
          (SceneGeneration.local
             (fst (SceneGeneration.mountCommit Example.restyled))))
     = 5
  /\ (SceneGeneration.videoUrl <$>
      SceneGeneration.scenes
        (SceneGeneration.local
           (fst (SceneGeneration.mountCommit Example.restyled))) !! 0)
     = Some (Js.str "v1.mp4").
Proof. repeat split; vm_compute; reflexivity. Qed.

(** ** The batch of videos *)

Lemma filter_nil_length {A : Type} (p : A -> bool) (l : list A) :
  (forall x, In x l -> p x = false) -> List.filter p l = [].
Proof.
  induction l as [|x l IH]; intros Hall; [done|].
  cbn [List.filter]. rewrite (Hall x) by (by left).
  apply IH. intros y Hy. apply Hall. by right.
Qed.

(** X9. The batch of videos is started once: after [generateAllVideos] has
    marked the scenes it submits, no scene is left with an image and an
    idle video, so that the button of the batch is no longer rendered and a
    second call, made from the render that follows, changes nothing. *)
Theorem videos_batch_is_started_once (c : SceneGeneration.Client) :
  SceneGeneration.generateAllVideos_started
    (SceneGeneration.scenes
       (SceneGeneration.local
          (SceneGeneration.generateAllVideos_started
             (SceneGeneration.scenes (SceneGeneration.local c)) c)))
    (SceneGeneration.generateAllVideos_started
       (SceneGeneration.scenes (SceneGeneration.local c)) c)
  = SceneGeneration.generateAllVideos_started
      (SceneGeneration.scenes (SceneGeneration.local c)) c
  /\ (SceneGeneration.generateAllVideos_started
        (SceneGeneration.scenes (SceneGeneration.local c)) c = c
      \/ SceneGeneration.hasVideosToGenerate
           (SceneGeneration.scenes
              (SceneGeneration.local
                 (SceneGeneration.generateAllVideos_started
                    (SceneGeneration.scenes (SceneGeneration.local c)) c)))
         = false).
Proof.
  set (c' := SceneGeneration.generateAllVideos_started
               (SceneGeneration.scenes (SceneGeneration.local c)) c).
  assert (Hcases :
    c' = c
    \/ forall x, In x (SceneGeneration.scenes (SceneGeneration.local c')) ->
         Js.truthy (SceneGeneration.imageUrl x)
         && SceneGeneration.is_idle (SceneGeneration.videoStatus x) = false).
  { subst c'. unfold SceneGeneration.generateAllVideos_started.
    destruct (Nat.eqb _ 0); [by left|].
    destruct (negb _); [by left|]. right.
    cbn [SceneGeneration.on_local SceneGeneration.local
         SceneGeneration.setScenes SceneGeneration.scenes].
    intros x Hin. apply in_map_iff in Hin as (y & <- & _).
    destruct (Js.truthy (SceneGeneration.imageUrl y)
              && SceneGeneration.is_idle (SceneGeneration.videoStatus y))
      eqn:Hy; [|done].
    cbn. by rewrite andb_false_r. }
  destruct Hcases as [Hsame|Hnot].
  - split; [|by left]. rewrite Hsame. exact Hsame.
  - split.
    + unfold SceneGeneration.generateAllVideos_started,
        SceneGeneration.scenesWithImages.
      by rewrite (filter_nil_length _ _ Hnot).
    + right. unfold SceneGeneration.hasVideosToGenerate.
      apply not_true_is_false. intros Hex.
      apply existsb_exists in Hex as (x & Hin & Hx).
      cbv beta in Hx. rewrite (Hnot x Hin) in Hx. done.
Qed.

(** ** The narration of one scene *)

Lemma findIndex_found {A : Type} (p : A -> bool) (l : list A) (i : nat) :
  SceneGeneration.findIndex p l = Some i -> SceneGeneration.found p l = true.
Proof. unfold SceneGeneration.found. by intros ->. Qed.

Lemma narration_received_stores (captured : StoryContext.Story)
    (capturedScenes : list SceneGeneration.Scene) (sceneId : string)
    (response : SceneGeneration.NarrationResponse)
    (c : SceneGeneration.Client) (i : nat) (line : StoryContext.SceneLine) :
  SceneGeneration.findIndex (SceneGeneration.has_id sceneId) capturedScenes
  = Some i ->
  StoryContext.scenes captured !! i = Some line ->
  exists c',
    SceneGeneration.narration_received captured capturedScenes sceneId
      response c = Some c'
    /\ StoryContext.scenes (SceneGeneration.story c')
       = <[i := SceneGeneration.narrated response line]>
           (StoryContext.scenes captured)
    /\ StoryContext.finalVideoUrl (SceneGeneration.story c') = ""
    /\ StoryContext.videos (SceneGeneration.story c')
       = StoryContext.videos (SceneGeneration.story c)
    /\ StoryContext.sceneImages (SceneGeneration.story c')
       = StoryContext.sceneImages (SceneGeneration.story c).
Proof.
  intros Hfind Hline.
  unfold SceneGeneration.narration_received, SceneGeneration.updatedScenes.
  rewrite Hfind, Hline. cbn [mbind option_bind].
  eexists. split; [done|]. done.
Qed.

(** X10. The narration of one scene is written to the context from the
    story of the render in which the function was called, not from the
    latest one: when [generateSingleNarration] or [retryNarration] has its
    answer, the scenes of the context are the captured scenes with the
    narration fields of the answer at the index of the scene, whatever was
    stored in the scenes of the context while the job ran (the narration of
    another scene, an edited script); the final video is cleared, and the
    videos and scene images are as they were when the job answered. *)
Theorem narration_is_stored_in_captured_scenes
    (captured : StoryContext.Story)
    (capturedScenes : list SceneGeneration.Scene) (sceneId : string)
    (response : SceneGeneration.NarrationResponse)
    (between : SceneGeneration.Client -> SceneGeneration.Client)
    (c : SceneGeneration.Client) (i : nat) (line : StoryContext.SceneLine) :
  SceneGeneration.findIndex (SceneGeneration.has_id sceneId) capturedScenes
  = Some i ->
  StoryContext.scenes captured !! i = Some line ->
  exists first again,
    SceneGeneration.generateSingleNarration captured capturedScenes sceneId
      (inr response) between c = Some first
    /\ SceneGeneration.retryNarration captured capturedScenes sceneId
         (inr response) between c = Some again
    /\ StoryContext.scenes (SceneGeneration.story first)
       = <[i := SceneGeneration.narrated response line]>
           (StoryContext.scenes captured)
    /\ StoryContext.scenes (SceneGeneration.story again)
       = <[i := SceneGeneration.narrated response line]>
           (StoryContext.scenes captured)
    /\ StoryContext.finalVideoUrl (SceneGeneration.story first) = ""
    /\ StoryContext.finalVideoUrl (SceneGeneration.story again) = "".
Proof.
  intros Hfind Hline.
  unfold SceneGeneration.generateSingleNarration,
    SceneGeneration.retryNarration.
  rewrite (findIndex_found _ _ _ Hfind).
  edestruct (narration_received_stores captured capturedScenes sceneId
               response) as (first & -> & Hs1 & Hf1 & _); [done..|].
  edestruct (narration_received_stores captured capturedScenes sceneId
               response) as (again & -> & Hs2 & Hf2 & _); [done..|].
  by exists first, again.
Qed.

Lemma narration_is_stored_in_captured_scenes_witness :
  exists first again,
    SceneGeneration.generateSingleNarration
      (SceneGeneration.story Example.five_complete)
      (SceneGeneration.scenes (SceneGeneration.local Example.five_complete))
      "3" (inr Example.narration_three) Example.fourth_narrated
      Example.five_complete = Some first
    /\ SceneGeneration.retryNarration
         (SceneGeneration.story Example.five_complete)
         (SceneGeneration.scenes (SceneGeneration.local Example.five_complete))
         "3" (inr Example.narration_three) Example.fourth_narrated
         Example.five_complete = Some again
    /\ StoryContext.scenes (SceneGeneration.story first)
       = <[2 := SceneGeneration.narrated Example.narration_three
                  (Example.line 3 Js.null)]>
           (StoryContext.scenes (SceneGeneration.story Example.five_complete))
    /\ StoryContext.scenes (SceneGeneration.story again)
       = <[2 := SceneGeneration.narrated Example.narration_three
                  (Example.line 3 Js.null)]>
           (StoryContext.scenes (SceneGeneration.story Example.five_complete))
    /\ StoryContext.finalVideoUrl (SceneGeneration.story first) = ""
    /\ StoryContext.finalVideoUrl (SceneGeneration.story again) = "".
Proof.
  apply (narration_is_stored_in_captured_scenes
           (SceneGeneration.story Example.five_complete)
           (SceneGeneration.scenes
              (SceneGeneration.local Example.five_complete))
           "3" Example.narration_three Example.fourth_narrated
           Example.five_complete 2 (Example.line 3 Js.null)); reflexivity.
Defined.

(** The witness evaluated. The narration of the fourth scene arrives while
    that of the third is being generated; both were asked for in the same
    render. When the third arrives, the context has lost the narration of
    the fourth, which the editor still shows. *)
Example third_narration_erases_fourth :
  (SceneGeneration.generateSingleNarration
     (SceneGeneration.story Example.five_complete)
     (SceneGeneration.scenes (SceneGeneration.local Example.five_complete))
     "3" (inr Example.narration_three) Example.fourth_narrated
     Example.five_complete
   ≫= fun c => StoryContext.scenes (SceneGeneration.story c) !! 3)
  = Some (Example.line 4 Js.undefined)
  /\ StoryContext.scenes
       (SceneGeneration.story
          (Example.fourth_narrated Example.five_complete)) !! 3
     = Some (SceneGeneration.narrated Example.narration_four
               (Example.line 4 Js.undefined)).
Proof. split; reflexivity. Qed.

(** X11. A script edit stores the new text in the context at once, and the
    narration of the new text only when it arrives. When the narration
    fails and nothing else writes the context meanwhile, the context is
    left with the new text next to the narration of the old text, and the
    final video is kept; on the next mount the editor shows that scene as
    narrated whenever the old text was. When the narration arrives, the
    scenes of the context are the captured scenes with the new text and the
    new narration at the index of the scene, and the final video is
    cleared. *)
Theorem edited_script_keeps_old_narration_on_failure
    (captured : StoryContext.Story)
    (capturedScenes : list SceneGeneration.Scene)
    (sceneId editedText : string) (e : Api.JsError)
    (response : SceneGeneration.NarrationResponse)
    (between : SceneGeneration.Client -> SceneGeneration.Client)
    (c : SceneGeneration.Client) (i : nat) (line : StoryContext.SceneLine) :
  SceneGeneration.findIndex (SceneGeneration.has_id sceneId) capturedScenes
  = Some i ->
  StoryContext.scenes captured !! i = Some line ->
  (forall x, SceneGeneration.story (between x) = SceneGeneration.story x) ->
  exists failed succeeded,
    SceneGeneration.handleSaveScript captured capturedScenes sceneId
      editedText (inl e) between c = Some failed
    /\ SceneGeneration.handleSaveScript captured capturedScenes sceneId
         editedText (inr response) between c = Some succeeded
    /\ StoryContext.scenes (SceneGeneration.story failed)
       = <[i := SceneGeneration.with_script_text editedText line]>
           (StoryContext.scenes captured)
    /\ StoryContext.finalVideoUrl (SceneGeneration.story failed)
       = StoryContext.finalVideoUrl (SceneGeneration.story c)
    /\ SceneGeneration.narrationStatus
         (SceneGeneration.mappedScene (SceneGeneration.story failed) i
            (SceneGeneration.with_script_text editedText line))
       = (if Js.truthy (StoryContext.narration_url line)
          then SceneGeneration.ready else SceneGeneration.idle)
    /\ StoryContext.scenes (SceneGeneration.story succeeded)
       = <[i := SceneGeneration.narrated response
                  (SceneGeneration.with_script_text editedText line)]>
           (StoryContext.scenes captured)
    /\ StoryContext.finalVideoUrl (SceneGeneration.story succeeded) = "".
Proof.
  intros Hfind Hline Hbetween.
  unfold SceneGeneration.handleSaveScript, SceneGeneration.updatedScenes.
  rewrite Hfind, Hline. cbn [mbind option_bind].
  eexists _, _. split; [done|]. split; [done|].
  unfold SceneGeneration.narration_failed.
  cbn [SceneGeneration.on_story SceneGeneration.on_local SceneGeneration.story
       StoryContext.setScenes StoryContext.setFinalVideoUrl
       StoryContext.scenes StoryContext.finalVideoUrl].
  rewrite Hbetween.
  cbn [SceneGeneration.on_story SceneGeneration.on_local SceneGeneration.story
       StoryContext.setScenes StoryContext.scenes StoryContext.finalVideoUrl].
  done.
Qed.

Lemma edited_script_keeps_old_narration_on_failure_witness :
  exists failed succeeded,
    SceneGeneration.handleSaveScript
      (SceneGeneration.story Example.five_complete)
      (SceneGeneration.scenes (SceneGeneration.local Example.five_complete))
      "1" "Long, long ago" (inl (Api.Error_ "Failed to generate narration: "))
      Example.undisturbed Example.five_complete = Some failed
    /\ SceneGeneration.handleSaveScript
         (SceneGeneration.story Example.five_complete)
         (SceneGeneration.scenes (SceneGeneration.local Example.five_complete))
         "1" "Long, long ago" (inr Example.narration_three)
         Example.undisturbed Example.five_complete = Some succeeded
    /\ StoryContext.scenes (SceneGeneration.story failed)
       = <[0 := SceneGeneration.with_script_text "Long, long ago"
                  (Example.line 1 (Js.str "n1.mp3"))]>
           (StoryContext.scenes (SceneGeneration.story Example.five_complete))
    /\ StoryContext.finalVideoUrl (SceneGeneration.story failed)
       = StoryContext.finalVideoUrl
           (SceneGeneration.story Example.five_complete)
    /\ SceneGeneration.narrationStatus
         (SceneGeneration.mappedScene (SceneGeneration.story failed) 0
            (SceneGeneration.with_script_text "Long, long ago"
               (Example.line 1 (Js.str "n1.mp3"))))
       = (if Js.truthy
               (StoryContext.narration_url (Example.line 1 (Js.str "n1.mp3")))
          then SceneGeneration.ready else SceneGeneration.idle)
    /\ StoryContext.scenes (SceneGeneration.story succeeded)
       = <[0 := SceneGeneration.narrated Example.narration_three
                  (SceneGeneration.with_script_text "Long, long ago"
                     (Example.line 1 (Js.str "n1.mp3")))]>
           (StoryContext.scenes (SceneGeneration.story Example.five_complete))
    /\ StoryContext.finalVideoUrl (SceneGeneration.story succeeded) = "".
Proof.
  apply (edited_script_keeps_old_narration_on_failure
           (SceneGeneration.story Example.five_complete)
           (SceneGeneration.scenes
              (SceneGeneration.local Example.five_complete))
           "1" "Long, long ago" (Api.Error_ "Failed to generate narration: ")
           Example.narration_three Example.undisturbed Example.five_complete
           0 (Example.line 1 (Js.str "n1.mp3"))); reflexivity.
Defined.

(** ** Loading a project *)

Lemma insert_scene_perm (s : Provider.ProjectScene)
    (l : list Provider.ProjectScene) :
  Provider.insert_scene s l ≡ₚ s :: l.
Proof.
  induction l as [|t l IH]; [done|]. cbn [Provider.insert_scene].
  destruct (Z.leb _ _); [done|].
  rewrite IH. apply Permutation_swap.
Qed.

Lemma sortedScenes_perm (l : list Provider.ProjectScene) :
  Provider.sortedScenes l ≡ₚ l.
Proof.
  induction l as [|s l IH]; [done|]. cbn [Provider.sortedScenes].
  by rewrite insert_scene_perm, IH.
Qed.

Lemma insert_scene_ascending (s : Provider.ProjectScene)
    (l : list Provider.ProjectScene) :
  Provider.ascending (map Provider.scene_number l) ->
  Provider.ascending (map Provider.scene_number (Provider.insert_scene s l)).
Proof.
  induction l as [|t l IH]; [by cbn|].
  cbn [Provider.insert_scene map Provider.ascending]. intros [Ht Hl].
  destruct (Z.leb_spec (Provider.scene_number s) (Provider.scene_number t))
    as [Hle|Hgt]; cbn [map Provider.ascending].
  - repeat split; [|done..]. constructor; [done|].
    eapply Forall_impl; [exact Ht|]. cbn. lia.
  - split; [|by apply IH].
    assert (Hperm :
      map Provider.scene_number (Provider.insert_scene s l)
      ≡ₚ Provider.scene_number s :: map Provider.scene_number l).
    { by rewrite insert_scene_perm. }
    rewrite Hperm. constructor; [lia|done].
Qed.

Lemma sortedScenes_ascending (l : list Provider.ProjectScene) :
  Provider.ascending (map Provider.scene_number (Provider.sortedScenes l)).
Proof.
  induction l as [|s l IH]; [by cbn|]. cbn [Provider.sortedScenes].
  by apply insert_scene_ascending.
Qed.

(** Scenes that are in ascending order already are left as they are. *)
Lemma sortedScenes_ascending_id (l : list Provider.ProjectScene) :
  Provider.ascending (map Provider.scene_number l) ->
  Provider.sortedScenes l = l.
Proof.
  induction l as [|s l IH]; [done|].
  cbn [map Provider.ascending Provider.sortedScenes]. intros [Hs Hl].
  rewrite (IH Hl). destruct l as [|t l]; [done|].
  cbn [Provider.insert_scene].
  apply Forall_cons in Hs as [Hst _].
  apply Z.leb_le in Hst. by rewrite Hst.
Qed.

Lemma loadedScenes_perm (project : Provider.Project) :
  Provider.loadedScenes project ≡ₚ default [] (Provider.scenes project).
Proof.
  unfold Provider.loadedScenes.
  destruct (Provider.scenes project) as [[|s rest]|]; [done| |done].
  apply sortedScenes_perm.
Qed.

Lemma loadedScenes_ascending (project : Provider.Project) :
  Provider.ascending
    (map Provider.scene_number (Provider.loadedScenes project)).
Proof.
  unfold Provider.loadedScenes.
  destruct (Provider.scenes project) as [[|s rest]|]; [by cbn| |by cbn].
  apply sortedScenes_ascending.
Qed.

(** X12. What [loadFromProject] makes of the scenes of a project. They are
    put in ascending order of their scene number, none lost and none
    added, and the scenes, the scene images and the videos of the context
    are read off the scenes in that order: the three have the same length,
    and at every index they come from the same stored scene, an absent or
    empty URL giving the empty string in the two arrays and [null] as the
    narration. *)
Theorem loaded_scenes_are_sorted_and_aligned (project : Provider.Project)
    (r : Provider.Refs) (p : Provider.State) :
  exists sorted,
    sorted ≡ₚ default [] (Provider.scenes project)
    /\ Provider.ascending (map Provider.scene_number sorted)
    /\ length (StoryContext.scenes
                 (Provider.story (snd (Provider.loadFromProject project r p))))
       = length sorted
    /\ length (StoryContext.sceneImages
                 (Provider.story (snd (Provider.loadFromProject project r p))))
       = length sorted
    /\ length (StoryContext.videos
                 (Provider.story (snd (Provider.loadFromProject project r p))))
       = length sorted
    /\ (forall i s, sorted !! i = Some s ->
          StoryContext.scenes
            (Provider.story (snd (Provider.loadFromProject project r p))) !! i
          = Some (Provider.sceneLine s)
          /\ Js.get
               (StoryContext.sceneImages
                  (Provider.story
                     (snd (Provider.loadFromProject project r p)))) i
             = Js.str (Provider.or_string (Provider.image_url s) "")
          /\ Js.get
               (StoryContext.videos
                  (Provider.story
                     (snd (Provider.loadFromProject project r p)))) i
             = Js.str (Provider.or_string (Provider.video_url s) "")).
Proof.
  exists (Provider.loadedScenes project).
  cbn [Provider.loadFromProject snd Provider.story StoryContext.scenes
       StoryContext.sceneImages StoryContext.videos].
  rewrite !length_map.
  split; [apply loadedScenes_perm|].
  split; [apply loadedScenes_ascending|].
  split; [done|]. split; [done|]. split; [done|].
  intros i s Hs. split; [|split].
  - by rewrite lookup_map, Hs.
  - unfold Js.get. by rewrite lookup_map, Hs.
  - unfold Js.get. by rewrite lookup_map, Hs.
Qed.

Lemma changed_same (s : string) : Provider.changed s s = false.
Proof. unfold Provider.changed. by rewrite String.eqb_refl, andb_false_r. Qed.

Lemma changed_true (prev now : string) :
  prev <> "" -> now <> prev -> Provider.changed prev now = true.
Proof.
  intros Hprev Hnow. unfold Provider.changed.
  apply String.eqb_neq in Hprev. apply not_eq_sym, String.eqb_neq in Hnow.
  by rewrite Hprev, Hnow.
Qed.

Lemma watchers_in_sync (loading : bool) (p : Provider.State) :
  Forall (fun w => w (Provider.refs_of loading p) p
                   = (Provider.refs_of loading p, p))
    Provider.watchers.
Proof.
  assert (Hmethod : forall m, Provider.method_eqb m m = true).
  { by intros [[|]|]. }
  unfold Provider.watchers. repeat constructor.
  - unfold Provider.styleWatcher.
    destruct (Provider.suspended _ _); [done|].
    cbn [Provider.refs_of Provider.prevStyleRef].
    by rewrite changed_same.
  - unfold Provider.themesWatcher.
    destruct (Provider.suspended _ _); [done|].
    cbn [Provider.refs_of Provider.prevThemesRef Provider.prevCustomThemeRef].
    by rewrite !String.eqb_refl.
  - unfold Provider.methodWatcher.
    destruct (Provider.suspended _ _); [done|].
    cbn [Provider.refs_of Provider.prevCharacterCreationMethodRef].
    by rewrite Hmethod, andb_false_r.
  - unfold Provider.detailsWatcher.
    destruct (Provider.suspended _ _); [done|].
    cbn [Provider.refs_of Provider.prevCharacterNameRef
         Provider.prevCharacterTypeRef Provider.prevPersonalityRef].
    by rewrite !changed_same.
  - unfold Provider.promptWatcher.
    destruct (Provider.suspended _ _); [done|].
    cbn [Provider.refs_of Provider.prevCharacterPromptRef].
    by rewrite changed_same.
  - unfold Provider.sceneCountWatcher, StoryContext.sceneCountWatcher.
    cbn [StoryContext.isHydrated StoryContext.isLoadingProjectRef
         StoryContext.prevSceneCountRef Provider.refs_of
         Provider.isLoadingProjectRef Provider.prevSceneCountRef].
    destruct (negb (Provider.isHydrated p) || loading).
    + by destruct p.
    + rewrite Nat.eqb_refl, andb_false_r. by destruct p.
Qed.

(** X13. A loaded project is left alone. After [loadFromProject], none of
    the six watchers of the provider changes the state or a ref, whether it
    runs before or after the microtask that lowers the flag of the load and
    whether or not the provider is hydrated; the signature recorded is the
    one the editor computes from the loaded inputs, so that the signature
    effect of the editor clears nothing; and the effect that loads the
    scenes into the editor leaves the story as it was loaded, its arrays
    having the length of the scenes already. *)
Theorem loaded_project_is_left_alone (project : Provider.Project)
    (r : Provider.Refs) (p : Provider.State) (l : SceneGeneration.Local) :
  Forall (fun w =>
            w (fst (Provider.loadFromProject project r p))
              (snd (Provider.loadFromProject project r p))
            = Provider.loadFromProject project r p
            /\ w (Provider.loadingMicrotask
                    (fst (Provider.loadFromProject project r p)))
                 (snd (Provider.loadFromProject project r p))
               = (Provider.loadingMicrotask
                    (fst (Provider.loadFromProject project r p)),
                  snd (Provider.loadFromProject project r p)))
    Provider.watchers
  /\ SceneGeneration.signatureEffect
       {| SceneGeneration.story :=
            Provider.story (snd (Provider.loadFromProject project r p));
          SceneGeneration.local := l |}
     = ({| SceneGeneration.story :=
             Provider.story (snd (Provider.loadFromProject project r p));
           SceneGeneration.local := l |}, false)
  /\ SceneGeneration.story
       (fst (SceneGeneration.mountEffect
               {| SceneGeneration.story :=
                    Provider.story (snd (Provider.loadFromProject project r p));
                  SceneGeneration.local := SceneGeneration.initial |}))
     = Provider.story (snd (Provider.loadFromProject project r p)).
Proof.
  split; [|split].
  - pose proof (watchers_in_sync true
                  (snd (Provider.loadFromProject project r p))) as Hon.
    pose proof (watchers_in_sync false
                  (snd (Provider.loadFromProject project r p))) as Hoff.
    rewrite Forall_forall in Hon, Hoff. apply Forall_forall.
    intros w Hw. split.
    + exact (Hon w Hw).
    + exact (Hoff w Hw).
  - by apply signatureEffect_equal.
  - unfold SceneGeneration.mountEffect.
    cbn [SceneGeneration.story SceneGeneration.local SceneGeneration.initial
         SceneGeneration.hasGeneratedRef Provider.loadFromProject snd
         Provider.story StoryContext.scenes StoryContext.videos
         StoryContext.sceneImages negb andb].
    rewrite !length_map, Nat.eqb_refl. cbn [negb].
    destruct (Nat.eqb (length (Provider.loadedScenes project)) 0);
      cbn [negb andb fst SceneGeneration.story]; [|done].
    by destruct (negb _).
Qed.

(** ** The watchers of the provider *)

(** X24. Hydration clears nothing. The effect keyed on [isHydrated] is
    declared before the watchers, so that it runs first in the render in
    which the provider has become hydrated: it sets every ref to the value
    of its input, and the watchers that follow find nothing changed; before
    the hydration the watchers return at once. Whatever the state and the
    refs, that effect followed by any of the six watchers leaves the state
    as it is; and once the provider is hydrated, the watcher leaves the
    refs as that effect set them. *)
Theorem hydration_clears_nothing (r : Provider.Refs) (p : Provider.State) :
  Forall (fun w =>
            snd (w (Provider.hydrationSync r p) p) = p
            /\ (Provider.isHydrated p = true ->
                fst (w (Provider.hydrationSync r p) p)
                = Provider.refs_of (Provider.isLoadingProjectRef r) p))
    Provider.watchers.
Proof.
  unfold Provider.hydrationSync.
  destruct (Provider.isHydrated p) eqn:Hhydrated.
  - pose proof (watchers_in_sync (Provider.isLoadingProjectRef r) p) as Hsync.
    eapply Forall_impl; [exact Hsync|]. cbv beta.
    intros w Hw. by rewrite Hw.
  - unfold Provider.watchers. repeat constructor; try done.
    + unfold Provider.styleWatcher, Provider.suspended.
      by rewrite Hhydrated.
    + unfold Provider.themesWatcher, Provider.suspended.
      by rewrite Hhydrated.
    + unfold Provider.methodWatcher, Provider.suspended.
      by rewrite Hhydrated.
    + unfold Provider.detailsWatcher, Provider.suspended.
      by rewrite Hhydrated.
    + unfold Provider.promptWatcher, Provider.suspended.
      by rewrite Hhydrated.
    + unfold Provider.sceneCountWatcher, StoryContext.sceneCountWatcher.
      cbn [StoryContext.isHydrated]. rewrite Hhydrated. cbn [negb orb snd].
      by destruct p.
Qed.

Lemma clearCharacter_idem (p : Provider.State) :
  Provider.clearCharacter (Provider.clearCharacter p)
  = Provider.clearCharacter p.
Proof. reflexivity. Qed.

Lemma detailsWatcher_run (r : Provider.Refs) (p : Provider.State) :
  Provider.suspended r p = false ->
  snd (Provider.detailsWatcher r p)
  = (if Provider.changed (Provider.prevCharacterNameRef r)
          (StoryContext.characterName (StoryContext.inputs (Provider.story p)))
        || Provider.changed (Provider.prevCharacterTypeRef r)
             (StoryContext.characterType
                (StoryContext.inputs (Provider.story p)))
        || Provider.changed (Provider.prevPersonalityRef r)
             (StoryContext.personality
                (StoryContext.inputs (Provider.story p)))
     then Provider.clearCharacter p else p).
Proof.
  intros Hrun. unfold Provider.detailsWatcher. rewrite Hrun. cbv zeta.
  cbn [snd].
  destruct (Provider.changed (Provider.prevCharacterNameRef r) _),
    (Provider.changed (Provider.prevCharacterTypeRef r) _),
    (Provider.changed (Provider.prevPersonalityRef r) _);
    cbn [orb]; rewrite ?clearCharacter_idem; reflexivity.
Qed.

(** X14. A change of the character's name, type or personality takes the
    story away in two steps. The watcher of the three details only takes
    the character away (options, image, prompt, selection) and leaves the
    story; since that empties the character prompt, the watcher of the
    prompt, which runs in the render that follows, clears the generated
    content. Afterwards the refs hold the new values, so that neither
    watcher acts again. *)
Theorem changed_details_clear_story_in_two_rounds (p : Provider.State)
    (name type personality : string) :
  Provider.isHydrated p = true ->
  StoryContext.characterPrompt (StoryContext.inputs (Provider.story p)) <> "" ->
  (StoryContext.characterName (StoryContext.inputs (Provider.story p)) <> ""
   /\ name
      <> StoryContext.characterName (StoryContext.inputs (Provider.story p)))
  \/ (StoryContext.characterType (StoryContext.inputs (Provider.story p)) <> ""
      /\ type
         <> StoryContext.characterType
              (StoryContext.inputs (Provider.story p)))
  \/ (StoryContext.personality (StoryContext.inputs (Provider.story p)) <> ""
      /\ personality
         <> StoryContext.personality
              (StoryContext.inputs (Provider.story p))) ->
  exists r1 p1 r2 p2,
    Provider.detailsWatcher (Provider.refs_of false p)
      (Provider.setPersonality personality
         (Provider.setCharacterType type (Provider.setCharacterName name p)))
    = (r1, p1)
    /\ Provider.promptWatcher r1 p1 = (r2, p2)
    /\ p1 = Provider.clearCharacter
              (Provider.setPersonality personality
                 (Provider.setCharacterType type
                    (Provider.setCharacterName name p)))
    /\ p2 = Provider.clearGeneratedContent p1
    /\ r2 = Provider.refs_of false p2
    /\ Provider.detailsWatcher r2 p2 = (r2, p2)
    /\ Provider.promptWatcher r2 p2 = (r2, p2).
Proof.
  intros Hhydrated Hprompt Hchanged.
  set (q := Provider.setPersonality personality
              (Provider.setCharacterType type
                 (Provider.setCharacterName name p))).
  assert (Hrun : Provider.suspended (Provider.refs_of false p) q = false).
  { unfold Provider.suspended. cbn. by rewrite Hhydrated. }
  assert (Hany :
    Provider.changed (Provider.prevCharacterNameRef (Provider.refs_of false p))
      (StoryContext.characterName (StoryContext.inputs (Provider.story q)))
    || Provider.changed
         (Provider.prevCharacterTypeRef (Provider.refs_of false p))
         (StoryContext.characterType (StoryContext.inputs (Provider.story q)))
    || Provider.changed
         (Provider.prevPersonalityRef (Provider.refs_of false p))
         (StoryContext.personality (StoryContext.inputs (Provider.story q)))
    = true).
  { cbn [Provider.refs_of Provider.prevCharacterNameRef
         Provider.prevCharacterTypeRef Provider.prevPersonalityRef].
    subst q. cbn [Provider.setPersonality Provider.setCharacterType
      Provider.setCharacterName Provider.on_story Provider.on_inputs
      Provider.story StoryContext.inputs StoryContext.characterName
      StoryContext.characterType StoryContext.personality].
    destruct Hchanged as [[Hold Hnew]|[[Hold Hnew]|[Hold Hnew]]];
      rewrite (changed_true _ _ Hold Hnew); by rewrite ?orb_true_r. }
  pose proof (detailsWatcher_run _ _ Hrun) as Hsnd.
  rewrite Hany in Hsnd.
  destruct (Provider.detailsWatcher (Provider.refs_of false p) q)
    as [r1 p1] eqn:Hdetails.
  cbn [snd] in Hsnd. subst p1.
  assert (Hr1 :
    r1 = Provider.refs_of false
              (Provider.setCharacterPrompt
                 (StoryContext.characterPrompt
                    (StoryContext.inputs (Provider.story p)))
                 (Provider.clearCharacter q))).
  { revert Hdetails. unfold Provider.detailsWatcher. rewrite Hrun.
    intros [= <- _]. reflexivity. }
  exists r1, (Provider.clearCharacter q).
  assert (Hsecond :
    Provider.promptWatcher r1 (Provider.clearCharacter q)
    = (Provider.refs_of false
         (Provider.clearGeneratedContent (Provider.clearCharacter q)),
       Provider.clearGeneratedContent (Provider.clearCharacter q))).
  { unfold Provider.promptWatcher, Provider.suspended.
    rewrite Hr1.
    cbn [Provider.refs_of Provider.isLoadingProjectRef
         Provider.prevCharacterPromptRef].
    replace (Provider.isHydrated (Provider.clearCharacter q)) with true
      by (symmetry; exact Hhydrated).
    cbn [negb orb].
    replace (StoryContext.characterPrompt
               (StoryContext.inputs
                  (Provider.story
                     (Provider.setCharacterPrompt
                        (StoryContext.characterPrompt
                           (StoryContext.inputs (Provider.story p)))
                        (Provider.clearCharacter q)))))
      with (StoryContext.characterPrompt
              (StoryContext.inputs (Provider.story p))) by reflexivity.
    replace (StoryContext.characterPrompt
               (StoryContext.inputs
                  (Provider.story (Provider.clearCharacter q))))
      with "" by reflexivity.
    rewrite (changed_true _ "" Hprompt) by (intros Heq; by rewrite Heq in Hprompt).
    reflexivity. }
  eexists _, _. split; [reflexivity|]. split; [exact Hsecond|].
  split; [reflexivity|]. split; [reflexivity|]. split; [reflexivity|].
  pose proof (watchers_in_sync false
                (Provider.clearGeneratedContent (Provider.clearCharacter q)))
    as Hsync.
  unfold Provider.watchers in Hsync.
  apply Forall_cons in Hsync as [_ Hsync].
  apply Forall_cons in Hsync as [_ Hsync].
  apply Forall_cons in Hsync as [_ Hsync].
  apply Forall_cons in Hsync as [Hd Hsync].
  apply Forall_cons in Hsync as [Hp _].
  split; assumption.
Qed.

Lemma changed_details_clear_story_in_two_rounds_witness :
  exists r1 p1 r2 p2,
    Provider.detailsWatcher (Provider.refs_of false Example.momo_provider)
      (Provider.setPersonality "curious"
         (Provider.setCharacterType "cat"
            (Provider.setCharacterName "Mimi" Example.momo_provider)))
    = (r1, p1)
    /\ Provider.promptWatcher r1 p1 = (r2, p2)
    /\ p1 = Provider.clearCharacter
              (Provider.setPersonality "curious"
                 (Provider.setCharacterType "cat"
                    (Provider.setCharacterName "Mimi" Example.momo_provider)))
    /\ p2 = Provider.clearGeneratedContent p1
    /\ r2 = Provider.refs_of false p2
    /\ Provider.detailsWatcher r2 p2 = (r2, p2)
    /\ Provider.promptWatcher r2 p2 = (r2, p2).
Proof.
  apply (changed_details_clear_story_in_two_rounds Example.momo_provider
           "Mimi" "cat" "curious").
  - reflexivity.
  - discriminate.
  - left. split; discriminate.
Defined.

Lemma append_empty_r (s : string) : s +:+ "" = s.
Proof. induction s as [|c s IH]; [done|]. by rewrite append_cons, IH. Qed.

Lemma quote_list_inj (l l' : list string) :
  Js.quote_list l = Js.quote_list l' -> l = l'.
Proof.
  intros Heq.
  destruct (quote_list_prefix_inj l l' "" "") as [Hl _]; [|done].
  by rewrite !append_empty_r.
Qed.

Lemma themesWatcher_run (r : Provider.Refs) (p : Provider.State) :
  Provider.suspended r p = false ->
  snd (Provider.themesWatcher r p)
  = (if (negb (String.eqb (Js.quote_list (Provider.prevThemesRef r))
                 (Js.quote_list
                    (StoryContext.selectedThemes
                       (StoryContext.inputs (Provider.story p)))))
         || negb (String.eqb (Provider.prevCustomThemeRef r)
                    (StoryContext.customTheme
                       (StoryContext.inputs (Provider.story p)))))
        && negb (String.eqb
                   (StoryContext.characterImageUrl
                      (StoryContext.inputs (Provider.story p))) "")
     then
       Provider.clearGeneratedContent
         (Provider.setCharacterCreationStep Provider.method
            (Provider.setCharacterCreationMethod None
               (Provider.clearCharacter p)))
     else p).
Proof.
  intros Hrun. unfold Provider.themesWatcher. rewrite Hrun. cbv zeta.
  cbn [snd].
  destruct (negb (String.eqb (Js.quote_list _) _)),
    (negb (String.eqb (Provider.prevCustomThemeRef r) _)),
    (negb (String.eqb (StoryContext.characterImageUrl _) _));
    reflexivity.
Qed.

(** X15. A change of the themes or of the custom theme clears something
    only when a character image exists. Without one, the watcher just
    remembers the new themes, so that a character created later is not
    taken away for that change. With one, it takes away the character, the
    creation method and the generated content; since that empties the
    creation method, the watcher of the method, which runs in the render
    that follows, takes away the uploaded image and the character
    description as well, unless no method had been chosen. *)
Theorem changed_themes_clear_character_then_upload (p : Provider.State)
    (themes : list string) (custom : string) :
  Provider.isHydrated p = true ->
  themes
  <> StoryContext.selectedThemes (StoryContext.inputs (Provider.story p))
  \/ custom
     <> StoryContext.customTheme (StoryContext.inputs (Provider.story p)) ->
  (StoryContext.characterImageUrl (StoryContext.inputs (Provider.story p)) = ""
   -> Provider.themesWatcher (Provider.refs_of false p)
        (Provider.setCustomTheme custom (Provider.setSelectedThemes themes p))
      = (Provider.refs_of false
           (Provider.setCustomTheme custom
              (Provider.setSelectedThemes themes p)),
         Provider.setCustomTheme custom (Provider.setSelectedThemes themes p)))
  /\ (StoryContext.characterImageUrl (StoryContext.inputs (Provider.story p))
      <> "" ->
      exists r1 p1 r2 p2,
        Provider.themesWatcher (Provider.refs_of false p)
          (Provider.setCustomTheme custom
             (Provider.setSelectedThemes themes p))
        = (r1, p1)
        /\ Provider.methodWatcher r1 p1 = (r2, p2)
        /\ p1 = Provider.clearGeneratedContent
                  (Provider.setCharacterCreationStep Provider.method
                     (Provider.setCharacterCreationMethod None
                        (Provider.clearCharacter
                           (Provider.setCustomTheme custom
                              (Provider.setSelectedThemes themes p)))))
        /\ p2 = match Provider.characterCreationMethod p with
                 | Some _ =>
                     Provider.setCharacterDescription ""
                       (Provider.setUpload "" "" false p1)
                 | None => p1
                 end).
Proof.
  intros Hhydrated Hchanged.
  set (q := Provider.setCustomTheme custom
              (Provider.setSelectedThemes themes p)).
  assert (Hrun : Provider.suspended (Provider.refs_of false p) q = false).
  { unfold Provider.suspended. cbn. by rewrite Hhydrated. }
  assert (Hany :
    negb (String.eqb
            (Js.quote_list (Provider.prevThemesRef (Provider.refs_of false p)))
            (Js.quote_list
               (StoryContext.selectedThemes
                  (StoryContext.inputs (Provider.story q)))))
    || negb (String.eqb
               (Provider.prevCustomThemeRef (Provider.refs_of false p))
               (StoryContext.customTheme
                  (StoryContext.inputs (Provider.story q))))
    = true).
  { replace (StoryContext.selectedThemes
               (StoryContext.inputs (Provider.story q)))
      with themes by reflexivity.
    replace (StoryContext.customTheme
               (StoryContext.inputs (Provider.story q)))
      with custom by reflexivity.
    cbn [Provider.refs_of Provider.prevThemesRef Provider.prevCustomThemeRef].
    destruct Hchanged as [Hthemes|Hcustom].
    - apply orb_true_intro. left. apply negb_true_iff, String.eqb_neq.
      intros Heq. apply quote_list_inj in Heq. by rewrite Heq in Hthemes.
    - apply orb_true_intro. right. apply negb_true_iff, String.eqb_neq.
      intros Heq. by rewrite Heq in Hcustom. }
  pose proof (themesWatcher_run _ _ Hrun) as Hsnd.
  rewrite Hany in Hsnd.
  replace (StoryContext.characterImageUrl
             (StoryContext.inputs (Provider.story q)))
    with (StoryContext.characterImageUrl
            (StoryContext.inputs (Provider.story p))) in Hsnd by reflexivity.
  destruct (Provider.themesWatcher (Provider.refs_of false p) q)
    as [r1 p1] eqn:Hthemes.
  assert (Hr1 : r1 = Provider.refs_of false q).
  { revert Hthemes. unfold Provider.themesWatcher. rewrite Hrun.
    intros [= <- _]. reflexivity. }
  cbn [snd] in Hsnd. split.
  - intros Hnone. rewrite Hnone in Hsnd. cbn in Hsnd. by rewrite Hr1, Hsnd.
  - intros Hsome. apply String.eqb_neq in Hsome. rewrite Hsome in Hsnd.
    cbn [negb andb] in Hsnd.
    exists r1, p1.
    assert (Hrun1 : Provider.suspended r1 p1 = false).
    { rewrite Hr1, Hsnd. unfold Provider.suspended. cbn. by rewrite Hhydrated. }
    assert (Hmethod :
      snd (Provider.methodWatcher r1 p1)
      = match Provider.characterCreationMethod p with
        | Some _ =>
            Provider.setCharacterDescription ""
              (Provider.setUpload "" "" false p1)
        | None => p1
        end).
    { unfold Provider.methodWatcher. rewrite Hrun1.
      rewrite Hr1, Hsnd.
      replace (Provider.prevCharacterCreationMethodRef
                 (Provider.refs_of false q))
        with (Provider.characterCreationMethod p) by reflexivity.
      destruct (Provider.characterCreationMethod p) as [[|]|]; reflexivity. }
    destruct (Provider.methodWatcher r1 p1) as [r2 p2].
    exists r2, p2. split; [reflexivity|]. split; [reflexivity|].
    split; [exact Hsnd|]. exact Hmethod.
Qed.

Lemma changed_themes_clear_character_then_upload_witness :
  (StoryContext.characterImageUrl
     (StoryContext.inputs (Provider.story Example.momo_provider)) = ""
   -> Provider.themesWatcher (Provider.refs_of false Example.momo_provider)
        (Provider.setCustomTheme ""
           (Provider.setSelectedThemes ["space"] Example.momo_provider))
      = (Provider.refs_of false
           (Provider.setCustomTheme ""
              (Provider.setSelectedThemes ["space"] Example.momo_provider)),
         Provider.setCustomTheme ""
           (Provider.setSelectedThemes ["space"] Example.momo_provider)))
  /\ (StoryContext.characterImageUrl
        (StoryContext.inputs (Provider.story Example.momo_provider))
      <> "" ->
      exists r1 p1 r2 p2,
        Provider.themesWatcher (Provider.refs_of false Example.momo_provider)
          (Provider.setCustomTheme ""
             (Provider.setSelectedThemes ["space"] Example.momo_provider))
        = (r1, p1)
        /\ Provider.methodWatcher r1 p1 = (r2, p2)
        /\ p1 = Provider.clearGeneratedContent
                  (Provider.setCharacterCreationStep Provider.method
                     (Provider.setCharacterCreationMethod None
                        (Provider.clearCharacter
                           (Provider.setCustomTheme ""
                              (Provider.setSelectedThemes ["space"]
                                 Example.momo_provider)))))
        /\ p2 = match Provider.characterCreationMethod Example.momo_provider
                with
                | Some _ =>
                    Provider.setCharacterDescription ""
                      (Provider.setUpload "" "" false p1)
                | None => p1
                end).
Proof.
  apply (changed_themes_clear_character_then_upload Example.momo_provider
           ["space"] "").
  - reflexivity.
  - left. discriminate.
Defined.

(** ** Saving a story and loading it again *)

Lemma or_string_some (s : string) : Provider.or_string (Some s) "" = s.
Proof. by destruct s. Qed.

Lemma or_string_or_undefined (s : string) :
  Provider.or_string (Provider.or_undefined s) "" = s.
Proof. by destruct s. Qed.

Lemma count_or_six_some (n : nat) :
  n <> 0 -> Provider.count_or_six (Some n) = n.
Proof. by destruct n. Qed.

Lemma scenesData_numbers (s : StoryContext.Story) :
  map Provider.scene_number (Provider.scenesData s)
  = map StoryContext.scene_number (StoryContext.scenes s).
Proof.
  unfold Provider.scenesData. apply list_eq. intros i.
  rewrite !lookup_map, list_lookup_imap.
  by destruct (StoryContext.scenes s !! i).
Qed.

(** The inputs are read back from the fields that were sent; the character
    prompt is sent when it is not empty. *)
Lemma loadedInputs_returned (overrides : option Provider.Overrides)
    (p : Provider.State) (project : Provider.Project) :
  StoryContext.sceneCount (StoryContext.inputs (Provider.story p)) <> 0 ->
  StoryContext.characterPrompt (StoryContext.inputs (Provider.story p))
  <> "" ->
  Provider.returns_fields (Provider.projectData overrides p) project ->
  Provider.loadedInputs project = StoryContext.inputs (Provider.story p).
Proof.
  intros Hcount Hprompt
    (_ & Hstyle & Hthemes & Hcustom & Hname & Htype & Hpers & Hdesc & Himage
     & Hsent & Hscenes & _).
  unfold Provider.loadedInputs.
  rewrite Hstyle, Hthemes, Hcustom, Hname, Htype, Hpers, Hdesc, Himage,
    Hscenes.
  rewrite (Hsent (StoryContext.characterPrompt
                    (StoryContext.inputs (Provider.story p)))).
  - cbn [Provider.projectData Provider.data_character_name
         Provider.data_character_type Provider.data_personality
         Provider.data_character_description
         Provider.data_character_image_url Provider.data_style
         Provider.data_themes Provider.data_custom_theme
         Provider.data_scene_count default].
    rewrite !or_string_some, (count_or_six_some _ Hcount).
    by destruct (StoryContext.inputs (Provider.story p)).
  - cbn [Provider.projectData Provider.data_character_prompt].
    by destruct (StoryContext.characterPrompt
                   (StoryContext.inputs (Provider.story p))).
Qed.

(** Scenes sent in ascending order are read back in the order they were
    sent in. *)
Lemma loadedScenes_returned (project : Provider.Project)
    (s : StoryContext.Story) :
  Provider.ascending (map StoryContext.scene_number (StoryContext.scenes s)) ->
  Provider.scenes project = Some (Provider.scenesData s) ->
  Provider.loadedScenes project = Provider.scenesData s.
Proof.
  intros Hsorted Hsaved. unfold Provider.loadedScenes. rewrite Hsaved.
  destruct (Provider.scenesData s) as [|first rest] eqn:Hdata; [done|].
  rewrite <- Hdata. apply sortedScenes_ascending_id.
  by rewrite scenesData_numbers.
Qed.

Lemma str_to_string_or (v : Js.value) :
  Js.str (Js.to_string (Js.or_ v (Js.str ""))) = Js.or_ v (Js.str "").
Proof. unfold Js.or_. destruct v as [| |s]; [done..|]. by destruct s. Qed.

Lemma narration_reloaded (v : Js.value) :
  (if Provider.present (Some (Js.to_string (Js.or_ v (Js.str ""))))
   then Js.str (Provider.or_string
                  (Some (Js.to_string (Js.or_ v (Js.str "")))) "")
   else Js.null)
  = Js.or_ v Js.null.
Proof. unfold Js.or_. destruct v as [| |s]; [done..|]. by destruct s. Qed.

Lemma reloaded_array (s : StoryContext.Story) (a : Js.array)
    (field : Provider.ProjectScene -> option string) :
  (forall index scene,
     StoryContext.scenes s !! index = Some scene ->
     forall saved, Provider.scenesData s !! index = Some saved ->
     field saved
     = Some (Js.to_string (Js.or_ (Js.get a index) (Js.str "")))) ->
  map (fun saved => Some (Js.str (Provider.or_string (field saved) "")))
    (Provider.scenesData s)
  = SceneGeneration.resized (length (StoryContext.scenes s)) a.
Proof.
  intros Hfield. apply list_eq. intros i.
  rewrite lookup_map.
  destruct (StoryContext.scenes s !! i) as [scene|] eqn:Hscene.
  - rewrite resized_lookup by (by eapply lookup_lt_Some).
    destruct (Provider.scenesData s !! i) as [saved|] eqn:Hsaved.
    + cbn. rewrite (Hfield i scene Hscene saved Hsaved).
      by rewrite or_string_some, str_to_string_or.
    + unfold Provider.scenesData in Hsaved.
      rewrite list_lookup_imap, Hscene in Hsaved. done.
  - rewrite (lookup_ge_None_2 (SceneGeneration.resized _ _)).
    + unfold Provider.scenesData. by rewrite list_lookup_imap, Hscene.
    + rewrite resized_length. by apply lookup_ge_None_1.
Qed.

(** The title that is sent: the title of the story, or for an untitled
    story the name of its character followed by the suffix. *)
Lemma title_sent (overrides : option Provider.Overrides)
    (p : Provider.State) :
  (StoryContext.storyTitle (Provider.story p) <> "" ->
   Provider.data_title (Provider.projectData overrides p)
   = Some (StoryContext.storyTitle (Provider.story p)))
  /\ (StoryContext.storyTitle (Provider.story p) = "" ->
      StoryContext.characterName (StoryContext.inputs (Provider.story p))
      <> "" ->
      Provider.data_title (Provider.projectData overrides p)
      = Some (StoryContext.characterName
                (StoryContext.inputs (Provider.story p))
              +:+ Provider.title_suffix)).
Proof.
  cbn [Provider.projectData Provider.data_title]. split.
  - by destruct (StoryContext.storyTitle (Provider.story p)).
  - intros -> Hname.
    by destruct (StoryContext.characterName
                   (StoryContext.inputs (Provider.story p))).
Qed.

(** What [saveToDatabase] sends for a story with scenes, once a project
    exists or is created under a non-empty id: the fields, then the
    scenes. *)
Lemma saveToDatabase_sends_scenes (overrides : option Provider.Overrides)
    (responseId : string) (p : Provider.State) :
  StoryContext.scenes (Provider.story p) <> [] ->
  Provider.present (Provider.projectId p) = true \/ responseId <> "" ->
  exists first projectId,
    fst (Provider.saveToDatabase overrides (inr responseId) p)
    = [first;
       Provider.SaveScenes projectId (Provider.scenesData (Provider.story p))]
    /\ (first
        = Provider.UpdateProject projectId (Provider.projectData overrides p)
        \/ first = Provider.CreateProject (Provider.projectData overrides p)).
Proof.
  intros Hscenes Hid. unfold Provider.saveToDatabase.
  assert (Hn : Nat.eqb (length (StoryContext.scenes (Provider.story p))) 0
               = false).
  { by destruct (StoryContext.scenes (Provider.story p)). }
  rewrite Hn. cbn [negb]. rewrite andb_true_r.
  destruct (Provider.present (Provider.projectId p)) eqn:Hpresent.
  - assert (Hne : String.eqb (Provider.or_string (Provider.projectId p) "") ""
                  = false).
    { destruct (Provider.projectId p) as [[|ch rest]|]; done. }
    rewrite Hne. cbn [negb fst]. eexists _, _. split; [reflexivity|by left].
  - destruct Hid as [Hid|Hid]; [done|].
    apply String.eqb_neq in Hid. rewrite Hid. cbn [negb fst].
    eexists _, _. split; [reflexivity|by right].
Qed.

(** X16. A save and a load, for a story that has a character prompt and
    scenes, kept in ascending order of their number, and a scene count
    other than zero, saved to a project that exists or is created under a
    non-empty id. [saveToDatabase] sends the fields and then the scenes. If
    the project that [getProject] returns afterwards answers with what was
    sent, then [loadFromProject] gives back the inputs, but not all of the
    story. The signature loaded is the one of the saved inputs, and the
    final video is kept. The scene images and the videos come back brought
    to the length of the scenes, every entry that was not a non-empty
    string being the empty string. Each scene comes back with its number
    and text, with an empty scene type replaced by the default, with its
    narration when it had one and [null] otherwise, and without its
    narration duration and phonemes, which are not sent: the final page
    mounted on the loaded story asks for five seconds per scene. A title
    comes back, and an untitled story of a named character comes back
    titled after the character. *)
Theorem saved_story_is_loaded_back (overrides : option Provider.Overrides)
    (responseId : string) (p : Provider.State) (project : Provider.Project)
    (r : Provider.Refs) (q : Provider.State) :
  Provider.ascending
    (map StoryContext.scene_number (StoryContext.scenes (Provider.story p))) ->
  StoryContext.sceneCount (StoryContext.inputs (Provider.story p)) <> 0 ->
  StoryContext.characterPrompt (StoryContext.inputs (Provider.story p))
  <> "" ->
  StoryContext.scenes (Provider.story p) <> [] ->
  Provider.present (Provider.projectId p) = true \/ responseId <> "" ->
  Forall (Provider.answers_with project)
    (fst (Provider.saveToDatabase overrides (inr responseId) p)) ->
  let loaded := Provider.story (snd (Provider.loadFromProject project r q)) in
  (exists first projectId,
      fst (Provider.saveToDatabase overrides (inr responseId) p)
      = [first;
         Provider.SaveScenes projectId
           (Provider.scenesData (Provider.story p))])
  /\ StoryContext.inputs loaded = StoryContext.inputs (Provider.story p)
  /\ StoryContext.storySignature loaded
     = SceneGeneration.currentSignature
         (StoryContext.inputs (Provider.story p))
  /\ StoryContext.finalVideoUrl loaded
     = StoryContext.finalVideoUrl (Provider.story p)
  /\ (StoryContext.storyTitle (Provider.story p) <> "" ->
      StoryContext.storyTitle loaded
      = StoryContext.storyTitle (Provider.story p))
  /\ (StoryContext.storyTitle (Provider.story p) = "" ->
      StoryContext.characterName (StoryContext.inputs (Provider.story p))
      <> "" ->
      StoryContext.storyTitle loaded
      = StoryContext.characterName (StoryContext.inputs (Provider.story p))
        +:+ Provider.title_suffix)
  /\ StoryContext.sceneImages loaded
     = SceneGeneration.resized
         (length (StoryContext.scenes (Provider.story p)))
         (StoryContext.sceneImages (Provider.story p))
  /\ StoryContext.videos loaded
     = SceneGeneration.resized
         (length (StoryContext.scenes (Provider.story p)))
         (StoryContext.videos (Provider.story p))
  /\ length (StoryContext.scenes loaded)
     = length (StoryContext.scenes (Provider.story p))
  /\ (forall i line,
        StoryContext.scenes (Provider.story p) !! i = Some line ->
        exists line',
          StoryContext.scenes loaded !! i = Some line'
          /\ StoryContext.scene_number line' = StoryContext.scene_number line
          /\ StoryContext.script_text line' = StoryContext.script_text line
          /\ StoryContext.scene_type line'
             = Provider.or_string (Some (StoryContext.scene_type line))
                 "character"
          /\ StoryContext.narration_url line'
             = Js.or_ (StoryContext.narration_url line) Js.null
          /\ StoryContext.narration_duration line' = None
          /\ StoryContext.phonemes line' = None)
  /\ Forall (fun entry => FinalVideoPage.duration entry = 5%Q)
       (FinalVideoPage.request_scenes loaded).
Proof.
  intros Hsorted Hcount Hprompt Hscenes Hid Hanswers. cbv zeta.
  destruct (saveToDatabase_sends_scenes overrides responseId p Hscenes Hid)
    as (first & projectId & Hsent & Hfirst).
  split; [by exists first, projectId|].
  rewrite Hsent in Hanswers.
  apply Forall_cons in Hanswers as [Hfields Hanswers].
  apply Forall_cons in Hanswers as [Hsaved _].
  cbn [Provider.answers_with] in Hsaved.
  assert (Hreturned :
    Provider.returns_fields (Provider.projectData overrides p) project).
  { by destruct Hfirst as [-> | ->]. }
  clear Hfields Hfirst Hsent.
  pose proof (loadedInputs_returned overrides p project Hcount Hprompt
                Hreturned) as Hinputs.
  pose proof (loadedScenes_returned project (Provider.story p) Hsorted Hsaved)
    as Hloaded.
  destruct (title_sent overrides p) as [Htitled Huntitled].
  destruct Hreturned as (Htitle & _ & _ & _ & _ & _ & _ & _ & _ & _ & _
                         & Hfinal).
  cbn [Provider.loadFromProject snd Provider.story StoryContext.inputs
       StoryContext.storySignature StoryContext.finalVideoUrl
       StoryContext.storyTitle
       StoryContext.sceneImages StoryContext.videos StoryContext.scenes].
  rewrite Hloaded, Hinputs.
  split; [done|].
  split.
  { change (Provider.loadedSignature project)
      with (SceneGeneration.currentSignature (Provider.loadedInputs project)).
    by rewrite Hinputs. }
  split.
  { rewrite Hfinal.
    cbn [Provider.projectData Provider.data_final_video_url].
    apply or_string_some. }
  split.
  { intros Hne. rewrite (Htitle _ (Htitled Hne)). apply or_string_some. }
  split.
  { intros Hempty Hname. rewrite (Htitle _ (Huntitled Hempty Hname)).
    apply or_string_some. }
  split.
  { apply reloaded_array. intros index scene Hscene saved Hsaved'.
    unfold Provider.scenesData in Hsaved'.
    rewrite list_lookup_imap, Hscene in Hsaved'. by injection Hsaved' as <-. }
  split.
  { apply reloaded_array. intros index scene Hscene saved Hsaved'.
    unfold Provider.scenesData in Hsaved'.
    rewrite list_lookup_imap, Hscene in Hsaved'. by injection Hsaved' as <-. }
  split.
  { unfold Provider.scenesData. by rewrite length_map, length_imap. }
  split.
  { intros i line Hline. eexists. split.
    - unfold Provider.scenesData.
      rewrite lookup_map, list_lookup_imap, Hline. reflexivity.
    - cbn [Provider.sceneLine StoryContext.scene_number
           StoryContext.script_text StoryContext.scene_type
           StoryContext.narration_url StoryContext.narration_duration
           StoryContext.phonemes Provider.scene_number Provider.script_text
           Provider.scene_type Provider.narration_url].
      rewrite or_string_some, narration_reloaded. done. }
  apply Forall_lookup. intros i entry Hi.
  unfold FinalVideoPage.request_scenes in Hi.
  rewrite list_lookup_imap in Hi.
  cbn [StoryContext.scenes] in Hi.
  rewrite lookup_map in Hi.
  destruct (Provider.scenesData (Provider.story p) !! i) as [saved|];
    [|done].
  cbn in Hi. by injection Hi as <-.
Qed.

Lemma saved_story_is_loaded_back_witness :
  let p := Example.momo_provider in
  let loaded := Provider.story Example.momo_reloaded in
  (exists first projectId,
      fst (Provider.saveToDatabase None (inr "project-1") p)
      = [first;
         Provider.SaveScenes projectId
           (Provider.scenesData (Provider.story p))])
  /\ StoryContext.inputs loaded = StoryContext.inputs (Provider.story p)
  /\ StoryContext.storySignature loaded
     = SceneGeneration.currentSignature
         (StoryContext.inputs (Provider.story p))
  /\ StoryContext.finalVideoUrl loaded
     = StoryContext.finalVideoUrl (Provider.story p)
  /\ (StoryContext.storyTitle (Provider.story p) <> "" ->
      StoryContext.storyTitle loaded
      = StoryContext.storyTitle (Provider.story p))
  /\ (StoryContext.storyTitle (Provider.story p) = "" ->
      StoryContext.characterName (StoryContext.inputs (Provider.story p))
      <> "" ->
      StoryContext.storyTitle loaded
      = StoryContext.characterName (StoryContext.inputs (Provider.story p))
        +:+ Provider.title_suffix)
  /\ StoryContext.sceneImages loaded
     = SceneGeneration.resized
         (length (StoryContext.scenes (Provider.story p)))
         (StoryContext.sceneImages (Provider.story p))
  /\ StoryContext.videos loaded
     = SceneGeneration.resized
         (length (StoryContext.scenes (Provider.story p)))
         (StoryContext.videos (Provider.story p))
  /\ length (StoryContext.scenes loaded)
     = length (StoryContext.scenes (Provider.story p))
  /\ (forall i line,
        StoryContext.scenes (Provider.story p) !! i = Some line ->
        exists line',
          StoryContext.scenes loaded !! i = Some line'
          /\ StoryContext.scene_number line' = StoryContext.scene_number line
          /\ StoryContext.script_text line' = StoryContext.script_text line
          /\ StoryContext.scene_type line'
             = Provider.or_string (Some (StoryContext.scene_type line))
                 "character"
          /\ StoryContext.narration_url line'
             = Js.or_ (StoryContext.narration_url line) Js.null
          /\ StoryContext.narration_duration line' = None
          /\ StoryContext.phonemes line' = None)
  /\ Forall (fun entry => FinalVideoPage.duration entry = 5%Q)
       (FinalVideoPage.request_scenes loaded).
Proof.
  apply (saved_story_is_loaded_back None "project-1" Example.momo_provider
           Example.momo_stored
           (Provider.refs_of false Provider.initial) Provider.initial).
  - cbn. repeat split; repeat constructor; lia.
  - discriminate.
  - discriminate.
  - discriminate.
  - left. reflexivity.
  - repeat constructor; cbn; congruence.
Defined.

(** X17. A story without scenes is saved without its scenes being sent:
    for a provider that has a project, [saveToDatabase] makes the one
    request that updates the project, so that the scenes stored for the
    project ([stored] below, whatever they are) are not replaced. When the
    project is loaded afterwards, these scenes are taken as the scenes of
    the story, all of them, under the signature of the inputs that were
    saved last: the signature effect of the editor clears nothing. So the
    clearing of a story by a watcher is not kept by a save and a load. *)
Theorem cleared_story_keeps_its_stored_scenes
    (overrides : option Provider.Overrides) (responseId : string)
    (p : Provider.State) (stored : list Provider.ProjectScene)
    (r : Provider.Refs) (q : Provider.State) (l : SceneGeneration.Local) :
  StoryContext.scenes (Provider.story p) = [] ->
  Provider.present (Provider.projectId p) = true ->
  fst (Provider.saveToDatabase overrides (inr responseId) p)
  = [Provider.UpdateProject (Provider.or_string (Provider.projectId p) "")
       (Provider.projectData overrides p)]
  /\ length
       (StoryContext.scenes
          (Provider.story
             (snd (Provider.loadFromProject
                     (Provider.storedProject
                        (Provider.or_string (Provider.projectId p) "")
                        (Provider.projectData overrides p) stored) r q))))
     = length stored
  /\ SceneGeneration.signatureEffect
       {| SceneGeneration.story :=
            Provider.story
              (snd (Provider.loadFromProject
                      (Provider.storedProject
                         (Provider.or_string (Provider.projectId p) "")
                         (Provider.projectData overrides p) stored) r q));
          SceneGeneration.local := l |}
     = ({| SceneGeneration.story :=
             Provider.story
               (snd (Provider.loadFromProject
                       (Provider.storedProject
                          (Provider.or_string (Provider.projectId p) "")
                          (Provider.projectData overrides p) stored) r q));
           SceneGeneration.local := l |}, false).
Proof.
  intros Hscenes Hid. split; [|split].
  - unfold Provider.saveToDatabase. rewrite Hid, Hscenes.
    cbn [length Nat.eqb negb]. by rewrite andb_false_r.
  - cbn [Provider.loadFromProject snd Provider.story StoryContext.scenes].
    rewrite length_map.
    change stored
      with (default [] (Provider.scenes
                          (Provider.storedProject
                             (Provider.or_string (Provider.projectId p) "")
                             (Provider.projectData overrides p) stored)))
      at 2.
    apply Permutation_length, loadedScenes_perm.
  - by apply signatureEffect_equal.
Qed.

Lemma cleared_story_keeps_its_stored_scenes_witness :
  fst (Provider.saveToDatabase None (inr "project-1") Example.momo_cleared)
  = [Provider.UpdateProject
       (Provider.or_string (Provider.projectId Example.momo_cleared) "")
       (Provider.projectData None Example.momo_cleared)]
  /\ length
       (StoryContext.scenes
          (Provider.story
             (snd (Provider.loadFromProject
                     (Provider.storedProject
                        (Provider.or_string
                           (Provider.projectId Example.momo_cleared) "")
                        (Provider.projectData None Example.momo_cleared)
                        (Provider.scenesData
                           (Provider.story Example.momo_provider)))
                     (Provider.refs_of false Provider.initial)
                     Provider.initial))))
     = length (Provider.scenesData (Provider.story Example.momo_provider))
  /\ SceneGeneration.signatureEffect
       {| SceneGeneration.story :=
            Provider.story
              (snd (Provider.loadFromProject
                      (Provider.storedProject
                         (Provider.or_string
                            (Provider.projectId Example.momo_cleared) "")
                         (Provider.projectData None Example.momo_cleared)
                         (Provider.scenesData
                            (Provider.story Example.momo_provider)))
                      (Provider.refs_of false Provider.initial)
                      Provider.initial));
          SceneGeneration.local := SceneGeneration.initial |}
     = ({| SceneGeneration.story :=
             Provider.story
               (snd (Provider.loadFromProject
                       (Provider.storedProject
                          (Provider.or_string
                             (Provider.projectId Example.momo_cleared) "")
                          (Provider.projectData None Example.momo_cleared)
                          (Provider.scenesData
                             (Provider.story Example.momo_provider)))
                       (Provider.refs_of false Provider.initial)
                       Provider.initial));
           SceneGeneration.local := SceneGeneration.initial |}, false).
Proof.
  apply (cleared_story_keeps_its_stored_scenes None "project-1"
           Example.momo_cleared
           (Provider.scenesData (Provider.story Example.momo_provider))
           (Provider.refs_of false Provider.initial) Provider.initial
           SceneGeneration.initial); reflexivity.
Defined.

(** The witness evaluated: the story cleared after a change of the
    character is loaded with the five scenes and videos stored before the
    change, and with no character prompt. *)
Example cleared_story_comes_back :
  StoryContext.videos
    (Provider.story
       (snd (Provider.loadFromProject
               (Provider.storedProject "project-1"
                  (Provider.projectData None Example.momo_cleared)
                  (Provider.scenesData (Provider.story Example.momo_provider)))
               (Provider.refs_of false Provider.initial) Provider.initial)))
  = Js.of_strings ["v1.mp4"; "v2.mp4"; "v3.mp4"; "v4.mp4"; "v5.mp4"]
  /\ StoryContext.characterPrompt
       (StoryContext.inputs
          (Provider.story
             (snd (Provider.loadFromProject
                     (Provider.storedProject "project-1"
                        (Provider.projectData None Example.momo_cleared)
                        (Provider.scenesData
                           (Provider.story Example.momo_provider)))
                     (Provider.refs_of false Provider.initial)
                     Provider.initial))))
     = "".
Proof. split; reflexivity. Qed.

(** ** Starting over *)

(** X18. [reset] leaves a state that the watchers do not disturb and on
    which the editor starts nothing. The function empties the watched
    inputs, so the watchers run in the render that follows and, their refs
    still holding the old values, call their clearing functions: whatever
    the refs hold, each of the six leaves the state exactly as [reset]
    made it. The editor mounted on that state neither loads scenes nor
    asks for a script, and the effect of the automatic save sets no timer,
    no style being chosen. The state is not the one the provider starts
    with: it has five scenes to make where the first render has six. *)
Theorem reset_state_is_stable (r : Provider.Refs) (p : Provider.State) :
  Forall (fun w => snd (w r (Provider.reset p)) = Provider.reset p)
    Provider.watchers
  /\ SceneGeneration.mountEffect
       {| SceneGeneration.story := Provider.story (Provider.reset p);
          SceneGeneration.local := SceneGeneration.initial |}
     = ({| SceneGeneration.story := Provider.story (Provider.reset p);
           SceneGeneration.local := SceneGeneration.initial |}, false)
  /\ Provider.autoSave_armed (Provider.reset p) = false
  /\ Provider.reset Provider.initial <> Provider.initial
  /\ Provider.setSceneCount 6 (Provider.reset Provider.initial)
     = Provider.initial.
Proof.
  split; [|split; [|split; [|split]]].
  - unfold Provider.watchers. repeat constructor.
    + unfold Provider.styleWatcher.
      destruct (Provider.suspended _ _); [done|]. cbn [snd].
      by destruct (Provider.changed _ _).
    + unfold Provider.themesWatcher.
      destruct (Provider.suspended _ _); [done|]. cbv zeta. cbn [snd].
      replace (StoryContext.characterImageUrl
                 (StoryContext.inputs (Provider.story (Provider.reset p))))
        with "" by reflexivity.
      cbn [String.eqb negb]. by rewrite !andb_false_r.
    + unfold Provider.methodWatcher.
      destruct (Provider.suspended _ _); [done|]. cbn [snd].
      by destruct (_ && _).
    + unfold Provider.detailsWatcher.
      destruct (Provider.suspended _ _); [done|]. cbv zeta. cbn [snd].
      by destruct (Provider.changed _ _), (Provider.changed _ _),
        (Provider.changed _ _).
    + unfold Provider.promptWatcher.
      destruct (Provider.suspended _ _); [done|]. cbn [snd].
      by destruct (Provider.changed _ _).
    + unfold Provider.sceneCountWatcher, StoryContext.sceneCountWatcher.
      destruct (_ || _); [done|].
      by destruct (_ && _).
  - reflexivity.
  - unfold Provider.autoSave_armed. by rewrite andb_false_r.
  - discriminate.
  - reflexivity.
Qed.

(** ** Creating the project *)

(** X19. A project is created once. A provider without a project id sends
    the request that creates the project; when that succeeds with a
    non-empty id, the id is stored, and every later save, whatever its
    outcome, begins with the request that updates the project of that id
    and keeps the id. When the creation fails, the error is swallowed, the
    state is unchanged and no scenes are sent, so that the next save tries
    to create the project again. *)
Theorem project_is_created_once (first second : option Provider.Overrides)
    (responseId : string) (answer : Api.JsError + string) (e : Api.JsError)
    (p : Provider.State) :
  Provider.present (Provider.projectId p) = false ->
  responseId <> "" ->
  head (fst (Provider.saveToDatabase first (inr responseId) p))
  = Some (Provider.CreateProject (Provider.projectData first p))
  /\ Provider.projectId
       (snd (Provider.saveToDatabase first (inr responseId) p))
     = Some responseId
  /\ head (fst (Provider.saveToDatabase second answer
                  (snd (Provider.saveToDatabase first (inr responseId) p))))
     = Some (Provider.UpdateProject responseId
               (Provider.projectData second
                  (snd (Provider.saveToDatabase first (inr responseId) p))))
  /\ Provider.projectId
       (snd (Provider.saveToDatabase second answer
               (snd (Provider.saveToDatabase first (inr responseId) p))))
     = Some responseId
  /\ Provider.saveToDatabase first (inl e) p
     = ([Provider.CreateProject (Provider.projectData first p)], p).
Proof.
  intros Hnone Hid.
  assert (Hfirst :
    snd (Provider.saveToDatabase first (inr responseId) p)
    = Provider.setProjectId (Some responseId) p).
  { unfold Provider.saveToDatabase. rewrite Hnone.
    by destruct (_ && _). }
  assert (Hpresent :
    Provider.present
      (Provider.projectId (Provider.setProjectId (Some responseId) p))
    = true).
  { cbn. by destruct responseId. }
  assert (Hor : Provider.or_string (Some responseId) "" = responseId).
  { by destruct responseId. }
  split; [|split; [|split; [|split]]].
  - unfold Provider.saveToDatabase. rewrite Hnone. by destruct (_ && _).
  - by rewrite Hfirst.
  - rewrite Hfirst. unfold Provider.saveToDatabase. rewrite Hpresent.
    cbn [Provider.projectId Provider.setProjectId]. rewrite Hor.
    destruct answer as [?|?]; [done|]. by destruct (_ && _).
  - rewrite Hfirst. unfold Provider.saveToDatabase. rewrite Hpresent.
    destruct answer as [?|?]; [done|]. by destruct (_ && _).
  - unfold Provider.saveToDatabase. by rewrite Hnone.
Qed.

Lemma project_is_created_once_witness :
  head (fst (Provider.saveToDatabase None (inr "project-1")
               Example.first_style))
  = Some (Provider.CreateProject
            (Provider.projectData None Example.first_style))
  /\ Provider.projectId
       (snd (Provider.saveToDatabase None (inr "project-1")
               Example.first_style))
     = Some "project-1"
  /\ head (fst (Provider.saveToDatabase None
                  (inl (Api.Error_ "Failed to update project: "))
                  (snd (Provider.saveToDatabase None (inr "project-1")
                          Example.first_style))))
     = Some (Provider.UpdateProject "project-1"
               (Provider.projectData None
                  (snd (Provider.saveToDatabase None (inr "project-1")
                          Example.first_style))))
  /\ Provider.projectId
       (snd (Provider.saveToDatabase None
               (inl (Api.Error_ "Failed to update project: "))
               (snd (Provider.saveToDatabase None (inr "project-1")
                       Example.first_style))))
     = Some "project-1"
  /\ Provider.saveToDatabase None
       (inl (Api.Error_ "Failed to create project: ")) Example.first_style
     = ([Provider.CreateProject
           (Provider.projectData None Example.first_style)],
        Example.first_style).
Proof.
  apply (project_is_created_once None None "project-1"
           (inl (Api.Error_ "Failed to update project: "))
           (Api.Error_ "Failed to create project: ") Example.first_style).
  - reflexivity.
  - discriminate.
Defined.

(** ** Choosing a character, themes and personalities *)

(** X20. Choosing a character and the story. [handleSelectCharacter] gives
    the context the image and the prompt of the chosen option; the watcher
    of the prompt, in the render that follows, clears the generated content
    exactly when a character prompt was held before and the new one
    differs from it: the first choice and the choice of the same prompt
    keep the story. On a story so cleared the editor, once mounted, records
    the signature of the new inputs and asks for a new script, the chosen
    prompt not being empty. *)
Theorem chosen_character_clears_story_of_another (p : Provider.State)
    (chosen : Z) (selected : Provider.CharacterOption) :
  Provider.isHydrated p = true ->
  List.find (fun c => Z.eqb (Provider.option_id c) chosen)
    (Provider.characterOptions p) = Some selected ->
  exists p1,
    Provider.handleSelectCharacter (Some chosen) p = (p1, true)
    /\ Provider.promptWatcher (Provider.refs_of false p) p1
       = (Provider.refs_of false
            (if Provider.changed
                  (StoryContext.characterPrompt
                     (StoryContext.inputs (Provider.story p)))
                  (Provider.option_prompt selected)
             then Provider.clearGeneratedContent p1 else p1),
          if Provider.changed
               (StoryContext.characterPrompt
                  (StoryContext.inputs (Provider.story p)))
               (Provider.option_prompt selected)
          then Provider.clearGeneratedContent p1 else p1)
    /\ (Provider.option_prompt selected <> "" ->
        exists c,
          SceneGeneration.mountEffect
            (fst (SceneGeneration.signatureEffect
                    {| SceneGeneration.story :=
                         Provider.story (Provider.clearGeneratedContent p1);
                       SceneGeneration.local := SceneGeneration.initial |}))
          = (c, true)
          /\ StoryContext.scenes (SceneGeneration.story c) = []
          /\ StoryContext.storySignature (SceneGeneration.story c)
             = SceneGeneration.currentSignature
                 (StoryContext.inputs (Provider.story p1))).
Proof.
  intros Hhydrated Hfind.
  unfold Provider.handleSelectCharacter. rewrite Hfind.
  set (p1 := Provider.setCharacterPrompt _ _).
  exists p1. split; [reflexivity|]. split.
  - unfold Provider.promptWatcher, Provider.suspended.
    replace (Provider.isHydrated p1) with true
      by (symmetry; exact Hhydrated).
    cbn [Provider.refs_of Provider.isLoadingProjectRef
         Provider.prevCharacterPromptRef negb orb].
    replace (StoryContext.characterPrompt
               (StoryContext.inputs (Provider.story p1)))
      with (Provider.option_prompt selected) by reflexivity.
    destruct (Provider.changed _ _); reflexivity.
  - intros Hprompt.
    unfold SceneGeneration.signatureEffect.
    replace (StoryContext.storySignature
               (SceneGeneration.story
                  {| SceneGeneration.story :=
                       Provider.story (Provider.clearGeneratedContent p1);
                     SceneGeneration.local := SceneGeneration.initial |}))
      with "" by reflexivity.
    cbn [String.eqb negb andb fst].
    unfold SceneGeneration.mountEffect.
    cbn [SceneGeneration.on_story SceneGeneration.story SceneGeneration.local
         SceneGeneration.initial SceneGeneration.hasGeneratedRef
         StoryContext.setStorySignature StoryContext.scenes
         Provider.clearGeneratedContent Provider.on_story Provider.story
         StoryContext.clearGeneratedContent length Nat.eqb negb andb
         StoryContext.inputs StoryContext.storySignature].
    replace (StoryContext.characterPrompt
               (StoryContext.inputs (Provider.story p1)))
      with (Provider.option_prompt selected) by reflexivity.
    apply String.eqb_neq in Hprompt. rewrite Hprompt. cbn [negb].
    eexists. split; [reflexivity|]. done.
Qed.

Lemma chosen_character_clears_story_of_another_witness :
  exists p1,
    Provider.handleSelectCharacter (Some 2%Z) Example.momo_provider
    = (p1, true)
    /\ Provider.promptWatcher (Provider.refs_of false Example.momo_provider)
         p1
       = (Provider.refs_of false
            (if Provider.changed
                  (StoryContext.characterPrompt
                     (StoryContext.inputs
                        (Provider.story Example.momo_provider)))
                  (Provider.option_prompt Example.second_option)
             then Provider.clearGeneratedContent p1 else p1),
          if Provider.changed
               (StoryContext.characterPrompt
                  (StoryContext.inputs (Provider.story Example.momo_provider)))
               (Provider.option_prompt Example.second_option)
          then Provider.clearGeneratedContent p1 else p1)
    /\ (Provider.option_prompt Example.second_option <> "" ->
        exists c,
          SceneGeneration.mountEffect
            (fst (SceneGeneration.signatureEffect
                    {| SceneGeneration.story :=
                         Provider.story (Provider.clearGeneratedContent p1);
                       SceneGeneration.local := SceneGeneration.initial |}))
          = (c, true)
          /\ StoryContext.scenes (SceneGeneration.story c) = []
          /\ StoryContext.storySignature (SceneGeneration.story c)
             = SceneGeneration.currentSignature
                 (StoryContext.inputs (Provider.story p1))).
Proof.
  apply (chosen_character_clears_story_of_another Example.momo_provider 2%Z
           Example.second_option); reflexivity.
Defined.

Lemma includes_elem_of (x : string) (l : list string) :
  Provider.includes x l = true <-> x ∈ l.
Proof.
  unfold Provider.includes. rewrite existsb_exists. split.
  - intros (y & Hin & Heq). apply String.eqb_eq in Heq as ->.
    by apply list_elem_of_In.
  - intros Hin. exists x. split; [by apply list_elem_of_In|].
    apply String.eqb_refl.
Qed.

Lemma elem_of_without (x y : string) (l : list string) :
  y ∈ Provider.without x l <-> y ∈ l /\ y <> x.
Proof.
  unfold Provider.without. rewrite !list_elem_of_In, filter_In.
  by rewrite negb_true_iff, String.eqb_neq.
Qed.

Lemma without_NoDup (x : string) (l : list string) :
  NoDup l -> NoDup (Provider.without x l).
Proof.
  induction 1 as [|y l Hy Hl IH]; [constructor|].
  unfold Provider.without. cbn [List.filter]. fold (Provider.without x l).
  destruct (negb (String.eqb y x)); [|done].
  constructor; [|done]. rewrite elem_of_without. tauto.
Qed.

Lemma without_length (x : string) (l : list string) :
  length (Provider.without x l) <= length l.
Proof. apply filter_length_le. Qed.

Lemma without_absent (x : string) (l : list string) :
  x ∉ l -> Provider.without x l = l.
Proof.
  induction l as [|y l IH]; [done|]. intros Hx.
  unfold Provider.without. cbn [List.filter]. fold (Provider.without x l).
  apply not_elem_of_cons in Hx as [Hxy Hl].
  apply not_eq_sym, String.eqb_neq in Hxy. rewrite Hxy. cbn [negb].
  by rewrite IH.
Qed.

Lemma toggled_within (limit : nat) (x : string) (l l' : list string) :
  NoDup l -> length l <= limit ->
  Provider.toggled limit x l = Some l' ->
  NoDup l' /\ length l' <= limit.
Proof.
  intros Hnodup Hlen. unfold Provider.toggled.
  destruct (Provider.includes x l) eqn:Hin.
  - intros [= <-]. split; [by apply without_NoDup|].
    pose proof (without_length x l). lia.
  - destruct (Nat.ltb_spec (length l) limit) as [Hlt|Hge]; [|done].
    intros [= <-]. split.
    + apply NoDup_app. split; [done|]. split; [|apply NoDup_singleton].
      intros y Hy Hyx. apply list_elem_of_singleton in Hyx as ->.
      apply includes_elem_of in Hy. congruence.
    + rewrite length_app. cbn. lia.
Qed.

(** A second click undoes the first when the entry was not chosen. *)
Lemma toggled_twice (limit : nat) (x : string) (l l' : list string) :
  Provider.includes x l = false ->
  Provider.toggled limit x l = Some l' ->
  Provider.toggled limit x l' = Some l.
Proof.
  intros Hout. unfold Provider.toggled at 1. rewrite Hout.
  destruct (Nat.ltb (length l) limit); [|done].
  intros [= <-]. unfold Provider.toggled.
  assert (Hin : Provider.includes x (l ++ [x]) = true).
  { apply includes_elem_of, elem_of_app. right. by apply list_elem_of_singleton. }
  rewrite Hin. f_equal. unfold Provider.without.
  rewrite List.filter_app. fold (Provider.without x l).
  rewrite without_absent.
  - cbn. rewrite String.eqb_refl. cbn. by rewrite app_nil_r.
  - intros Hx. apply includes_elem_of in Hx. congruence.
Qed.

(** X21. At most two themes. Whatever themes are clicked on the narration
    page, in whatever order, the themes of the page stay Provider.without
    repetition and at most two, given that they were so before; and when
    the context held the themes of the page before the clicks, it holds
    them after. *)
Theorem themes_stay_at_most_two (themeIds selectedThemes : list string)
    (p : Provider.State) :
  NoDup selectedThemes ->
  length selectedThemes <= 2 ->
  NoDup (fst (Provider.toggleThemes themeIds selectedThemes p))
  /\ length (fst (Provider.toggleThemes themeIds selectedThemes p)) <= 2
  /\ (StoryContext.selectedThemes (StoryContext.inputs (Provider.story p))
      = selectedThemes ->
      StoryContext.selectedThemes
        (StoryContext.inputs
           (Provider.story (snd (Provider.toggleThemes themeIds selectedThemes p))))
      = fst (Provider.toggleThemes themeIds selectedThemes p)).
Proof.
  revert selectedThemes p.
  induction themeIds as [|themeId later IH]; intros l p Hnodup Hlen.
  { by cbn. }
  cbn [Provider.toggleThemes]. unfold Provider.toggleTheme.
  destruct (Provider.toggled 2 themeId l) as [updated|] eqn:Htoggle.
  - destruct (toggled_within _ _ _ _ Hnodup Hlen Htoggle) as [Hnodup' Hlen'].
    destruct (IH updated (Provider.setSelectedThemes updated p) Hnodup' Hlen')
      as (Hn & Hl & Hcontext).
    split; [done|]. split; [done|]. intros _. by apply Hcontext.
  - by apply IH.
Qed.

Lemma themes_stay_at_most_two_witness :
  NoDup (fst (Provider.toggleThemes
                ["adventure"; "family"; "adventure"; "magic"; "animals"]
                ["adventure"; "friendship"] Example.momo_provider))
  /\ length (fst (Provider.toggleThemes
                    ["adventure"; "family"; "adventure"; "magic"; "animals"]
                    ["adventure"; "friendship"] Example.momo_provider))
     <= 2
  /\ (StoryContext.selectedThemes
        (StoryContext.inputs (Provider.story Example.momo_provider))
      = ["adventure"; "friendship"] ->
      StoryContext.selectedThemes
        (StoryContext.inputs
           (Provider.story
              (snd (Provider.toggleThemes
                      ["adventure"; "family"; "adventure"; "magic";
                       "animals"]
                      ["adventure"; "friendship"] Example.momo_provider))))
      = fst (Provider.toggleThemes
               ["adventure"; "family"; "adventure"; "magic"; "animals"]
               ["adventure"; "friendship"] Example.momo_provider)).
Proof.
  apply (themes_stay_at_most_two
           ["adventure"; "family"; "adventure"; "magic"; "animals"]
           ["adventure"; "friendship"] Example.momo_provider).
  - apply (bool_decide_unpack (NoDup ["adventure"; "friendship"])).
    reflexivity.
  - cbn. lia.
Defined.

Lemma split_from_other (acc : string) (c : ascii) (rest : string) :
  Ascii.eqb c "," = false ->
  Provider.split_from acc (String c rest)
  = Provider.split_from (acc +:+ String c EmptyString) rest.
Proof. intros Hc. cbn [Provider.split_from]. rewrite Hc. by destruct rest. Qed.

(** A piece Provider.without a comma is read as a whole. *)
Lemma split_from_word (e acc rest : string) :
  forallb (fun c => negb (Ascii.eqb c ",")) (list_ascii_of_string e) = true ->
  Provider.split_from acc (e +:+ rest) = Provider.split_from (acc +:+ e) rest.
Proof.
  revert acc. induction e as [|c e IH]; intros acc Hword.
  { by rewrite append_nil, append_empty_r. }
  cbn [list_ascii_of_string forallb] in Hword.
  apply andb_true_iff in Hword as [Hc He]. apply negb_true_iff in Hc.
  rewrite append_cons, (split_from_other _ _ _ Hc), (IH _ He).
  by rewrite append_assoc, append_cons, append_nil.
Qed.

Lemma is_word_spec (s : string) :
  Provider.is_word s = true ->
  s <> ""
  /\ forallb (fun c => negb (Ascii.eqb c ",")) (list_ascii_of_string s) = true.
Proof.
  unfold Provider.is_word. rewrite andb_true_iff, negb_true_iff, String.eqb_neq. tauto.
Qed.

(** Splitting what was joined gives the pieces back. *)
Lemma split_join (e : string) (l : list string) (acc : string) :
  Forall (fun s => Provider.is_word s = true) (e :: l) ->
  Provider.split_from acc (String.concat ", " (e :: l)) = (acc +:+ e) :: l.
Proof.
  revert e acc. induction l as [|e2 l IH]; intros e acc Hwords.
  - apply Forall_cons in Hwords as [He _].
    apply is_word_spec in He as [_ He].
    rewrite concat_single, <- (append_empty_r e), (split_from_word _ _ _ He).
    by rewrite append_empty_r.
  - apply Forall_cons in Hwords as [He Hl].
    apply is_word_spec in He as [_ He].
    rewrite concat_cons2, (split_from_word _ _ _ He).
    rewrite !append_cons, append_nil.
    cbn [Provider.split_from Ascii.eqb Bool.eqb andb].
    by rewrite (IH e2 "" Hl), append_nil.
Qed.

Lemma getPersonalities_joined (l : list string) (p : Provider.State) :
  Forall (fun s => Provider.is_word s = true) l ->
  Provider.getPersonalities (Provider.setPersonality (String.concat ", " l) p) = l.
Proof.
  intros Hwords. unfold Provider.getPersonalities.
  replace (StoryContext.personality
             (StoryContext.inputs
                (Provider.story
                   (Provider.setPersonality (String.concat ", " l) p))))
    with (String.concat ", " l) by reflexivity.
  destruct l as [|e l]; [done|].
  pose proof (split_join e l "" Hwords) as Hsplit.
  rewrite append_nil in Hsplit.
  destruct (String.concat ", " (e :: l)) as [|c rest] eqn:Hjoined; [|done].
  apply Forall_cons in Hwords as [He _].
  apply is_word_spec in He as [He _].
  destruct e as [|c e]; [done|]. destruct l; discriminate Hjoined.
Qed.

Lemma toggled_words (limit : nat) (x : string) (l l' : list string) :
  Provider.is_word x = true ->
  Forall (fun s => Provider.is_word s = true) l ->
  Provider.toggled limit x l = Some l' ->
  Forall (fun s => Provider.is_word s = true) l'.
Proof.
  intros Hx Hl. unfold Provider.toggled.
  destruct (Provider.includes x l).
  - intros [= <-]. apply Forall_forall. intros y Hy.
    apply elem_of_without in Hy as [Hy _].
    rewrite Forall_forall in Hl. by apply Hl.
  - destruct (Nat.ltb _ _); [|done]. intros [= <-].
    apply Forall_app. split; [done|]. by constructor.
Qed.

(** One click, read through the string of the context. *)
Lemma togglePersonality_list (id : string) (p : Provider.State) :
  Provider.is_word id = true ->
  Forall (fun s => Provider.is_word s = true) (Provider.getPersonalities p) ->
  Provider.getPersonalities (Provider.togglePersonality id p)
  = default (Provider.getPersonalities p) (Provider.toggled 3 id (Provider.getPersonalities p)).
Proof.
  intros Hid Hwords. unfold Provider.togglePersonality.
  destruct (Provider.toggled 3 id (Provider.getPersonalities p)) as [l'|] eqn:Htoggle; [|done].
  cbn [default]. apply getPersonalities_joined.
  by eapply toggled_words.
Qed.

(** X22. At most three personalities. The personalities are kept in the
    context as one string, joined by a comma and a space, and read back by
    splitting it. For ids that are not empty and hold no comma, as those of
    the page, whatever personalities are clicked, in whatever order, the
    personalities read back from the context stay such ids, Provider.without
    repetition and at most three, given that they were so before. *)
Theorem personalities_stay_at_most_three (personalityIds : list string)
    (p : Provider.State) :
  Forall (fun s => Provider.is_word s = true) personalityIds ->
  Forall (fun s => Provider.is_word s = true) (Provider.getPersonalities p) ->
  NoDup (Provider.getPersonalities p) ->
  length (Provider.getPersonalities p) <= 3 ->
  Forall (fun s => Provider.is_word s = true)
    (Provider.getPersonalities (Provider.togglePersonalities personalityIds p))
  /\ NoDup (Provider.getPersonalities (Provider.togglePersonalities personalityIds p))
  /\ length (Provider.getPersonalities (Provider.togglePersonalities personalityIds p)) <= 3.
Proof.
  revert p. induction personalityIds as [|id later IH];
    intros p Hids Hwords Hnodup Hlen; [done|].
  apply Forall_cons in Hids as [Hid Hlater].
  cbn [Provider.togglePersonalities].
  pose proof (togglePersonality_list id p Hid Hwords) as Hstep.
  destruct (Provider.toggled 3 id (Provider.getPersonalities p)) as [l'|] eqn:Htoggle;
    cbn [default] in Hstep.
  - destruct (toggled_within _ _ _ _ Hnodup Hlen Htoggle) as [Hn Hl].
    pose proof (toggled_words _ _ _ _ Hid Hwords Htoggle) as Hw.
    apply IH; by rewrite ?Hstep.
  - apply IH; by rewrite ?Hstep.
Qed.

Lemma personalities_stay_at_most_three_witness :
  Forall (fun s => Provider.is_word s = true)
    (Provider.getPersonalities
       (Provider.togglePersonalities
          ["kind"; "brave"; "kind"; "curious"; "funny"; "clever"]
          Provider.initial))
  /\ NoDup (Provider.getPersonalities
              (Provider.togglePersonalities
                 ["kind"; "brave"; "kind"; "curious"; "funny"; "clever"]
                 Provider.initial))
  /\ length (Provider.getPersonalities
               (Provider.togglePersonalities
                  ["kind"; "brave"; "kind"; "curious"; "funny"; "clever"]
                  Provider.initial))
     <= 3.
Proof.
  apply (personalities_stay_at_most_three
           ["kind"; "brave"; "kind"; "curious"; "funny"; "clever"]
           Provider.initial).
  - repeat constructor.
  - constructor.
  - constructor.
  - cbn. lia.
Defined.

(** The witness evaluated: the second click on the first personality
    takes it out, and the last click finds three chosen. *)
Example personalities_after_six_clicks :
  StoryContext.personality
    (StoryContext.inputs
       (Provider.story
          (Provider.togglePersonalities
             ["kind"; "brave"; "kind"; "curious"; "funny"; "clever"]
             Provider.initial)))
  = "brave, curious, funny".
Proof. reflexivity. Qed.

(** ** The end of the batch of videos *)

(** X23. When the batch of videos answers, the videos of the context are
    rebuilt from the scenes and the [story.videos] captured when the batch
    was started: a scene that was submitted gets the entry of the answer at
    its position among the submitted ones, and every other scene the
    captured entry at its index. So, when the answer holds a video for
    every submitted scene and the captured context held one for every other
    scene, the videos of the context afterwards have the length of the
    scenes and hold a non-empty URL at every index, which is what the gate
    of the final step asks of them; the entries of the scenes that were
    not submitted are those of the captured context; and the final video is
    cleared. *)
Theorem finished_batch_fills_videos (captured : StoryContext.Story)
    (capturedScenes : list SceneGeneration.Scene) (responseVideos : Js.array)
    (c : SceneGeneration.Client) :
  (forall k, k < length (SceneGeneration.scenesWithImages capturedScenes) ->
             Js.truthy (Js.get responseVideos k) = true) ->
  (forall idx scene,
     capturedScenes !! idx = Some scene ->
     SceneGeneration.findIndex
       (SceneGeneration.has_id (SceneGeneration.id scene))
       (SceneGeneration.scenesWithImages capturedScenes) = None ->
     Js.truthy (Js.get (StoryContext.videos captured) idx) = true) ->
  length
    (StoryContext.videos
       (SceneGeneration.story
          (SceneGeneration.generateAllVideos_finished captured capturedScenes
             responseVideos c)))
  = length capturedScenes
  /\ Js.every Js.truthy
       (StoryContext.videos
          (SceneGeneration.story
             (SceneGeneration.generateAllVideos_finished captured
                capturedScenes responseVideos c)))
     = true
  /\ StoryContext.finalVideoUrl
       (SceneGeneration.story
          (SceneGeneration.generateAllVideos_finished captured capturedScenes
             responseVideos c))
     = ""
  /\ (forall idx scene,
        capturedScenes !! idx = Some scene ->
        SceneGeneration.findIndex
          (SceneGeneration.has_id (SceneGeneration.id scene))
          (SceneGeneration.scenesWithImages capturedScenes) = None ->
        Js.get
          (StoryContext.videos
             (SceneGeneration.story
                (SceneGeneration.generateAllVideos_finished captured
                   capturedScenes responseVideos c))) idx
        = Js.get (StoryContext.videos captured) idx).
Proof.
  intros Hresponse Hothers.
  unfold SceneGeneration.generateAllVideos_finished.
  cbn [SceneGeneration.story StoryContext.setFinalVideoUrl
       StoryContext.setVideos StoryContext.videos StoryContext.finalVideoUrl].
  split; [by rewrite length_imap|]. split; [|split; [done|]].
  - apply every_truthy_get. rewrite length_imap. intros idx Hidx.
    destruct (lookup_lt_is_Some_2 capturedScenes idx Hidx) as [scene Hscene].
    erewrite get_lookup; [|by rewrite list_lookup_imap, Hscene].
    unfold SceneGeneration.generated_video_for.
    destruct (SceneGeneration.findIndex _ _) as [k|] eqn:Hfind.
    + apply Hresponse.
      destruct (findIndex_lookup _ _ _ Hfind) as (x & Hx & _).
      by eapply lookup_lt_Some.
    + pose proof (Hothers idx scene Hscene Hfind) as Htruthy.
      unfold Js.or_. by rewrite Htruthy.
  - intros idx scene Hscene Hfind.
    erewrite get_lookup; [|by rewrite list_lookup_imap, Hscene].
    unfold SceneGeneration.generated_video_for. rewrite Hfind.
    pose proof (Hothers idx scene Hscene Hfind) as Htruthy.
    unfold Js.or_. by rewrite Htruthy.
Qed.

Lemma finished_batch_fills_videos_witness :
  length
    (StoryContext.videos
       (SceneGeneration.story
          (SceneGeneration.generateAllVideos_finished
             (SceneGeneration.story Example.third_animated)
             (SceneGeneration.scenes
                (SceneGeneration.local Example.third_animated))
             Example.four_videos Example.third_animated)))
  = length (SceneGeneration.scenes
              (SceneGeneration.local Example.third_animated))
  /\ Js.every Js.truthy
       (StoryContext.videos
          (SceneGeneration.story
             (SceneGeneration.generateAllVideos_finished
                (SceneGeneration.story Example.third_animated)
                (SceneGeneration.scenes
                   (SceneGeneration.local Example.third_animated))
                Example.four_videos Example.third_animated)))
     = true
  /\ StoryContext.finalVideoUrl
       (SceneGeneration.story
          (SceneGeneration.generateAllVideos_finished
             (SceneGeneration.story Example.third_animated)
             (SceneGeneration.scenes
                (SceneGeneration.local Example.third_animated))
             Example.four_videos Example.third_animated))
     = ""
  /\ (forall idx scene,
        SceneGeneration.scenes (SceneGeneration.local Example.third_animated)
          !! idx = Some scene ->
        SceneGeneration.findIndex
          (SceneGeneration.has_id (SceneGeneration.id scene))
          (SceneGeneration.scenesWithImages
             (SceneGeneration.scenes
                (SceneGeneration.local Example.third_animated))) = None ->
        Js.get
          (StoryContext.videos
             (SceneGeneration.story
                (SceneGeneration.generateAllVideos_finished
                   (SceneGeneration.story Example.third_animated)
                   (SceneGeneration.scenes
                      (SceneGeneration.local Example.third_animated))
                   Example.four_videos Example.third_animated))) idx
        = Js.get
            (StoryContext.videos (SceneGeneration.story Example.third_animated))
            idx).
Proof.
  apply (finished_batch_fills_videos
           (SceneGeneration.story Example.third_animated)
           (SceneGeneration.scenes
              (SceneGeneration.local Example.third_animated))
           Example.four_videos Example.third_animated).
  - intros k Hk. do 4 (destruct k as [|k]; [reflexivity|]).
    simpl in Hk. lia.
  - intros idx scene Hscene Hfind.
    do 5 (destruct idx as [|idx];
          [injection Hscene as <-;
           first [discriminate Hfind | reflexivity]|]).
    discriminate Hscene.
Defined.

(** The witness evaluated, and the same answer when the third scene was
    being animated on its own while the batch ran: its video, stored in the
    context meanwhile, is replaced by the empty entry captured when the
    batch was started. *)
Example finished_batch_erases_single_video :
  StoryContext.videos
    (SceneGeneration.story
       (SceneGeneration.generateAllVideos_finished
          (SceneGeneration.story Example.third_animated)
          (SceneGeneration.scenes
             (SceneGeneration.local Example.third_animated))
          Example.four_videos Example.third_animated))
  = Js.of_strings ["b1.mp4"; "b2.mp4"; "v3.mp4"; "b4.mp4"; "b5.mp4"]
  /\ StoryContext.videos
       (SceneGeneration.story
          (SceneGeneration.generateAllVideos_finished
             (SceneGeneration.story Example.images_done)
             Example.third_generating
             Example.four_videos Example.third_animated))
     = Js.of_strings ["b1.mp4"; "b2.mp4"; ""; "b4.mp4"; "b5.mp4"].
Proof. split; reflexivity. Qed.
